(** * Property-tax record parsers: lifecycle contract and validation rules

    A shallow embedding of the parser family of [src/parsers]: the
    validation rule functions of [utils/validation.py], the transaction
    helpers of [utils/db.py] and [base.py], and the [validate], [clean],
    row-transformation and session-refresh methods of the per-source
    parsers.  Part I holds the embedding, Part II the properties. *)

From Stdlib Require Import ZArith QArith Ascii String Lia.
From stdpp Require Import base option list gmap strings.

Set Warnings "-register-all".
Set Default Proof Using "Type".
Open Scope Z_scope.

(* ===================================================================== *)
(** * Part I: the embedding                                                *)
(* ===================================================================== *)

(** ** Python values, exceptions and outcomes *)

Module Py.

(** A [float] is modelled by the number it denotes: a finite binary64
    value is a rational, and Python orders ints, floats and Decimals by
    their exact value.  The two infinities and NaN are kept apart. *)
Inductive pyfloat : Type :=
| FFin (q : Q)
| FNan
| FInf (negative : bool).

(** The values a record or a spreadsheet cell holds.  A [str] is a
    [string], each character a code point below 256; a [Decimal] is the
    finite number it denotes. *)
Inductive pyval : Type :=
| PyNone
| PyBool (b : bool)
| PyInt (z : Z)
| PyFloat (f : pyfloat)
| PyDecimal (q : Q)
| PyStr (s : string)
| PyList (l : list pyval)
| PyDict (d : gmap string pyval).

Abbreviation dict := (gmap string pyval).

(** Exception classes: the hierarchy of [exceptions.py], the
    [AuthenticationError] that [civicsource_dekalb.py] raises (see
    [DeKalb.authentication_error]), the builtins the modelled code can
    raise, [requests.exceptions.RequestException], and two classes that
    derive from [BaseException] only. *)
Inductive exn_class : Type :=
| ValidationError
| DatabaseError
| ConfigurationError
| DataFormatError
| AuthenticationError
| KeyError
| TypeError
| ValueError
| AttributeError
| IndexError
| FileNotFoundError
| OverflowError
| RequestException
| KeyboardInterrupt
| SystemExit.

Record exn : Type := mkExn { exn_cls : exn_class; exn_msg : string }.

(** [isinstance(e, Exception)], the test of every [except Exception]. *)
Definition is_Exception (e : exn) : bool :=
  match exn_cls e with
  | KeyboardInterrupt | SystemExit => false
  | _ => true
  end.

(** [str(e)] for an exception built from one message argument. *)
Definition str_exn (e : exn) : string := exn_msg e.

(** A call either returns a value or raises. *)
Inductive outcome (A : Type) : Type :=
| Ret (a : A)
| Raise (e : exn).
Arguments Ret {A} a.
Arguments Raise {A} e.

#[global] Instance outcome_ret : MRet outcome := fun A a => Ret a.
#[global] Instance outcome_bind : MBind outcome := fun A B k m =>
  match m with
  | Ret a => k a
  | Raise e => Raise e
  end.

Definition raise {A} (c : exn_class) (msg : string) : outcome A :=
  Raise (mkExn c msg).

(** The parts of the Python runtime the parsers call and whose results are
    fixed by CPython rather than by this repository: the text form of a
    value that is not a string, the parsing of a numeric literal held in
    a string, and [datetime.strptime]. *)
Record Runtime : Type := {
  repr_of : pyval -> string;
  float_of_string : string -> option pyfloat;
  int_of_string : string -> option Z;
  strptime_ok : string -> string -> bool
}.

(** Truth value testing, as [bool(v)], [not v] and [all(...)] apply it. *)
Definition truthy (v : pyval) : bool :=
  match v with
  | PyNone => false
  | PyBool b => b
  | PyInt z => negb (z =? 0)
  | PyFloat (FFin q) => negb (Qeq_bool q 0)
  | PyFloat _ => true
  | PyDecimal q => negb (Qeq_bool q 0)
  | PyStr s => negb (String.eqb s "")
  | PyList l => negb (Nat.eqb (List.length l) 0)
  | PyDict d => negb (Nat.eqb (size d) 0)
  end.

(** The real number behind a value of the numeric tower; [bool] is a
    subclass of [int]. *)
Definition num_value (v : pyval) : option pyfloat :=
  match v with
  | PyBool b => Some (FFin (if b then 1 else 0))
  | PyInt z => Some (FFin (inject_Z z))
  | PyFloat f => Some f
  | PyDecimal q => Some (FFin q)
  | _ => None
  end.

(** [bound <= x] and [x <= bound] for a finite bound; every comparison
    with NaN is false. *)
Definition bound_le (lo : Q) (x : pyfloat) : bool :=
  match x with
  | FFin q => Qle_bool lo q
  | FNan => false
  | FInf negative => negb negative
  end.

Definition le_bound (x : pyfloat) (hi : Q) : bool :=
  match x with
  | FFin q => Qle_bool q hi
  | FNan => false
  | FInf negative => negative
  end.

(** Strict versions, [bound < x] and [x < bound]. *)
Definition bound_lt (lo : Q) (x : pyfloat) : bool :=
  match x with
  | FFin q => negb (Qle_bool q lo)
  | FNan => false
  | FInf negative => negb negative
  end.

Definition lt_bound (x : pyfloat) (hi : Q) : bool :=
  match x with
  | FFin q => negb (Qle_bool hi q)
  | FNan => false
  | FInf negative => negative
  end.

(** Rounding to the nearest binary64 value, ties to even: what
    [float(int)] and [float(Decimal)] do to a number that is not itself
    representable.  [None] stands for a result beyond the largest finite
    float. *)
Definition div_half_even (n d : Z) : Z :=
  let m := n / d in
  let r := n mod d in
  if 2 * r >? d then m + 1
  else if (2 * r =? d) && Z.odd m then m + 1
  else m.

Definition log2_ratio (n d : Z) : Z :=
  let l := Z.log2 n - Z.log2 d in
  if n * 2 ^ Z.max 0 (- l) <? d * 2 ^ Z.max 0 l then l - 1 else l.

Definition nearest_float (q : Q) : option Q :=
  let n := Z.abs (Qnum q) in
  let d := Z.pos (Qden q) in
  if n =? 0 then Some 0%Q
  else
    let e := Z.max (-1074) (log2_ratio n d - 52) in
    let m := div_half_even (n * 2 ^ Z.max 0 (- e)) (d * 2 ^ Z.max 0 e) in
    if m * 2 ^ Z.max 0 e >=? 2 ^ 1024 * 2 ^ Z.max 0 (- e) then None
    else Some (Qred (Z.sgn (Qnum q) * m * 2 ^ Z.max 0 e
                     # Z.to_pos (2 ^ Z.max 0 (- e)))).

Section WithRuntime.
Variable rt : Runtime.

(** [str(v)]. *)
Definition py_str (v : pyval) : string :=
  match v with
  | PyStr s => s
  | PyNone => "None"
  | PyBool true => "True"
  | PyBool false => "False"
  | _ => repr_of rt v
  end.

(** [float(v)]. *)
Definition py_float (v : pyval) : outcome pyfloat :=
  match v with
  | PyBool b => Ret (FFin (if b then 1 else 0))
  | PyInt z =>
      match nearest_float (inject_Z z) with
      | Some q => Ret (FFin q)
      | None => raise OverflowError "int too large to convert to float"
      end
  | PyFloat f => Ret f
  | PyDecimal q =>
      match nearest_float q with
      | Some q' => Ret (FFin q')
      | None => Ret (FInf (Qnum q <? 0))
      end
  | PyStr s =>
      match float_of_string rt s with
      | Some f => Ret f
      | None => raise ValueError "could not convert string to float"
      end
  | _ => raise TypeError "float() argument must be a string or a real number"
  end.

(** [int(v)]: truncation towards zero for a float or Decimal. *)
Definition py_int (v : pyval) : outcome Z :=
  match v with
  | PyBool b => Ret (if b then 1 else 0)
  | PyInt z => Ret z
  | PyFloat (FFin q) | PyDecimal q => Ret (Z.quot (Qnum q) (Z.pos (Qden q)))
  | PyFloat FNan => raise ValueError "cannot convert float NaN to integer"
  | PyFloat (FInf _) => raise OverflowError "cannot convert float infinity to integer"
  | PyStr s =>
      match int_of_string rt s with
      | Some z => Ret z
      | None => raise ValueError "invalid literal for int() with base 10"
      end
  | _ => raise TypeError "int() argument must be a string or a real number"
  end.
End WithRuntime.

(** A computation that raises, if at all, an instance of [Exception]. *)
Definition only_Exception {A} (m : outcome A) : Prop :=
  forall e, m = Raise e -> is_Exception e = true.

(** A computation that does not return. *)
Definition never_returns {A} (m : outcome A) : Prop :=
  forall a, m <> Ret a.

(** [d[k]]: a missing key raises [KeyError], whose text is the key's repr. *)
Definition getitem (d : dict) (k : string) : outcome pyval :=
  match d !! k with
  | Some v => Ret v
  | None => raise KeyError ("'" +:+ k +:+ "'")
  end.

(** [v[k]] for a string key [k], on any value: a dict is looked up; a
    list and a string take integer indices only, and the other values
    cannot be subscripted at all. *)
Definition subscript (v : pyval) (k : string) : outcome pyval :=
  match v with
  | PyDict d => getitem d k
  | PyList _ =>
      raise TypeError "list indices must be integers or slices, not str"
  | PyStr _ => raise TypeError "string indices must be integers, not 'str'"
  | _ => raise TypeError "object is not subscriptable"
  end.

(** [d.get(k)] and [d.get(k, default)]. *)
Definition get (d : dict) (k : string) : pyval := default PyNone (d !! k).
Definition get_or (d : dict) (k : string) (dflt : pyval) : pyval :=
  default dflt (d !! k).

End Py.

(** ** Regular expressions, as [re.match] evaluates them *)

Module Regex.
Local Open Scope nat_scope.

(** The pattern constructs the parsers use.  [Any] is [.], [Bol] is [^],
    [Eol] is [$]; a bounded repetition [r{n}] is [Rep n r]. *)
Inductive regex : Type :=
| Eps
| Chr (c : ascii)
| Range (lo hi : ascii)
| Any
| Cat (r1 r2 : regex)
| Alt (r1 r2 : regex)
| Star (r : regex)
| Bol
| Eol.

Fixpoint Rep (n : nat) (r : regex) : regex :=
  match n with
  | O => Eps
  | S n' => Cat r (Rep n' r)
  end.

(** [\d] and [[A-Z]].  On a [str], [\d] matches every Unicode decimal
    digit (category Nd); of the code points below 256, which are all a
    [string] holds, these are the ten digits 0-9.  What is proved about
    the strings a pattern accepts is therefore proved for strings of code
    points below 256. *)
Definition Digit : regex := Range "0" "9".
Definition Upper : regex := Range "A" "Z".

Definition newline : ascii := "010".

Definition in_range (lo hi c : ascii) : bool :=
  (N_of_ascii lo <=? N_of_ascii c)%N && (N_of_ascii c <=? N_of_ascii hi)%N.

(** [at_end s i]: position [i] is where [$] succeeds, the end of the
    subject or just before a newline that ends it. *)
Definition at_end (s : list ascii) (i : nat) : bool :=
  (i =? List.length s) ||
  ((S i =? List.length s) &&
   match s !! i with Some c => Ascii.eqb c newline | None => false end).

(** Declarative semantics: [Matches s r i j] when [r] matches the slice
    [s[i:j]] of the subject [s]. *)
Inductive Matches (s : list ascii) : regex -> nat -> nat -> Prop :=
| MEps i : Matches s Eps i i
| MChr c i : s !! i = Some c -> Matches s (Chr c) i (S i)
| MRange lo hi c i :
    s !! i = Some c -> in_range lo hi c = true ->
    Matches s (Range lo hi) i (S i)
| MAny c i : s !! i = Some c -> c <> newline -> Matches s Any i (S i)
| MCat r1 r2 i j k :
    Matches s r1 i j -> Matches s r2 j k -> Matches s (Cat r1 r2) i k
| MAltL r1 r2 i j : Matches s r1 i j -> Matches s (Alt r1 r2) i j
| MAltR r1 r2 i j : Matches s r2 i j -> Matches s (Alt r1 r2) i j
| MStarNil r i : Matches s (Star r) i i
| MStarCons r i j k :
    Matches s r i j -> Matches s (Star r) j k -> Matches s (Star r) i k
| MBol : Matches s Bol 0 0
| MEol i : at_end s i = true -> Matches s Eol i i.

(** The end positions a repetition reaches from [i]: [i] itself, and what
    is reached after an iteration that consumed something.  An iteration
    that consumes nothing adds no position, so [fuel] need not exceed the
    number of characters left. *)
Fixpoint star_from (step : nat -> list nat) (fuel : nat) (i : nat) : list nat :=
  i :: match fuel with
       | O => []
       | S fuel' =>
           flat_map (fun j => if i <? j then star_from step fuel' j else [])
                    (step i)
       end.

(** All end positions [j] such that the pattern matches [s[i:j]], found
    by exhaustive search as a backtracking matcher does. *)
Fixpoint ends (s : list ascii) (r : regex) (i : nat) : list nat :=
  match r with
  | Eps => [i]
  | Chr c =>
      match s !! i with
      | Some d => if Ascii.eqb c d then [S i] else []
      | None => []
      end
  | Range lo hi =>
      match s !! i with
      | Some d => if in_range lo hi d then [S i] else []
      | None => []
      end
  | Any =>
      match s !! i with
      | Some d => if Ascii.eqb d newline then [] else [S i]
      | None => []
      end
  | Cat r1 r2 => flat_map (ends s r2) (ends s r1 i)
  | Alt r1 r2 => ends s r1 i ++ ends s r2 i
  | Star r' => star_from (ends s r') (List.length s - i) i
  | Bol => if i =? 0 then [i] else []
  | Eol => if at_end s i then [i] else []
  end.

(** [bool(re.match(pattern, value))]: the pattern matches at the start of
    the value; the match may stop anywhere. *)
Definition re_match (p : regex) (value : string) : bool :=
  match ends (list_ascii_of_string value) p 0 with
  | [] => false
  | _ :: _ => true
  end.

(** [bool(re.fullmatch(pattern, value))]: some match ends at the end of
    the value. *)
Definition re_fullmatch (p : regex) (value : string) : bool :=
  let s := list_ascii_of_string value in
  existsb (Nat.eqb (List.length s)) (ends s p 0).

End Regex.

(** ** utils/validation.py *)

Module Validation.
Import Py Regex.

(** The classes [validate_type] and [validate_tax_amount] test against. *)
Inductive pytype : Type :=
| TNone | TBool | TInt | TFloat | TDecimal | TStr | TList | TDict.

(** [isinstance(value, t)]; a [bool] is also an [int]. *)
Definition isinstance (value : pyval) (t : pytype) : bool :=
  match value, t with
  | PyNone, TNone => true
  | PyBool _, TBool | PyBool _, TInt => true
  | PyInt _, TInt => true
  | PyFloat _, TFloat => true
  | PyDecimal _, TDecimal => true
  | PyStr _, TStr => true
  | PyList _, TList => true
  | PyDict _, TDict => true
  | _, _ => false
  end.

Definition validate_type (value : pyval) (expected_type : list pytype) : bool :=
  existsb (isinstance value) expected_type.

(** [bool(re.match(pattern, value))]; [re.match] raises [TypeError] on a
    value that is not a string. *)
Definition validate_string_format (value : pyval) (pattern : regex)
  : outcome bool :=
  match value with
  | PyStr s => Ret (re_match pattern s)
  | _ => raise TypeError "expected string or bytes-like object"
  end.

Definition default_date_format : string := "%Y-%m-%d".

(** [datetime.strptime] in a [try]: [ValueError] gives [False]; a value
    that is not a string raises [TypeError], which is not caught here. *)
Definition validate_date_format (rt : Runtime) (value : pyval)
    (format_str : string) : outcome bool :=
  match value with
  | PyStr s => Ret (strptime_ok rt s format_str)
  | _ => raise TypeError "strptime() argument 1 must be str"
  end.

(** [min_val <= value <= max_val]. The bounds are numeric literals at
    every call site; a value outside the numeric tower cannot be ordered
    with them and raises [TypeError]. *)
Definition validate_numeric_range (value : pyval) (min_val max_val : Q)
  : outcome bool :=
  match num_value value with
  | Some x => Ret (bound_le min_val x && le_bound x max_val)
  | None => raise TypeError "'<=' not supported between instances"
  end.

(** [all(data.get(field) for field in required_fields)]. *)
Definition validate_required_fields (data : dict)
    (required_fields : list string) : bool :=
  forallb (fun field => truthy (get data field)) required_fields.

(** [value.replace('-', '')]. *)
Fixpoint remove_dashes (s : string) : string :=
  match s with
  | EmptyString => EmptyString
  | String c s' =>
      if Ascii.eqb c "-" then remove_dashes s' else String c (remove_dashes s')
  end.

(** [^\d{13}$] after the dashes are removed. *)
Definition validate_cobb_id (value : string) : bool :=
  re_match (Cat Bol (Cat (Rep 13 Digit) Eol)) (remove_dashes value).

(** [^\d{3}[A-Z]\d{8}$]. *)
Definition validate_clayton_parcel (value : string) : bool :=
  re_match (Cat Bol (Cat (Rep 3 Digit) (Cat Upper (Cat (Rep 8 Digit) Eol))))
           value.

Definition MAX_TAX_AMOUNT : Q := 10000000.

(** [isinstance(value, (float, Decimal)) and 0 < value < MAX_TAX_AMOUNT]. *)
Definition validate_tax_amount (value : pyval) : bool :=
  validate_type value [TFloat; TDecimal] &&
  match num_value value with
  | Some x => bound_lt 0 x && lt_bound x MAX_TAX_AMOUNT
  | None => false
  end.

(** [^\d{6}-\d{2}$]; [re.match] raises [TypeError] on a non-string. *)
Definition dekalb_id_pattern : regex :=
  Cat Bol (Cat (Rep 6 Digit) (Cat (Chr "-") (Cat (Rep 2 Digit) Eol))).

Definition validate_dekalb_id (value : pyval) : outcome bool :=
  validate_string_format value dekalb_id_pattern.

End Validation.

(** ** utils/db.py: [transaction_scope] *)

Module Db.
Import Py.

(** The calls a connection receives, in the order they are made; this is
    what the [MagicMock] connections of the tests record. *)
Inductive call : Type := Commit | Rollback.

(** [count] is the attribute [_transaction_local.count] ([None] before
    the first scope of the thread sets it); [calls] is the connection's
    call log. *)
Record state : Type := mkState {
  count : option Z;
  calls : list call
}.

(** The statements that can stand in the body of a [with] block of a
    call chain: nothing, a [raise], a sequence, and a further
    [with transaction_scope(connection):] on the same connection. *)
Inductive block : Type :=
| Pass
| RaiseStmt (e : exn)
| Seq (b1 b2 : block)
| WithScope (body : block).

(** The generator up to its [yield]: set the counter if the thread has
    none, then increment it. *)
Definition scope_enter (st : state) : state :=
  mkState (Some (default 0 (count st) + 1)) (calls st).

(** The generator after the [yield].  A body that returned resumes it
    after the [yield]; a body that raised has the exception thrown in at
    the [yield], where only [except Exception] can take it.  The calls
    on the connection return here, as those of a [MagicMock] do;
    [FailingConnection.scope_exit] has the calls that raise. *)
Definition scope_exit (r : outcome unit) (st : state) : outcome unit * state :=
  let c := default 0 (count st) - 1 in
  match r with
  | Ret _ =>
      (Ret tt, mkState (Some c) (calls st ++ if c =? 0 then [Commit] else []))
  | Raise e =>
      if is_Exception e
      then (Raise e,
            mkState (Some c) (calls st ++ if c =? 0 then [Rollback] else []))
      else (Raise e, st)
  end.

Fixpoint run (b : block) (st : state) : outcome unit * state :=
  match b with
  | Pass => (Ret tt, st)
  | RaiseStmt e => (Raise e, st)
  | Seq b1 b2 =>
      match run b1 st with
      | (Ret _, st1) => run b2 st1
      | (Raise e, st1) => (Raise e, st1)
      end
  | WithScope body =>
      let (r, st1) := run body (scope_enter st) in
      scope_exit r st1
  end.

(** [n] scopes nested around [b]. *)
Fixpoint nest (n : nat) (b : block) : block :=
  match n with
  | O => b
  | S n' => WithScope (nest n' b)
  end.

(** The exception a block raises, if any: the first [raise] reached. *)
Fixpoint raised (b : block) : option exn :=
  match b with
  | Pass => None
  | RaiseStmt e => Some e
  | Seq b1 b2 =>
      match raised b1 with
      | Some e => Some e
      | None => raised b2
      end
  | WithScope body => raised body
  end.

(** No scope is open: the counter is unset or back at zero. *)
Definition outermost (st : state) : Prop :=
  count st = None \/ count st = Some 0.



End Db.

(** ** base.py: [BaseParser.transaction] *)

Module Base.
Import Py.

(** A connection as the parsers use it: rows written since the last
    commit or rollback, rows made durable by a commit, and the log of
    [commit]/[rollback] calls.  [commit] makes the pending rows durable,
    [rollback] discards them. *)
Record connection : Type := mkConn {
  pending : list dict;
  committed : list dict;
  calls : list Db.call
}.

Definition execute (row : dict) (c : connection) : connection :=
  mkConn (pending c ++ [row]) (committed c) (calls c).
Definition commit (c : connection) : connection :=
  mkConn [] (committed c ++ pending c) (calls c ++ [Db.Commit]).
Definition rollback (c : connection) : connection :=
  mkConn [] (committed c) (calls c ++ [Db.Rollback]).

(** The body of a [with self.transaction():] block: the statements of a
    [save], each of which inserts a row or raises. *)
Inductive stmt : Type :=
| Insert (row : dict)
| Fail (e : exn).

Fixpoint run_body (body : list stmt) (c : connection)
  : outcome unit * connection :=
  match body with
  | [] => (Ret tt, c)
  | Insert row :: rest => run_body rest (execute row c)
  | Fail e :: _ => (Raise e, c)
  end.

(** The rows a body writes before it stops, and the exception that
    stops it, if any. *)
Fixpoint inserted (body : list stmt) : list dict :=
  match body with
  | Insert row :: rest => row :: inserted rest
  | _ => []
  end.

Fixpoint failure (body : list stmt) : option exn :=
  match body with
  | [] => None
  | Insert _ :: rest => failure rest
  | Fail e :: _ => Some e
  end.

(** [with self.transaction(): body], for a parser whose [connection]
    attribute is [conn].  Without a connection nothing runs.  The calls
    on the connection return here; [FailingConnection.transaction] has
    the calls that raise. *)
Definition transaction (conn : option connection) (body : list stmt)
  : outcome unit * option connection :=
  match conn with
  | None => (raise DatabaseError "No database connection available", None)
  | Some c =>
      match run_body body c with
      | (Ret _, c1) => (Ret tt, Some (commit c1))
      | (Raise e, c1) =>
          if is_Exception e
          then (raise DatabaseError ("Transaction failed: " +:+ str_exn e),
                Some (rollback c1))
          else (Raise e, Some c1)
      end
  end.

End Base.

(** ** What the parser classes share *)

Module Parser.
Import Py.

(** An instance attribute: bound to a value, or removed by [del]. *)
Inductive attr (A : Type) : Type :=
| Deleted
| Bound (v : A).
Arguments Deleted {A}.
Arguments Bound {A} v.

(** [self.<name>]: reading a removed attribute raises [AttributeError]. *)
Definition getattr {A} (cls name : string) (a : attr A) : outcome A :=
  match a with
  | Bound v => Ret v
  | Deleted =>
      raise AttributeError
        ("'" +:+ cls +:+ "' object has no attribute '" +:+ name +:+ "'")
  end.

(** A data frame is the list of its rows, each a mapping from column
    name to cell. *)
Definition table : Type := list dict.

(** A GIS feature: its attribute columns and the centroid of its
    geometry. *)
Record feature : Type := mkFeature {
  props : dict;
  centroid_x : pyfloat;
  centroid_y : pyfloat
}.

(** The readers the parsers call on a path: [pd.read_excel],
    [pd.read_csv] and [gpd.read_file]. *)
Record Files : Type := {
  read_excel : string -> outcome table;
  read_csv : string -> outcome table;
  read_file : string -> outcome (list feature)
}.

(** [if not ok: raise ValidationError(msg)]. *)
Definition check (ok : bool) (msg : string) : outcome unit :=
  if ok then Ret tt else raise ValidationError msg.

(** [except Exception as e: raise cls(prefix + str(e))] around a
    computation. *)
Definition reraise_as {A} (cls : exn_class) (prefix : string)
    (m : outcome A) : outcome A :=
  match m with
  | Ret a => Ret a
  | Raise e =>
      if is_Exception e then raise cls (prefix +:+ str_exn e) else Raise e
  end.

(** [str.isspace] on one code point below 256. *)
Definition is_space (c : ascii) : bool :=
  let n := N_of_ascii c in
  ((9 <=? n) && (n <=? 13) || (28 <=? n) && (n <=? 32)
   || (n =? 133) || (n =? 160))%N.

(** [s.lstrip()], [s.rstrip()] and [s.strip()]. *)
Fixpoint lstrip (s : string) : string :=
  match s with
  | EmptyString => EmptyString
  | String c s' => if is_space c then lstrip s' else s
  end.

Fixpoint rstrip (s : string) : string :=
  match s with
  | EmptyString => EmptyString
  | String c s' =>
      match rstrip s' with
      | EmptyString => if is_space c then EmptyString else String c EmptyString
      | t => String c t
      end
  end.

Definition strip (s : string) : string := rstrip (lstrip s).

(** The value starts or ends with a whitespace character. *)
Fixpoint ends_with_space (s : string) : bool :=
  match s with
  | EmptyString => false
  | String c EmptyString => is_space c
  | String _ s' => ends_with_space s'
  end.

Definition starts_with_space (s : string) : bool :=
  match s with
  | EmptyString => false
  | String c _ => is_space c
  end.

End Parser.

(** ** civicsource.py *)

Module Civicsource.
Import Py Regex Validation Parser.

Definition REQUIRED_FIELDS : list string :=
  ["property_id"; "address"; "owner_name"; "assessed_value"; "tax_status";
   "coordinates"].

(** [^[A-Z]{3}-\d{5}$]. *)
Definition property_id_pattern : regex :=
  Cat Bol (Cat (Rep 3 Upper) (Cat (Chr "-") (Cat (Rep 5 Digit) Eol))).

(** [self.data_frame] and [self.gis_data]; both are [None] after
    [__init__]. *)
Record parser : Type := mkParser {
  data_frame : attr (option table);
  gis_data : attr (option (list feature))
}.

Definition init : parser := mkParser (Bound None) (Bound None).

Definition cls_name : string := "CivicsourceParser".

(** The coordinates test of [validate]:
    [isinstance(coords, dict) and range(lat) and range(lon)]. *)
Definition coordinates_ok (coords : pyval) (lat_lo lat_hi lon_lo lon_hi : Q)
  : outcome bool :=
  match coords with
  | PyDict c =>
      ok ← validate_numeric_range (get_or c "lat" (PyInt 0)) lat_lo lat_hi;
      if ok : bool
      then validate_numeric_range (get_or c "lon" (PyInt 0)) lon_lo lon_hi
      else Ret false
  | _ => Ret false
  end.

Section WithRuntime.
Variable rt : Runtime.

(** The [try] block of [validate]. *)
Definition validate_body (data : dict) : outcome bool :=
  check (validate_required_fields data REQUIRED_FIELDS)
        "Missing required fields";;
  pid ← getitem data "property_id";
  ok ← validate_string_format pid property_id_pattern;
  check ok "Invalid property ID format";;
  av ← getitem data "assessed_value";
  x ← py_float rt av;
  ok ← validate_numeric_range (PyFloat x) 0 1000000000;
  check ok "Invalid assessed value";;
  coords ← getitem data "coordinates";
  ok ← coordinates_ok coords (-90) 90 (-180) 180;
  check ok "Invalid coordinates";;
  Ret true.

(** [validate]: whatever the block raises is raised again as a
    [ValidationError] carrying the same text. *)
Definition validate (data : dict) : outcome bool :=
  reraise_as ValidationError "" (validate_body data).

(** [{'property_id': str(get('property_id', '')), ...}] for a row and
    the two coordinate values. *)
Definition standard_record (get_cell : string -> pyval -> pyval)
    (lat lon : outcome pyfloat) : outcome dict :=
  av ← py_float rt (get_cell "assessed_value" (PyInt 0));
  la ← lat;
  lo ← lon;
  Ret (list_to_map
         [("property_id", PyStr (py_str rt (get_cell "property_id" (PyStr ""))));
          ("address", PyStr (py_str rt (get_cell "address" (PyStr ""))));
          ("owner_name", PyStr (py_str rt (get_cell "owner_name" (PyStr ""))));
          ("assessed_value", PyFloat av);
          ("tax_status", PyStr (py_str rt (get_cell "tax_status" (PyStr ""))));
          ("coordinates",
           PyDict (list_to_map [("lat", PyFloat la); ("lon", PyFloat lo)]))]).

(** [self.data_frame.iloc[0]] turned into the standard record. *)
Definition _transform_tabular_data (df : table) : outcome dict :=
  match df with
  | [] => raise IndexError "single positional indexer is out-of-bounds"
  | row :: _ =>
      standard_record (get_or row)
        (py_float rt (get_or row "latitude" (PyInt 0)))
        (py_float rt (get_or row "longitude" (PyInt 0)))
  end.

Definition _transform_gis_data (gdf : list feature) : outcome dict :=
  match gdf with
  | [] => raise IndexError "single positional indexer is out-of-bounds"
  | f :: _ =>
      standard_record (get_or (props f))
        (Ret (centroid_y f)) (Ret (centroid_x f))
  end.

Definition _transform_data (p : parser) : outcome dict :=
  df ← getattr cls_name "data_frame" (data_frame p);
  match df with
  | Some t => _transform_tabular_data t
  | None =>
      g ← getattr cls_name "gis_data" (gis_data p);
      match g with
      | Some t => _transform_gis_data t
      | None => raise DataFormatError "No data available for transformation"
      end
  end.

Variable fs : Files.

(** The [try] block of [parse]: read the first source that is given as
    a path, store it on the parser, transform it. *)
Definition parse_body (p : parser) (data : dict) : outcome dict * parser :=
  let load : outcome parser :=
    match get data "excel_path", get data "csv_path", get data "gis_path" with
    | PyStr path, _, _ =>
        t ← read_excel fs path; Ret (mkParser (Bound (Some t)) (gis_data p))
    | _, PyStr path, _ =>
        t ← read_csv fs path; Ret (mkParser (Bound (Some t)) (gis_data p))
    | _, _, PyStr path =>
        g ← read_file fs path; Ret (mkParser (data_frame p) (Bound (Some g)))
    | _, _, _ => raise DataFormatError "No valid input data source provided"
    end in
  match load with
  | Ret p' => (_transform_data p', p')
  | Raise e => (Raise e, p)
  end.

Definition parse (p : parser) (data : dict) : outcome dict * parser :=
  let (r, p') := parse_body p data in
  (reraise_as DataFormatError "Failed to parse input data: " r, p').

End WithRuntime.

(** [clean]: each attribute that is not [None] is removed with [del]. *)
Definition clean (p : parser) : outcome unit * parser :=
  match getattr cls_name "data_frame" (data_frame p) with
  | Raise e => (Raise e, p)
  | Ret df =>
      let p1 := match df with
                | Some _ => mkParser Deleted (gis_data p)
                | None => p
                end in
      match getattr cls_name "gis_data" (gis_data p1) with
      | Raise e => (Raise e, p1)
      | Ret g =>
          (Ret tt, match g with
                   | Some _ => mkParser (data_frame p1) Deleted
                   | None => p1
                   end)
      end
  end.

End Civicsource.

(** ** civicsource_dekalb.py *)

Module DeKalb.
Import Py Regex Validation Parser.

Definition REQUIRED_FIELDS : list string :=
  ["tax_id"; "address"; "owner_name"; "assessed_value"; "tax_status";
   "coordinates"; "property_class"; "total_due"; "sale_date"].

(** [^[A-Z]\d{2}$]. *)
Definition property_class_pattern : regex :=
  Cat Bol (Cat Upper (Cat (Rep 2 Digit) Eol)).

(** The float literals [33.5], [34.0], [-84.4] and [-83.8], each as the
    binary64 value it denotes. *)
Definition lat_min : Q := 67 # 2.
Definition lat_max : Q := 34.
Definition lon_min : Q := -2969561004297421 # 35184372088832.
Definition lon_max : Q := -5896900762088243 # 70368744177664.

(** The endpoints under [BASE_URL] that the session posts to. *)
Inductive endpoint : Type := Login | Refresh | VerifyEmail.

(** What a [session.post] followed by [raise_for_status] and [json]
    yields: a [RequestException] with its text (a connection error, a
    status of 400 or more, or a body that is not JSON, for which
    [requests] raises its own [JSONDecodeError], a [RequestException]), or
    the decoded body, which can be any JSON value: an object, an array, a
    string, a number, [true], [false] or [null]. *)
Inductive reply : Type :=
| RequestFailed (msg : string)
| Json (body : pyval).

Definition network : Type := endpoint -> reply.

(** The parser object: the inherited attributes, the authentication
    state, the token inside the session's [Authorization: Bearer] header,
    the posts the session has sent, and how often it was closed.
    Times are in microseconds. *)
Record parser : Type := mkParser {
  base : Civicsource.parser;
  auth_token : pyval;
  token_expiry : option Z;
  authorization : option pyval;
  posts : list endpoint;
  session_closed : nat
}.

Definition init : parser :=
  mkParser Civicsource.init PyNone None None [] 0.

Definition hours_24 : Z := 24 * 3600 * 1000000.

(** Modelled from the spec: [AuthenticationError], the "authentication
    error (login/refresh/verification failure)" of the error taxonomy.
    [civicsource_dekalb.py] imports it from [exceptions.py], which
    declares no class of that name. *)
Definition authentication_error {A} (msg : string) : outcome A :=
  raise AuthenticationError msg.

Definition sent (ep : endpoint) (p : parser) : parser :=
  mkParser (base p) (auth_token p) (token_expiry p) (authorization p)
           (posts p ++ [ep]) (session_closed p).

(** The statements after a successful post, shared by [authenticate] and
    [refresh_session]: store the token, stamp the expiry, set the header. *)
Definition store_token (now : Z) (body : pyval) (p : parser)
  : outcome bool * parser :=
  match subscript body "token" with
  | Raise e => (Raise e, p)
  | Ret tok =>
      (Ret true,
       mkParser (base p) tok (Some (now + hours_24)) (Some tok)
                (posts p) (session_closed p))
  end.

Section WithNetwork.
Variable net : network.
Variable now : Z.

Definition authenticate (p : parser) : outcome bool * parser :=
  let p1 := sent Login p in
  match net Login with
  | RequestFailed msg =>
      (authentication_error ("Failed to authenticate: " +:+ msg), p1)
  | Json body => store_token now body p1
  end.

Definition verify_email (p : parser) : outcome bool * parser :=
  let p1 := sent VerifyEmail p in
  match net VerifyEmail with
  | RequestFailed msg =>
      (authentication_error ("Failed to verify email: " +:+ msg), p1)
  | Json _ => (Ret true, p1)
  end.

Definition refresh_session (p : parser) : outcome bool * parser :=
  match truthy (auth_token p), token_expiry p with
  | true, Some expiry =>
      if now >=? expiry then
        let p1 := sent Refresh p in
        match net Refresh with
        | RequestFailed _ => authenticate p1
        | Json body => store_token now body p1
        end
      else (Ret true, p)
  | _, _ => authenticate p
  end.

Variable rt : Runtime.
Variable fs : Files.

(** [parse]: the session first, then the inherited [parse]. *)
Definition parse (p : parser) (data : dict) : outcome dict * parser :=
  match refresh_session p with
  | (Raise e, p1) => (Raise e, p1)
  | (Ret false, p1) =>
      (authentication_error "Failed to establish valid session", p1)
  | (Ret true, p1) =>
      let (r, b) := Civicsource.parse rt fs (base p1) data in
      (r, mkParser b (auth_token p1) (token_expiry p1) (authorization p1)
                   (posts p1) (session_closed p1))
  end.

Definition validate_body (data : dict) : outcome bool :=
  check (validate_required_fields data REQUIRED_FIELDS)
        "Missing required fields";;
  tid ← getitem data "tax_id";
  ok ← validate_dekalb_id tid;
  check ok "Invalid DeKalb County tax ID format";;
  av ← getitem data "assessed_value";
  x ← py_float rt av;
  ok ← validate_numeric_range (PyFloat x) 0 1000000000;
  check ok "Invalid assessed value";;
  coords ← getitem data "coordinates";
  ok ← Civicsource.coordinates_ok coords lat_min lat_max lon_min lon_max;
  check ok "Invalid coordinates for DeKalb County";;
  pc ← getitem data "property_class";
  ok ← validate_string_format pc property_class_pattern;
  check ok "Invalid property class format";;
  due ← getitem data "total_due";
  check (validate_tax_amount due) "Invalid total due amount";;
  sd ← getitem data "sale_date";
  ok ← validate_date_format rt sd default_date_format;
  check ok "Invalid sale date format";;
  Ret true.

Definition validate (data : dict) : outcome bool :=
  reraise_as ValidationError "" (validate_body data).

End WithNetwork.

(** [clean]: the inherited [clean], then [self.session.close()]. *)
Definition clean (p : parser) : outcome unit * parser :=
  match Civicsource.clean (base p) with
  | (Raise e, b) =>
      (Raise e, mkParser b (auth_token p) (token_expiry p) (authorization p)
                         (posts p) (session_closed p))
  | (Ret _, b) =>
      (Ret tt, mkParser b (auth_token p) (token_expiry p) (authorization p)
                        (posts p) (S (session_closed p)))
  end.

End DeKalb.

(** ** clayton.py *)

Module Clayton.
Import Py Regex Validation Parser.

Definition REQUIRED_FIELDS : list string :=
  ["parcel_id"; "owner_name"; "property_address"; "market_value"; "tax_year"].

(** [^\d{2}-\d{3}-\d{3}$]. *)
Definition parcel_id_pattern : regex :=
  Cat Bol (Cat (Rep 2 Digit) (Cat (Chr "-") (Cat (Rep 3 Digit)
    (Cat (Chr "-") (Cat (Rep 3 Digit) Eol))))).

(** [ClaytonExcelParser]: [self.data_frame]. *)
Record parser : Type := mkParser { data_frame : attr (option table) }.

Definition init : parser := mkParser (Bound None).

Definition cls_name : string := "ClaytonExcelParser".

Section WithRuntime.
Variable rt : Runtime.

Definition validate_body (data : dict) : outcome bool :=
  check (validate_required_fields data REQUIRED_FIELDS)
        "Missing required fields";;
  pid ← getitem data "parcel_id";
  ok ← validate_string_format pid parcel_id_pattern;
  check ok "Invalid parcel ID format";;
  mv ← getitem data "market_value";
  x ← py_float rt mv;
  ok ← validate_numeric_range (PyFloat x) 0 100000000;
  check ok "Invalid market value";;
  ty ← getitem data "tax_year";
  y ← py_int rt ty;
  ok ← validate_numeric_range (PyInt y) 1900 2100;
  check ok "Invalid tax year";;
  Ret true.

Definition validate (data : dict) : outcome bool :=
  reraise_as ValidationError "" (validate_body data).

(** [str(row[k]).strip()]. *)
Definition stripped (row : dict) (k : string) : outcome pyval :=
  v ← getitem row k; Ret (PyStr (strip (py_str rt v))).

Definition _transform_row (row : dict) : outcome dict :=
  parcel ← stripped row "parcel_id";
  owner ← stripped row "owner_name";
  address ← stripped row "property_address";
  mv ← getitem row "market_value";
  x ← py_float rt mv;
  ty ← getitem row "tax_year";
  y ← py_int rt ty;
  Ret (list_to_map
         [("parcel_id", parcel); ("owner_name", owner);
          ("property_address", address);
          ("market_value", PyFloat x); ("tax_year", PyInt y)]).

Variable fs : Files.

(** [parse]: read the sheet, refuse an empty one, transform the first
    row. *)
Definition parse (p : parser) (excel_path : string)
  : outcome dict * parser :=
  match read_excel fs excel_path with
  | Raise e =>
      (reraise_as DataFormatError "Failed to parse Excel: " (Raise e), p)
  | Ret t =>
      (reraise_as DataFormatError "Failed to parse Excel: "
         match t with
         | [] => raise DataFormatError "Excel file contains no data"
         | row :: _ => _transform_row row
         end,
       mkParser (Bound (Some t)))
  end.

End WithRuntime.

(** [clean]: [del self.data_frame] when it is not [None]. *)
Definition clean (p : parser) : outcome unit * parser :=
  match getattr cls_name "data_frame" (data_frame p) with
  | Raise e => (Raise e, p)
  | Ret (Some _) => (Ret tt, mkParser Deleted)
  | Ret None => (Ret tt, p)
  end.

End Clayton.

(** ** govease.py *)

Module GovEase.
Import Py Parser.

Record parser : Type := mkParser { data_frame : attr (option table) }.

Definition init : parser := mkParser (Bound None).

Definition cls_name : string := "GovEaseParser".

(** [clean]: [del self.data_frame] and then [self.data_frame = None]. *)
Definition clean (p : parser) : outcome unit * parser :=
  match getattr cls_name "data_frame" (data_frame p) with
  | Raise e => (Raise e, p)
  | Ret (Some _) => (Ret tt, mkParser (Bound None))
  | Ret None => (Ret tt, p)
  end.

End GovEase.

(** ** cobbpdf.py *)

Module Cobb.
Import Py Regex Validation Parser.

Definition REQUIRED_FIELDS : list string :=
  ["property_id"; "location_address"; "district"; "land_lot"; "tax_amount";
   "assessment_date"].

(** [^\d{2}-\d{4}-\d{2}-\d{3}$]. *)
Definition property_id_pattern : regex :=
  Cat Bol (Cat (Rep 2 Digit) (Cat (Chr "-") (Cat (Rep 4 Digit)
    (Cat (Chr "-") (Cat (Rep 2 Digit) (Cat (Chr "-") (Cat (Rep 3 Digit) Eol))))))).

(** The loop [for field in REQUIRED_FIELDS: if not data.get(field): raise]. *)
Fixpoint require_all (data : dict) (fields : list string) : outcome unit :=
  match fields with
  | [] => Ret tt
  | field :: rest =>
      check (truthy (get data field)) ("Missing required field: " +:+ field);;
      require_all data rest
  end.

(** [not isinstance(v, (int, float)) or v < 0]. *)
Definition bad_tax_amount (v : pyval) : bool :=
  negb (validate_type v [TInt; TFloat]) ||
  match num_value v with
  | Some x => lt_bound x 0
  | None => false
  end.

Section WithRuntime.
Variable rt : Runtime.

Definition validate_body (data : dict) : outcome bool :=
  require_all data REQUIRED_FIELDS;;
  pid ← getitem data "property_id";
  ok ← validate_string_format pid property_id_pattern;
  check ok "Invalid property ID format";;
  amount ← getitem data "tax_amount";
  check (negb (bad_tax_amount amount)) "Invalid tax amount";;
  date ← getitem data "assessment_date";
  ok ← validate_date_format rt date "%Y-%m-%d";
  check ok "Invalid date format";;
  Ret true.

(** A [ValidationError] passes through unchanged; any other
    [Exception] is raised again as one, which for the text comes to
    the same. *)
Definition validate (data : dict) : outcome bool :=
  reraise_as ValidationError "" (validate_body data).

End WithRuntime.

End Cobb.

(** ** Records and rows of the test suite *)

Module Fixtures.
Import Py Parser.

(** The runtime of the worked examples.  Their cells are strings where
    [str] is applied and numbers where [float] or [int] is, so none of
    them consults it for a text form or a number; of the dates it knows
    the one the examples use. *)
Definition runtime : Runtime :=
  {| repr_of := fun _ => "<repr>";
     float_of_string := fun _ => None;
     int_of_string := fun _ => None;
     strptime_ok := fun value format_str =>
       String.eqb value "2023-06-15" && String.eqb format_str "%Y-%m-%d" |}.

(** [valid_data] of [test_civicsource.py]; [40.7128] and [-74.0060] as
    the binary64 values they denote. *)
Definition civicsource_valid_data : dict :=
  list_to_map
    [("property_id", PyStr "ABC-12345");
     ("address", PyStr "123 Main St");
     ("owner_name", PyStr "John Doe");
     ("assessed_value", PyFloat (FFin 150000));
     ("tax_status", PyStr "current");
     ("coordinates",
      PyDict (list_to_map
        [("lat", PyFloat (FFin (2864908607956399 # 70368744177664)));
         ("lon", PyFloat (FFin (-2603854640806101 # 35184372088832)))]))].

(** The same property as one row of a CSV file. *)
Definition civicsource_row : dict :=
  list_to_map
    [("property_id", PyStr "ABC-12345");
     ("address", PyStr "123 Main St");
     ("owner_name", PyStr "John Doe");
     ("assessed_value", PyFloat (FFin 150000));
     ("tax_status", PyStr "current");
     ("latitude", PyFloat (FFin (2864908607956399 # 70368744177664)));
     ("longitude", PyFloat (FFin (-2603854640806101 # 35184372088832)))].

(** [valid_data] of [test_clayton.py]. *)
Definition clayton_valid_data : dict :=
  list_to_map
    [("parcel_id", PyStr "12-345-678");
     ("owner_name", PyStr "Jane Smith");
     ("property_address", PyStr "456 Oak Avenue");
     ("market_value", PyFloat (FFin 250000));
     ("tax_year", PyInt 2023)].

(** The same row as a spreadsheet may hold it, the address followed by
    a blank. *)
Definition clayton_padded_row : dict :=
  <["property_address" := PyStr "456 Oak Avenue "]> clayton_valid_data.

(** A file system holding that CSV file and a sheet with the padded
    Clayton row. *)
Definition files : Files :=
  {| read_excel := fun path =>
       if String.eqb path "clayton.xlsx" then Ret [clayton_padded_row]
       else raise FileNotFoundError "No such file or directory";
     read_csv := fun path =>
       if String.eqb path "properties.csv" then Ret [civicsource_row]
       else raise FileNotFoundError "No such file or directory";
     read_file := fun _ => raise FileNotFoundError "No such file or directory" |}.

(** A DeKalb record after [valid_data] of [test_civicsource_dekalb.py],
    with a [tax_id] and a [property_class] of the forms the rules
    accept and the [tax_status] the required-field list asks for. *)
Definition dekalb_record (total_due : pyval) : dict :=
  list_to_map
    [("tax_id", PyStr "123456-78");
     ("address", PyStr "123 Dekalb Ave");
     ("owner_name", PyStr "John Doe");
     ("assessed_value", PyFloat (FFin 250000));
     ("tax_status", PyStr "current");
     ("property_class", PyStr "R03");
     ("total_due", total_due);
     ("sale_date", PyStr "2023-06-15");
     ("coordinates",
      PyDict (list_to_map
        [("lat", PyFloat (FFin (4749749494503965 # 140737488355328)));
         ("lon", PyFloat (FFin (-2969138791832355 # 35184372088832)))]))].

(** A network on which the refresh request fails and the login returns
    the token of the tests' [auth_response]. *)
Definition refresh_down : DeKalb.network := fun ep =>
  match ep with
  | DeKalb.Refresh => DeKalb.RequestFailed "503 Server Error"
  | _ => DeKalb.Json (PyDict (list_to_map [("token", PyStr "mock_jwt_token")]))
  end.

(** The parser of [test_session_refresh_needed]: a token that expired
    an hour before [now]. *)
Definition one_hour : Z := 3600 * 1000000.
Definition expired_parser : DeKalb.parser :=
  DeKalb.mkParser Civicsource.init (PyStr "expired_token") (Some 0)
                  (Some (PyStr "expired_token")) [] 0.

End Fixtures.

(** ** The shapes of the identifiers *)

Module Shape.
Import Regex.

Definition is_digit (c : ascii) : bool := in_range "0" "9" c.
Definition is_upper (c : ascii) : bool := in_range "A" "Z" c.
Definition is_char (d c : ascii) : bool := Ascii.eqb d c.

(** The characters are, one by one, of the given classes, and nothing
    follows but, possibly, one final newline. *)
Fixpoint shape_list (classes : list (ascii -> bool)) (l : list ascii) : bool :=
  match classes, l with
  | [], [] => true
  | [], [c] => Ascii.eqb c newline
  | k :: classes', c :: l' => k c && shape_list classes' l'
  | _, _ => false
  end.

(** The characters begin with the given classes. *)
Fixpoint prefix_ok (classes : list (ascii -> bool)) (l : list ascii) : bool :=
  match classes, l with
  | [], _ => true
  | k :: classes', c :: l' => k c && prefix_ok classes' l'
  | _ :: _, [] => false
  end.

Definition has_shape (classes : list (ascii -> bool)) (value : string) : bool :=
  shape_list classes (list_ascii_of_string value).

(** Six digits, a hyphen, two digits. *)
Definition dekalb_id : list (ascii -> bool) :=
  repeat is_digit 6 ++ [is_char "-"] ++ repeat is_digit 2.

(** Three digits, a capital letter, eight digits. *)
Definition clayton_parcel : list (ascii -> bool) :=
  repeat is_digit 3 ++ [is_upper] ++ repeat is_digit 8.

(** Thirteen digits. *)
Definition cobb_id : list (ascii -> bool) := repeat is_digit 13.

(** The classes of a pattern that is a sequence of single characters and
    character ranges, and of such a sequence closed by [$]. *)
Fixpoint classes_of (r : regex) : option (list (ascii -> bool)) :=
  match r with
  | Eps => Some []
  | Chr c => Some [is_char c]
  | Range lo hi => Some [in_range lo hi]
  | Cat r1 r2 =>
      match classes_of r1, classes_of r2 with
      | Some k1, Some k2 => Some (k1 ++ k2)
      | _, _ => None
      end
  | _ => None
  end.

Fixpoint classes_to_end (r : regex) : option (list (ascii -> bool)) :=
  match r with
  | Eol => Some []
  | Cat r1 r2 =>
      match classes_of r1, classes_to_end r2 with
      | Some k1, Some k2 => Some (k1 ++ k2)
      | _, _ => None
      end
  | _ => None
  end.

End Shape.

(** ** Further rows and files for the worked examples *)

Module MoreFixtures.
Import Py Parser.

(** A GIS file with one feature, next to the files of [Fixtures]. *)
Definition gis_feature : feature :=
  mkFeature
    (list_to_map
       [("property_id", PyStr "XYZ-00001");
        ("address", PyStr "9 Lake Rd");
        ("owner_name", PyStr "Ann Lee");
        ("assessed_value", PyFloat (FFin 90000));
        ("tax_status", PyStr "current")])
    (FFin (-2603854640806101 # 35184372088832))
    (FFin (2864908607956399 # 70368744177664)).

Definition files : Files :=
  {| read_excel := read_excel Fixtures.files;
     read_csv := read_csv Fixtures.files;
     read_file := fun path =>
       if String.eqb path "parcels.geojson" then Ret [gis_feature]
       else raise FileNotFoundError "No such file or directory" |}.

Definition csv_source : dict :=
  list_to_map [("csv_path", PyStr "properties.csv")].
Definition gis_source : dict :=
  list_to_map [("gis_path", PyStr "parcels.geojson")].

(** A network on which every request succeeds with the token of the
    tests. *)
Definition network_up : DeKalb.network := fun _ =>
  DeKalb.Json (PyDict (list_to_map [("token", PyStr "mock_jwt_token")])).

End MoreFixtures.

(** ** Transactions on a connection whose calls can fail *)

Module FailingConnection.
Import Py.

(** What [connection.commit()] and [connection.rollback()] do when they
    are called: [None] for a call that returns, [Some e] for one that
    raises [e]. *)
Record behaviour : Type := mkBehaviour {
  commit_raises : option exn;
  rollback_raises : option exn
}.

Definition reliable : behaviour := mkBehaviour None None.

(** The [except Exception] clause of [transaction_scope], entered with the
    counter already decremented to [c]: roll back if the counter is zero,
    then re-raise.  An exception of [rollback] takes the place of the one
    being handled. *)
Definition scope_handler (conn : behaviour) (e : exn) (c : Z)
    (log : list Db.call) : outcome unit * Db.state :=
  if c =? 0 then
    (match rollback_raises conn with
     | None => Raise e
     | Some e' => Raise e'
     end,
     Db.mkState (Some c) (log ++ [Db.Rollback]))
  else (Raise e, Db.mkState (Some c) log).

(** [transaction_scope] after its [yield].  The [commit] call stands
    inside the [try], so an [Exception] it raises reaches the [except]
    clause, which decrements the counter a second time. *)
Definition scope_exit (conn : behaviour) (r : outcome unit) (st : Db.state)
  : outcome unit * Db.state :=
  let c := default 0 (Db.count st) - 1 in
  match r with
  | Ret _ =>
      if c =? 0 then
        let log := Db.calls st ++ [Db.Commit] in
        match commit_raises conn with
        | None => (Ret tt, Db.mkState (Some c) log)
        | Some e =>
            if is_Exception e then scope_handler conn e (c - 1) log
            else (Raise e, Db.mkState (Some c) log)
        end
      else (Ret tt, Db.mkState (Some c) (Db.calls st))
  | Raise e =>
      if is_Exception e then scope_handler conn e c (Db.calls st)
      else (Raise e, st)
  end.

Fixpoint run (conn : behaviour) (b : Db.block) (st : Db.state)
  : outcome unit * Db.state :=
  match b with
  | Db.Pass => (Ret tt, st)
  | Db.RaiseStmt e => (Raise e, st)
  | Db.Seq b1 b2 =>
      match run conn b1 st with
      | (Ret _, st1) => run conn b2 st1
      | (Raise e, st1) => (Raise e, st1)
      end
  | Db.WithScope body =>
      let (r, st1) := run conn body (Db.scope_enter st) in
      scope_exit conn r st1
  end.

(** A block without a [with transaction_scope] of its own. *)
Fixpoint scope_free (b : Db.block) : bool :=
  match b with
  | Db.Pass | Db.RaiseStmt _ => true
  | Db.Seq b1 b2 => scope_free b1 && scope_free b2
  | Db.WithScope _ => false
  end.

(** [BaseParser.transaction] on such a connection: the [commit] call
    stands inside the [try] as well.  A [commit] or [rollback] that raises
    is logged and leaves the pending rows pending. *)
Definition transaction (conn : behaviour) (c : Base.connection)
    (body : list Base.stmt) : outcome unit * Base.connection :=
  let handler (e : exn) (c1 : Base.connection) :=
    match rollback_raises conn with
    | None =>
        (raise DatabaseError ("Transaction failed: " +:+ str_exn e),
         Base.rollback c1)
    | Some e' =>
        (Raise e',
         Base.mkConn (Base.pending c1) (Base.committed c1)
                     (Base.calls c1 ++ [Db.Rollback]))
    end in
  match Base.run_body body c with
  | (Ret _, c1) =>
      match commit_raises conn with
      | None => (Ret tt, Base.commit c1)
      | Some e =>
          let c2 := Base.mkConn (Base.pending c1) (Base.committed c1)
                                (Base.calls c1 ++ [Db.Commit]) in
          if is_Exception e then handler e c2 else (Raise e, c2)
      end
  | (Raise e, c1) =>
      if is_Exception e then handler e c1 else (Raise e, c1)
  end.

End FailingConnection.

(** ** utils/db.py: [batch_insert] and [DatabaseConnection] *)

Module BatchInsert.
Import Py.

(** A record as [batch_insert] reads it: a dict with its keys in
    insertion order. *)
Definition record : Type := list (string * pyval).

(** [list(r.keys())]. *)
Definition keys (r : record) : list string := map fst r.

Fixpoint lookup (r : record) (k : string) : option pyval :=
  match r with
  | [] => None
  | (k', v) :: r' => if String.eqb k k' then Some v else lookup r' k
  end.

(** [r[k]]. *)
Definition item (r : record) (k : string) : outcome pyval :=
  match lookup r k with
  | Some v => Ret v
  | None => raise KeyError ("'" +:+ k +:+ "'")
  end.

(** The value of a record at a key it has. *)
Definition value_at (r : record) (k : string) : pyval :=
  default PyNone (lookup r k).

(** [sep.join(l)]. *)
Fixpoint join (sep : string) (l : list string) : string :=
  match l with
  | [] => ""
  | [x] => x
  | x :: l' => x +:+ sep +:+ join sep l'
  end.

(** The f-string of the statement, with one [%s] for each column. *)
Definition query (table : string) (columns : list string) : string :=
  "INSERT INTO " +:+ table +:+ " (" +:+ join "," columns +:+ ") VALUES ("
  +:+ join "," (map (fun _ => "%s") columns) +:+ ")".

(** A list comprehension whose element expression can raise: the elements
    are evaluated in order and the first exception ends it. *)
Fixpoint collect {A B} (f : A -> outcome B) (l : list A) : outcome (list B) :=
  match l with
  | [] => Ret []
  | a :: l' => b ← f a; bs ← collect f l'; Ret (b :: bs)
  end.

(** [[[record[column] for column in columns] for record in records]]. *)
Definition values (columns : list string) (records : list record)
  : outcome (list (list pyval)) :=
  collect (fun r => collect (item r) columns) records.

(** The connection argument: its [cursor] attribute, if it has one, with
    what [executemany] does on a statement ([Some e] when it raises [e]).
    [DatabaseConnection] declares no such attribute. *)
Record connection : Type := mkConnection {
  cursor : option (string -> list (list pyval) -> option exn)
}.

Definition DatabaseConnection : connection := mkConnection None.

(** [batch_insert]: the outcome and the statements handed to
    [executemany]. *)
Definition batch_insert (conn : connection) (table : string)
    (records : list record)
  : outcome unit * list (string * list (list pyval)) :=
  match records with
  | [] => (Ret tt, [])
  | first :: _ =>
      let columns := keys first in
      let q := query table columns in
      match values columns records with
      | Raise e => (Raise e, [])
      | Ret vs =>
          match cursor conn with
          | None =>
              (raise AttributeError
                 "'DatabaseConnection' object has no attribute 'cursor'", [])
          | Some executemany =>
              match executemany q vs with
              | None => (Ret tt, [(q, vs)])
              | Some e => (Raise e, [(q, vs)])
              end
          end
      end
  end.

End BatchInsert.

(** ** Sequences of session calls on a DeKalb parser *)

Module Session.
Import Py DeKalb.

(** A call on the parser, with the network it meets and the time at which
    it is made. *)
Inductive method : Type :=
| CallAuthenticate
| CallRefreshSession
| CallVerifyEmail.

Record call : Type := mkCall {
  call_method : method;
  call_network : network;
  call_time : Z
}.

Definition perform (c : call) (p : parser) : outcome bool * parser :=
  match call_method c with
  | CallAuthenticate => authenticate (call_network c) (call_time c) p
  | CallRefreshSession => refresh_session (call_network c) (call_time c) p
  | CallVerifyEmail => verify_email (call_network c) p
  end.

(** The parser after a sequence of calls; a caller that catches what a
    call raises goes on with the parser as the call left it. *)
Fixpoint after (calls : list call) (p : parser) : parser :=
  match calls with
  | [] => p
  | c :: calls' => after calls' (snd (perform c p))
  end.

(** The session header carries the parser's token: either no token was
    ever stored and there is neither header nor expiry, or the header
    holds the current token and an expiry is set. *)
Definition in_sync (p : parser) : Prop :=
  (auth_token p = PyNone /\ authorization p = None /\ token_expiry p = None)
  \/ (authorization p = Some (auth_token p) /\ token_expiry p <> None).

End Session.

(** ** govease.py: [_parse_image_urls] *)

Module GovEaseUrls.
Import Py Parser.

(** [s.split(sep)] for a separator of one character: the pieces between
    the separators, at least one. *)
Fixpoint split_on (sep : ascii) (s : string) : list string :=
  match s with
  | EmptyString => [EmptyString]
  | String c s' =>
      if Ascii.eqb c sep then EmptyString :: split_on sep s'
      else match split_on sep s' with
           | [] => [String c EmptyString]
           | piece :: pieces => String c piece :: pieces
           end
  end.

Definition nonempty (s : string) : bool := negb (String.eqb s "").

(** [[url.strip() for url in urls.split(',') if url.strip()]] for a
    string, [[str(url) for url in urls if url]] for a list, [[]] for
    anything else. *)
Definition _parse_image_urls (rt : Runtime) (urls : pyval) : list string :=
  match urls with
  | PyStr s => List.filter nonempty (map strip (split_on "," s))
  | PyList l => map (py_str rt) (List.filter truthy l)
  | _ => []
  end.

(** The character occurs in the string. *)
Fixpoint has_char (c : ascii) (s : string) : bool :=
  match s with
  | EmptyString => false
  | String d s' => Ascii.eqb d c || has_char c s'
  end.

(** A URL as the function returns it: not empty, without a comma, without
    whitespace at either end. *)
Definition clean_url (u : string) : bool :=
  nonempty u && negb (has_char "," u)
  && negb (starts_with_space u) && negb (ends_with_space u).

End GovEaseUrls.

(* ===================================================================== *)
(** * Part II: properties                                                  *)
(* ===================================================================== *)

(** ** The matcher computes the declarative semantics *)

Section RegexFacts.
Import Regex.
Local Open Scope nat_scope.
Variable s : list ascii.

Lemma Matches_le r i j : Matches s r i j -> i <= j.
Proof. induction 1; lia. Qed.

Lemma Matches_bound r i j : Matches s r i j -> i < j -> j <= List.length s.
Proof.
  induction 1 as [ | c i Hc | lo hi c i Hc _ | c i Hc _
                 | r1 r2 i j k H1 IH1 H2 IH2 | | | | r i j k H1 IH1 H2 IH2
                 | | ]; intros Hlt; try lia; auto;
    try (apply lookup_lt_Some in Hc; lia);
    apply Matches_le in H1 as ?; apply Matches_le in H2 as ?;
    (destruct (decide (j < k));
     [auto | assert (k = j) as -> by lia; apply IH1; lia]).
Qed.

Lemma star_from_self step fuel i : In i (star_from step fuel i).
Proof. destruct fuel; simpl; auto. Qed.

Lemma star_from_mono step fuel : forall fuel' i k,
  fuel <= fuel' -> In k (star_from step fuel i) -> In k (star_from step fuel' i).
Proof.
  induction fuel as [ | fuel IH]; intros fuel' i k Hle Hin.
  - destruct Hin as [<- | []]. apply star_from_self.
  - destruct fuel' as [ | fuel']; [lia | ].
    simpl in *. destruct Hin as [ | Hin]; [auto | right].
    apply in_flat_map in Hin as (j & Hj & Hk). apply in_flat_map.
    exists j; split; [done | ].
    destruct (i <? j); [ | done]. apply IH; [lia | done].
Qed.

Lemma star_from_sound r step :
  (forall i j, In j (step i) -> Matches s r i j) ->
  forall fuel i k, In k (star_from step fuel i) -> Matches s (Star r) i k.
Proof.
  intros Hstep. induction fuel as [ | fuel IH]; intros i k Hin.
  - destruct Hin as [<- | []]. constructor.
  - simpl in Hin. destruct Hin as [<- | Hin]; [constructor | ].
    apply in_flat_map in Hin as (j & Hj & Hk).
    destruct (i <? j); [ | done].
    eapply MStarCons; [apply Hstep, Hj | apply IH, Hk].
Qed.

Lemma ends_sound r : forall i j, In j (ends s r i) -> Matches s r i j.
Proof.
  induction r as [ | c | lo hi | | r1 IH1 r2 IH2 | r1 IH1 r2 IH2 | r IH | | ];
    intros i j Hin; simpl in Hin.
  - destruct Hin as [<- | []]. constructor.
  - destruct (s !! i) as [d | ] eqn:Hd; [ | done].
    destruct (Ascii.eqb_spec c d) as [<- | ]; [ | done].
    destruct Hin as [<- | []]. by constructor.
  - destruct (s !! i) as [d | ] eqn:Hd; [ | done].
    destruct (in_range lo hi d) eqn:Hr; [ | done].
    destruct Hin as [<- | []]. by econstructor.
  - destruct (s !! i) as [d | ] eqn:Hd; [ | done].
    destruct (Ascii.eqb_spec d newline); [done | ].
    destruct Hin as [<- | []]. by econstructor.
  - apply in_flat_map in Hin as (k & Hk & Hj). econstructor; eauto.
  - apply in_app_or in Hin as [ | ]; [apply MAltL | apply MAltR]; auto.
  - eapply star_from_sound; eauto.
  - destruct (Nat.eqb_spec i 0) as [-> | ]; [ | done].
    destruct Hin as [<- | []]. constructor.
  - destruct (at_end s i) eqn:He; [ | done].
    destruct Hin as [<- | []]. by constructor.
Qed.

Lemma ends_complete r i j : Matches s r i j -> In j (ends s r i).
Proof.
  induction 1 as [ | c i Hc | lo hi c i Hc Hr | c i Hc Hn
                 | r1 r2 i j k H1 IH1 H2 IH2 | | | | r i j k H1 IH1 H2 IH2
                 | | i He]; simpl.
  - auto.
  - rewrite Hc, Ascii.eqb_refl. simpl; auto.
  - rewrite Hc, Hr. simpl; auto.
  - rewrite Hc. destruct (Ascii.eqb_spec c newline); [done | simpl; auto].
  - apply in_flat_map. eauto.
  - apply in_or_app; auto.
  - apply in_or_app; auto.
  - apply star_from_self.
  - simpl in IH2.
    destruct (decide (i = j)) as [-> | Hne]; [done | ].
    assert (i < j) as Hlt by (apply Matches_le in H1; lia).
    pose proof (Matches_bound _ _ _ H1 Hlt) as Hj.
    destruct (List.length s - i) as [ | fuel] eqn:Hf; [lia | ].
    simpl. right. apply in_flat_map. exists j; split; [done | ].
    rewrite (proj2 (Nat.ltb_lt i j) Hlt).
    eapply star_from_mono; [ | exact IH2]. lia.
  - auto.
  - rewrite He. simpl; auto.
Qed.

Lemma ends_spec r i j : In j (ends s r i) <-> Matches s r i j.
Proof. split; [apply ends_sound | apply ends_complete]. Qed.

End RegexFacts.

Section ReMatchFacts.
Import Regex.
Local Open Scope nat_scope.

(** [re.match] succeeds exactly when the pattern matches some prefix. *)
Lemma re_match_spec p v :
  re_match p v = true <->
  exists j, Matches (list_ascii_of_string v) p 0 j.
Proof.
  unfold re_match. split.
  - destruct (ends _ p 0) as [ | j l] eqn:He; [done | ]. intros _.
    exists j. apply ends_sound. rewrite He. by left.
  - intros (j & Hj). apply ends_complete in Hj.
    destruct (ends _ p 0); [destruct Hj | done].
Qed.

(** [re.fullmatch] succeeds exactly when the pattern matches the whole
    value. *)
Lemma re_fullmatch_spec p v :
  re_fullmatch p v = true <->
  Matches (list_ascii_of_string v) p 0 (List.length (list_ascii_of_string v)).
Proof.
  unfold re_fullmatch. rewrite existsb_exists. split.
  - intros (j & Hj & Heq). apply Nat.eqb_eq in Heq as ->. by apply ends_sound.
  - intros H. eexists; split; [by apply ends_complete | apply Nat.eqb_refl].
Qed.

End ReMatchFacts.


(** ** Outcomes of the validation steps *)

Section OutcomeFacts.
Import Py Validation Parser.

Lemma only_Exception_ret {A} (a : A) : only_Exception (Ret a).
Proof. intros e [=]. Qed.

Lemma only_Exception_raise {A} c msg :
  is_Exception (mkExn c msg) = true -> only_Exception (@raise A c msg).
Proof. intros H e [= <-]. exact H. Qed.

Lemma only_Exception_bind {A B} (m : outcome A) (k : A -> outcome B) :
  only_Exception m -> (forall a, only_Exception (k a)) ->
  only_Exception (m ≫= k).
Proof.
  intros Hm Hk e. destruct m as [a | e']; simpl.
  - apply Hk.
  - intros [= <-]. by apply Hm.
Qed.

Lemma never_returns_bind {A B} (m : outcome A) (k : A -> outcome B) :
  (forall a, m = Ret a -> never_returns (k a)) -> never_returns (m ≫= k).
Proof. intros H b. destruct m as [a | e]; simpl; [by apply H | done]. Qed.

Lemma never_returns_raise {A} c msg : never_returns (@raise A c msg).
Proof. intros a [=]. Qed.

Lemma only_Exception_check ok msg : only_Exception (check ok msg).
Proof. destruct ok; [apply only_Exception_ret | by apply only_Exception_raise]. Qed.

Lemma only_Exception_getitem d k : only_Exception (getitem d k).
Proof.
  unfold getitem. destruct (d !! k);
    [apply only_Exception_ret | by apply only_Exception_raise].
Qed.

Lemma only_Exception_py_float rt v : only_Exception (py_float rt v).
Proof.
  destruct v as [ | | z | | q | s | | ]; simpl;
    try apply only_Exception_ret; try by apply only_Exception_raise.
  - destruct (nearest_float _);
      [apply only_Exception_ret | by apply only_Exception_raise].
  - destruct (nearest_float _); apply only_Exception_ret.
  - destruct (float_of_string _ _);
      [apply only_Exception_ret | by apply only_Exception_raise].
Qed.

Lemma only_Exception_py_int rt v : only_Exception (py_int rt v).
Proof.
  destruct v as [ | | z | [ | | ] | q | s | | ]; simpl;
    try apply only_Exception_ret; try by apply only_Exception_raise.
  destruct (int_of_string _ _);
    [apply only_Exception_ret | by apply only_Exception_raise].
Qed.

Lemma only_Exception_string_format v p :
  only_Exception (validate_string_format v p).
Proof.
  destruct v; simpl; try apply only_Exception_ret;
    by apply only_Exception_raise.
Qed.

Lemma only_Exception_date_format rt v f :
  only_Exception (validate_date_format rt v f).
Proof.
  destruct v; simpl; try apply only_Exception_ret;
    by apply only_Exception_raise.
Qed.

Lemma only_Exception_numeric_range v lo hi :
  only_Exception (validate_numeric_range v lo hi).
Proof.
  unfold validate_numeric_range. destruct (num_value v);
    [apply only_Exception_ret | by apply only_Exception_raise].
Qed.

Lemma only_Exception_coordinates v a b c d :
  only_Exception (Civicsource.coordinates_ok v a b c d).
Proof.
  destruct v; simpl; try apply only_Exception_ret.
  apply only_Exception_bind; [apply only_Exception_numeric_range | ].
  intros [ | ]; [apply only_Exception_numeric_range | apply only_Exception_ret].
Qed.

(** What [except Exception as e: raise ValidationError(str(e))] makes of
    a block that cannot return. *)
Lemma reraise_as_fails {A} (m : outcome A) :
  only_Exception m -> never_returns m ->
  exists msg, reraise_as ValidationError "" m = raise ValidationError msg.
Proof.
  intros Hm Hn. destruct m as [a | e]; [by destruct (Hn a) | ].
  simpl. rewrite (Hm e eq_refl). by eexists.
Qed.

Lemma reraise_as_outcome {A} (m : outcome A) :
  only_Exception m ->
  (exists a, reraise_as ValidationError "" m = Ret a) \/
  (exists msg, reraise_as ValidationError "" m = raise ValidationError msg).
Proof.
  intros Hm. destruct m as [a | e]; simpl; [left; by eexists | right].
  rewrite (Hm e eq_refl). by eexists.
Qed.

End OutcomeFacts.

Create HintDb outcome.

#[local] Hint Resolve only_Exception_ret only_Exception_check
  only_Exception_getitem only_Exception_py_float only_Exception_py_int
  only_Exception_string_format only_Exception_date_format
  only_Exception_numeric_range only_Exception_coordinates : outcome.

Ltac only_exception :=
  repeat first
    [ apply only_Exception_bind; [ | intros ? ]
    | solve [ auto with outcome ]
    | solve [ apply only_Exception_raise; reflexivity ] ].

Section ValidateOutcomes.
Import Py Validation Parser.
Variable rt : Runtime.

Lemma Civicsource_validate_body_only_Exception data :
  only_Exception (Civicsource.validate_body rt data).
Proof. unfold Civicsource.validate_body. only_exception. Qed.

Lemma DeKalb_validate_body_only_Exception data :
  only_Exception (DeKalb.validate_body rt data).
Proof.
  unfold DeKalb.validate_body, validate_dekalb_id. only_exception.
Qed.

Lemma Clayton_validate_body_only_Exception data :
  only_Exception (Clayton.validate_body rt data).
Proof. unfold Clayton.validate_body. only_exception. Qed.

Lemma Cobb_require_all_only_Exception data fields :
  only_Exception (Cobb.require_all data fields).
Proof. induction fields; simpl; only_exception. Qed.

Lemma Cobb_validate_body_only_Exception data :
  only_Exception (Cobb.validate_body rt data).
Proof.
  unfold Cobb.validate_body.
  apply only_Exception_bind; [apply Cobb_require_all_only_Exception | intros _].
  only_exception.
Qed.

End ValidateOutcomes.

(** ** Required fields *)

Section RequiredFields.
Import Py Validation Parser.

Lemma get_missing (data : dict) field :
  data !! field = None -> truthy (get data field) = false.
Proof. unfold get. by intros ->. Qed.

Lemma get_present (data : dict) field v :
  data !! field = Some v -> get data field = v.
Proof. unfold get. by intros ->. Qed.

Lemma required_fields_falsy (data : dict) fields field :
  In field fields -> truthy (get data field) = false ->
  validate_required_fields data fields = false.
Proof.
  intros Hin Hf. unfold validate_required_fields.
  destruct (forallb _ fields) eqn:Hall; [ | done].
  rewrite forallb_forall in Hall. by rewrite (Hall field Hin) in Hf.
Qed.

Lemma required_fields_truthy (data : dict) fields :
  validate_required_fields data fields = true <->
  forall field, In field fields -> truthy (get data field) = true.
Proof. apply forallb_forall. Qed.

Lemma Cobb_require_all_falsy (data : dict) fields field :
  In field fields -> truthy (get data field) = false ->
  exists first, In first fields /\ truthy (get data first) = false /\
    Cobb.require_all data fields =
    raise ValidationError ("Missing required field: " +:+ first).
Proof.
  induction fields as [ | f fields IH]; intros Hin Hf; [destruct Hin | ].
  simpl. destruct (truthy (get data f)) eqn:Hff.
  - destruct Hin as [-> | Hin]; [congruence | ].
    destruct (IH Hin Hf) as (first & ? & ? & ?).
    exists first. by auto.
  - exists f. by auto.
Qed.

Variable rt : Runtime.

Lemma Civicsource_validate_falsy data field :
  In field Civicsource.REQUIRED_FIELDS -> truthy (get data field) = false ->
  Civicsource.validate rt data = raise ValidationError "Missing required fields".
Proof.
  intros Hin Hf. unfold Civicsource.validate, Civicsource.validate_body.
  by rewrite (required_fields_falsy _ _ _ Hin Hf).
Qed.

Lemma DeKalb_validate_falsy data field :
  In field DeKalb.REQUIRED_FIELDS -> truthy (get data field) = false ->
  DeKalb.validate rt data = raise ValidationError "Missing required fields".
Proof.
  intros Hin Hf. unfold DeKalb.validate, DeKalb.validate_body.
  by rewrite (required_fields_falsy _ _ _ Hin Hf).
Qed.

Lemma Clayton_validate_falsy data field :
  In field Clayton.REQUIRED_FIELDS -> truthy (get data field) = false ->
  Clayton.validate rt data = raise ValidationError "Missing required fields".
Proof.
  intros Hin Hf. unfold Clayton.validate, Clayton.validate_body.
  by rewrite (required_fields_falsy _ _ _ Hin Hf).
Qed.

Lemma Cobb_validate_falsy data field :
  In field Cobb.REQUIRED_FIELDS -> truthy (get data field) = false ->
  exists first, In first Cobb.REQUIRED_FIELDS /\
    truthy (get data first) = false /\
    Cobb.validate rt data =
    raise ValidationError ("Missing required field: " +:+ first).
Proof.
  intros Hin Hf.
  destruct (Cobb_require_all_falsy data _ _ Hin Hf) as (first & ? & ? & Hr).
  exists first. split; [done | split; [done | ]].
  unfold Cobb.validate, Cobb.validate_body. by rewrite Hr.
Qed.

End RequiredFields.

(** C5. A record that lacks a field of the parser's required-field list
    makes [validate] raise a [ValidationError]; it neither returns [False]
    nor succeeds.  The error is the one of the required-fields check,
    whatever the other fields hold, so that check comes before every
    per-field rule: "Missing required fields" for the Civicsource, DeKalb
    and Clayton parsers, and for the Cobb parser the text that names the
    first required field without a value. *)
Theorem validate_raises_on_missing_required_field
    (rt : Py.Runtime) (data : Py.dict) (field : string) :
  data !! field = None ->
  (In field Civicsource.REQUIRED_FIELDS ->
   Civicsource.validate rt data =
   Py.raise Py.ValidationError "Missing required fields") /\
  (In field DeKalb.REQUIRED_FIELDS ->
   DeKalb.validate rt data =
   Py.raise Py.ValidationError "Missing required fields") /\
  (In field Clayton.REQUIRED_FIELDS ->
   Clayton.validate rt data =
   Py.raise Py.ValidationError "Missing required fields") /\
  (In field Cobb.REQUIRED_FIELDS ->
   exists first, In first Cobb.REQUIRED_FIELDS /\
     Py.truthy (Py.get data first) = false /\
     Cobb.validate rt data =
     Py.raise Py.ValidationError ("Missing required field: " +:+ first)).
Proof.
  intros Hmiss. apply get_missing in Hmiss.
  repeat split; intros Hin.
  - by apply Civicsource_validate_falsy with field.
  - by apply DeKalb_validate_falsy with field.
  - by apply Clayton_validate_falsy with field.
  - destruct (Cobb_validate_falsy rt data field Hin Hmiss) as (first & ? & ? & ?).
    exists first. by auto.
Qed.

(** The Civicsource record of the tests without its address and with a
    property id that the format rule would refuse: the error is the one of
    the required-fields check. *)
Lemma validate_raises_on_missing_required_field_witness :
  let data := delete "address"
    (<["property_id" := Py.PyStr "123"]> Fixtures.civicsource_valid_data) in
  data !! "address" = None /\
  In "address" Civicsource.REQUIRED_FIELDS /\
  Civicsource.validate Fixtures.runtime data =
  Py.raise Py.ValidationError "Missing required fields".
Proof.
  intros data.
  assert (data !! "address" = None) as Hmiss by reflexivity.
  assert (In "address" Civicsource.REQUIRED_FIELDS) as Hin by (simpl; auto).
  split; [exact Hmiss | split; [exact Hin | ]].
  exact (proj1 (validate_raises_on_missing_required_field
                  Fixtures.runtime data "address" Hmiss) Hin).
Defined.

(** C9. [validate_required_fields] is false as soon as one required field
    holds a value that tests false, although the key is there: the number
    0, [False], the empty string and the empty list are such values.  So
    [validate] raises a [ValidationError] for a record in which a required
    numeric field is 0. *)
Theorem required_field_with_falsy_value_is_rejected
    (rt : Py.Runtime) (data : Py.dict) (fields : list string)
    (field : string) (v : Py.pyval) :
  In field fields -> data !! field = Some v -> Py.truthy v = false ->
  Validation.validate_required_fields data fields = false /\
  Forall (fun falsy => Py.truthy falsy = false)
    [Py.PyInt 0; Py.PyFloat (Py.FFin 0); Py.PyBool false; Py.PyStr "";
     Py.PyList []] /\
  (In field Civicsource.REQUIRED_FIELDS ->
   Civicsource.validate rt data =
   Py.raise Py.ValidationError "Missing required fields") /\
  (In field Clayton.REQUIRED_FIELDS ->
   Clayton.validate rt data =
   Py.raise Py.ValidationError "Missing required fields").
Proof.
  intros Hin Hv Hf.
  assert (Py.truthy (Py.get data field) = false) as Hg
    by (by rewrite (get_present _ _ _ Hv)).
  split; [by apply required_fields_falsy with field | ].
  split; [repeat constructor | ].
  split; intros Hreq.
  - by apply Civicsource_validate_falsy with field.
  - by apply Clayton_validate_falsy with field.
Qed.

(** The Civicsource record of the tests with an assessed value of 0. *)
Lemma required_field_with_falsy_value_is_rejected_witness :
  let data := <["assessed_value" := Py.PyInt 0]> Fixtures.civicsource_valid_data in
  In "assessed_value" Civicsource.REQUIRED_FIELDS /\
  data !! "assessed_value" = Some (Py.PyInt 0) /\
  Py.truthy (Py.PyInt 0) = false /\
  Validation.validate_required_fields data Civicsource.REQUIRED_FIELDS = false /\
  Civicsource.validate Fixtures.runtime data =
  Py.raise Py.ValidationError "Missing required fields".
Proof.
  intros data.
  assert (In "assessed_value" Civicsource.REQUIRED_FIELDS) as Hin
    by (simpl; auto).
  assert (data !! "assessed_value" = Some (Py.PyInt 0)) as Hv by reflexivity.
  assert (Py.truthy (Py.PyInt 0) = false) as Hf by reflexivity.
  pose proof (required_field_with_falsy_value_is_rejected Fixtures.runtime
                data Civicsource.REQUIRED_FIELDS "assessed_value" (Py.PyInt 0)
                Hin Hv Hf) as (H1 & _ & H3 & _).
  repeat (split; [assumption | ]). exact (H3 Hin).
Defined.

(** ** Numeric rules *)

Section NumericRules.
Import Py Validation Parser.

Lemma validate_numeric_range_spec v x lo hi :
  num_value v = Some (FFin x) ->
  validate_numeric_range v lo hi = Ret true <-> (lo <= x /\ x <= hi)%Q.
Proof.
  intros Hv. unfold validate_numeric_range. rewrite Hv. simpl.
  rewrite <- !Qle_bool_iff. split.
  - intros [= H]. by apply andb_true_iff in H.
  - intros [-> ->]. done.
Qed.

Lemma validate_tax_amount_float x :
  validate_tax_amount (PyFloat (FFin x)) = true <->
  (0 < x /\ x < MAX_TAX_AMOUNT)%Q.
Proof.
  unfold validate_tax_amount. simpl.
  rewrite andb_true_iff, !negb_true_iff, <- !not_true_iff_false.
  rewrite !Qle_bool_iff. split.
  - intros [H1 H2]. split; by apply Qnot_le_lt.
  - intros [H1 H2]. split; by apply Qlt_not_le.
Qed.

Lemma validate_tax_amount_int z : validate_tax_amount (PyInt z) = false.
Proof. reflexivity. Qed.

End NumericRules.

Section RangeChecks.
Import Py Validation Parser.

(** A range rule followed by its [if not ...: raise]. *)
Lemma range_check v x lo hi msg {A} (k : outcome A) :
  num_value v = Some (FFin x) ->
  (ok ← validate_numeric_range v lo hi; check ok msg;; k) =
  if Qle_bool lo x && Qle_bool x hi then k else raise ValidationError msg.
Proof.
  intros Hv. unfold validate_numeric_range. rewrite Hv. simpl.
  by destruct (Qle_bool lo x && Qle_bool x hi).
Qed.

Lemma coordinates_check m lat lon a b c d msg {A} (k : outcome A) :
  num_value (get_or m "lat" (PyInt 0)) = Some (FFin lat) ->
  num_value (get_or m "lon" (PyInt 0)) = Some (FFin lon) ->
  (ok ← Civicsource.coordinates_ok (PyDict m) a b c d; check ok msg;; k) =
  if (Qle_bool a lat && Qle_bool lat b) && (Qle_bool c lon && Qle_bool lon d)
  then k else raise ValidationError msg.
Proof.
  intros Hlat Hlon. unfold Civicsource.coordinates_ok, validate_numeric_range.
  rewrite Hlat, Hlon. simpl.
  destruct (Qle_bool a lat && Qle_bool lat b); simpl; [ | done].
  by destruct (Qle_bool c lon && Qle_bool lon d).
Qed.

Lemma within_bool lo x hi :
  Qle_bool lo x && Qle_bool x hi = true <-> (lo <= x /\ x <= hi)%Q.
Proof. by rewrite andb_true_iff, !Qle_bool_iff. Qed.

Lemma within_years lo y hi :
  Qle_bool (inject_Z lo) (inject_Z y) && Qle_bool (inject_Z y) (inject_Z hi)
  = true <-> lo <= y <= hi.
Proof. by rewrite within_bool, <- !Zle_Qle. Qed.

(** A [validate] that returns [True] or raises a [ValidationError], and
    returns [True] exactly under a condition, raises exactly when the
    condition fails. *)
Lemma raises_exactly_otherwise (m : outcome bool) (P : Prop) :
  (m = Ret true \/ exists msg, m = raise ValidationError msg) ->
  (m = Ret true <-> P) ->
  ((exists msg, m = raise ValidationError msg) <-> ~ P).
Proof.
  intros Hm HP. split.
  - intros (msg & Hmsg) HPtrue. apply HP in HPtrue. by rewrite HPtrue in Hmsg.
  - intros HnP. destruct Hm as [Hm | Hm]; [ | done]. by apply HP in Hm.
Qed.

Variable rt : Runtime.

(** [CivicsourceParser.validate] on a record that passes the rules which
    are not range rules. *)
Lemma Civicsource_validate_ranges (data : dict) id av x m lat lon :
  validate_required_fields data Civicsource.REQUIRED_FIELDS = true ->
  data !! "property_id" = Some (PyStr id) ->
  Regex.re_match Civicsource.property_id_pattern id = true ->
  data !! "assessed_value" = Some av ->
  py_float rt av = Ret (FFin x) ->
  data !! "coordinates" = Some (PyDict m) ->
  num_value (get_or m "lat" (PyInt 0)) = Some (FFin lat) ->
  num_value (get_or m "lon" (PyInt 0)) = Some (FFin lon) ->
  Civicsource.validate rt data =
  if Qle_bool 0 x && Qle_bool x 1000000000 then
    if (Qle_bool (-90) lat && Qle_bool lat 90) &&
       (Qle_bool (-180) lon && Qle_bool lon 180)
    then Ret true
    else raise ValidationError "Invalid coordinates"
  else raise ValidationError "Invalid assessed value".
Proof.
  intros Hreq Hid Hmatch Hav Hx Hc Hlat Hlon.
  unfold Civicsource.validate, Civicsource.validate_body, getitem.
  rewrite Hreq, Hid, Hav, Hc.
  cbn -[validate_numeric_range Civicsource.coordinates_ok Regex.re_match
        py_float].
  rewrite Hmatch, Hx.
  cbn -[validate_numeric_range Civicsource.coordinates_ok].
  rewrite (range_check (PyFloat (FFin x)) x) by done.
  destruct (Qle_bool 0 x && Qle_bool x 1000000000); [ | done].
  rewrite (coordinates_check m lat lon) by done.
  by destruct (_ && _).
Qed.

(** [DeKalbCivicsourceParser.validate] on such a record. *)
Lemma DeKalb_validate_ranges (data : dict) id av x m lat lon class due date :
  validate_required_fields data DeKalb.REQUIRED_FIELDS = true ->
  data !! "tax_id" = Some (PyStr id) ->
  Regex.re_match dekalb_id_pattern id = true ->
  data !! "assessed_value" = Some av ->
  py_float rt av = Ret (FFin x) ->
  data !! "coordinates" = Some (PyDict m) ->
  num_value (get_or m "lat" (PyInt 0)) = Some (FFin lat) ->
  num_value (get_or m "lon" (PyInt 0)) = Some (FFin lon) ->
  data !! "property_class" = Some (PyStr class) ->
  Regex.re_match DeKalb.property_class_pattern class = true ->
  data !! "total_due" = Some due ->
  data !! "sale_date" = Some (PyStr date) ->
  strptime_ok rt date "%Y-%m-%d" = true ->
  DeKalb.validate rt data =
  if Qle_bool 0 x && Qle_bool x 1000000000 then
    if (Qle_bool DeKalb.lat_min lat && Qle_bool lat DeKalb.lat_max) &&
       (Qle_bool DeKalb.lon_min lon && Qle_bool lon DeKalb.lon_max)
    then
      if validate_tax_amount due then Ret true
      else raise ValidationError "Invalid total due amount"
    else raise ValidationError "Invalid coordinates for DeKalb County"
  else raise ValidationError "Invalid assessed value".
Proof.
  intros Hreq Hid Hmatch Hav Hx Hc Hlat Hlon Hpc Hclass Hdue Hsd Hdate.
  unfold DeKalb.validate, DeKalb.validate_body, getitem, validate_dekalb_id.
  rewrite Hreq, Hid, Hav, Hc, Hpc, Hdue, Hsd.
  cbn -[validate_numeric_range Civicsource.coordinates_ok Regex.re_match
        py_float validate_tax_amount].
  rewrite Hmatch, Hx.
  cbn -[validate_numeric_range Civicsource.coordinates_ok Regex.re_match
        validate_tax_amount].
  rewrite (range_check (PyFloat (FFin x)) x) by done.
  destruct (Qle_bool 0 x && Qle_bool x 1000000000); [ | done].
  rewrite (coordinates_check m lat lon) by done.
  destruct (_ && _); [ | done].
  cbn -[Regex.re_match validate_tax_amount]. rewrite Hclass.
  cbn -[validate_tax_amount].
  destruct (validate_tax_amount due); [ | done].
  cbn. unfold default_date_format. by rewrite Hdate.
Qed.

(** [ClaytonBaseParser.validate] on such a record. *)
Lemma Clayton_validate_ranges (data : dict) parcel mv value ty year :
  validate_required_fields data Clayton.REQUIRED_FIELDS = true ->
  data !! "parcel_id" = Some (PyStr parcel) ->
  Regex.re_match Clayton.parcel_id_pattern parcel = true ->
  data !! "market_value" = Some mv ->
  py_float rt mv = Ret (FFin value) ->
  data !! "tax_year" = Some ty ->
  py_int rt ty = Ret year ->
  Clayton.validate rt data =
  if Qle_bool 0 value && Qle_bool value 100000000 then
    if Qle_bool (inject_Z 1900) (inject_Z year) &&
       Qle_bool (inject_Z year) (inject_Z 2100)
    then Ret true
    else raise ValidationError "Invalid tax year"
  else raise ValidationError "Invalid market value".
Proof.
  intros Hreq Hp Hmatch Hmv Hvalue Hty Hyear.
  unfold Clayton.validate, Clayton.validate_body, getitem.
  rewrite Hreq, Hp, Hmv, Hty.
  cbn -[validate_numeric_range Regex.re_match py_float py_int].
  rewrite Hmatch, Hvalue.
  cbn -[validate_numeric_range py_int].
  rewrite (range_check (PyFloat (FFin value)) value) by done.
  destruct (Qle_bool 0 value && Qle_bool value 100000000); [ | done].
  rewrite Hyear. cbn -[validate_numeric_range].
  rewrite (range_check (PyInt year) (inject_Z year) 1900 2100) by done.
  by destruct (_ && _).
Qed.

End RangeChecks.

(** C3, as the code has it.  The generic rule [validate_numeric_range] is
    true exactly when [min <= value <= max]: both bounds are included.
    The tax-amount rule excludes its bounds: for a float or a Decimal it
    is true exactly when [0 < value < 10,000,000].  In [validate], take a
    record that passes the rules which are not range rules (so that its
    required fields test true).  Then [validate] returns [True] exactly
    when every ranged field lies within its bounds, and raises a
    [ValidationError] exactly when one does not, where the bounds are
    tested on [float(assessed_value)] and [float(market_value)], on [lat]
    and [lon] as they stand (0 for a missing one), on [int(tax_year)],
    and, strictly, on [total_due]. *)
Theorem numeric_rules_bounds (rt : Py.Runtime) (data : Py.dict) :
  (forall v x lo hi,
     Py.num_value v = Some (Py.FFin x) ->
     (Validation.validate_numeric_range v lo hi = Py.Ret true <->
      (lo <= x /\ x <= hi)%Q)) /\
  (forall due q,
     due = Py.PyFloat (Py.FFin q) \/ due = Py.PyDecimal q ->
     (Validation.validate_tax_amount due = true <->
      (0 < q /\ q < 10000000)%Q)) /\
  (forall id av x m lat lon,
     Validation.validate_required_fields data Civicsource.REQUIRED_FIELDS
     = true ->
     data !! "property_id" = Some (Py.PyStr id) ->
     Regex.re_match Civicsource.property_id_pattern id = true ->
     data !! "assessed_value" = Some av ->
     Py.py_float rt av = Py.Ret (Py.FFin x) ->
     data !! "coordinates" = Some (Py.PyDict m) ->
     Py.num_value (Py.get_or m "lat" (Py.PyInt 0)) = Some (Py.FFin lat) ->
     Py.num_value (Py.get_or m "lon" (Py.PyInt 0)) = Some (Py.FFin lon) ->
     let inside :=
       ((0 <= x /\ x <= 1000000000) /\ (-90 <= lat /\ lat <= 90) /\
        (-180 <= lon /\ lon <= 180))%Q in
     (Civicsource.validate rt data = Py.Ret true <-> inside) /\
     ((exists msg,
         Civicsource.validate rt data = Py.raise Py.ValidationError msg) <->
      ~ inside)) /\
  (forall id av x m lat lon class due q date,
     Validation.validate_required_fields data DeKalb.REQUIRED_FIELDS = true ->
     data !! "tax_id" = Some (Py.PyStr id) ->
     Regex.re_match Validation.dekalb_id_pattern id = true ->
     data !! "assessed_value" = Some av ->
     Py.py_float rt av = Py.Ret (Py.FFin x) ->
     data !! "coordinates" = Some (Py.PyDict m) ->
     Py.num_value (Py.get_or m "lat" (Py.PyInt 0)) = Some (Py.FFin lat) ->
     Py.num_value (Py.get_or m "lon" (Py.PyInt 0)) = Some (Py.FFin lon) ->
     data !! "property_class" = Some (Py.PyStr class) ->
     Regex.re_match DeKalb.property_class_pattern class = true ->
     data !! "total_due" = Some due ->
     due = Py.PyFloat (Py.FFin q) \/ due = Py.PyDecimal q ->
     data !! "sale_date" = Some (Py.PyStr date) ->
     Py.strptime_ok rt date "%Y-%m-%d" = true ->
     let inside :=
       ((0 <= x /\ x <= 1000000000) /\
        (DeKalb.lat_min <= lat /\ lat <= DeKalb.lat_max) /\
        (DeKalb.lon_min <= lon /\ lon <= DeKalb.lon_max) /\
        (0 < q /\ q < 10000000))%Q in
     (DeKalb.validate rt data = Py.Ret true <-> inside) /\
     ((exists msg,
         DeKalb.validate rt data = Py.raise Py.ValidationError msg) <->
      ~ inside)) /\
  (forall parcel mv value ty year,
     Validation.validate_required_fields data Clayton.REQUIRED_FIELDS = true ->
     data !! "parcel_id" = Some (Py.PyStr parcel) ->
     Regex.re_match Clayton.parcel_id_pattern parcel = true ->
     data !! "market_value" = Some mv ->
     Py.py_float rt mv = Py.Ret (Py.FFin value) ->
     data !! "tax_year" = Some ty ->
     Py.py_int rt ty = Py.Ret year ->
     let inside :=
       (0 <= value /\ value <= 100000000)%Q /\ 1900 <= year <= 2100 in
     (Clayton.validate rt data = Py.Ret true <-> inside) /\
     ((exists msg,
         Clayton.validate rt data = Py.raise Py.ValidationError msg) <->
      ~ inside)).
Proof.
  split; [intros v x lo hi Hv; by apply validate_numeric_range_spec | ].
  split.
  { intros due q [-> | ->]; apply (validate_tax_amount_float q). }
  split; [ | split].
  - intros id av x m lat lon Hreq Hid Hmatch Hav Hx Hc Hlat Hlon inside.
    pose proof (Civicsource_validate_ranges rt data id av x m lat lon
                  Hreq Hid Hmatch Hav Hx Hc Hlat Hlon) as Hv.
    assert (Civicsource.validate rt data = Py.Ret true <-> inside) as Hiff.
    { unfold inside. rewrite <- !within_bool, <- !andb_true_iff, Hv.
      destruct (Qle_bool 0 x && Qle_bool x 1000000000); [ | done].
      by destruct (_ && _). }
    split; [exact Hiff | ].
    apply raises_exactly_otherwise; [ | exact Hiff]. rewrite Hv.
    destruct (Qle_bool 0 x && Qle_bool x 1000000000); [ | by eauto].
    destruct (_ && _); by eauto.
  - intros id av x m lat lon class due q date Hreq Hid Hmatch Hav Hx Hc Hlat
      Hlon Hpc Hclass Hdue Hq Hsd Hdate inside.
    pose proof (DeKalb_validate_ranges rt data id av x m lat lon class due
                  date Hreq Hid Hmatch Hav Hx Hc Hlat Hlon Hpc Hclass Hdue
                  Hsd Hdate) as Hv.
    assert (Validation.validate_tax_amount due = true <->
            (0 < q /\ q < 10000000)%Q) as Hamount
      by (destruct Hq as [-> | ->]; apply (validate_tax_amount_float q)).
    assert (DeKalb.validate rt data = Py.Ret true <-> inside) as Hiff.
    { unfold inside. rewrite <- Hamount, <- !within_bool, <- !andb_true_iff, Hv.
      destruct (Qle_bool 0 x && Qle_bool x 1000000000); [ | done].
      destruct (Qle_bool DeKalb.lat_min lat && Qle_bool lat DeKalb.lat_max);
        [ | done].
      destruct (Qle_bool DeKalb.lon_min lon && Qle_bool lon DeKalb.lon_max);
        [ | done].
      by destruct (Validation.validate_tax_amount due). }
    split; [exact Hiff | ].
    apply raises_exactly_otherwise; [ | exact Hiff]. rewrite Hv.
    destruct (Qle_bool 0 x && Qle_bool x 1000000000); [ | by eauto].
    destruct (_ && _); [ | by eauto].
    destruct (Validation.validate_tax_amount due); by eauto.
  - intros parcel mv value ty year Hreq Hp Hmatch Hmv Hvalue Hty Hyear inside.
    pose proof (Clayton_validate_ranges rt data parcel mv value ty year
                  Hreq Hp Hmatch Hmv Hvalue Hty Hyear) as Hv.
    assert (Clayton.validate rt data = Py.Ret true <-> inside) as Hiff.
    { unfold inside. rewrite <- within_years, <- within_bool,
        <- andb_true_iff, Hv.
      destruct (Qle_bool 0 value && Qle_bool value 100000000); [ | done].
      by destruct (_ && _). }
    split; [exact Hiff | ].
    apply raises_exactly_otherwise; [ | exact Hiff]. rewrite Hv.
    destruct (Qle_bool 0 value && Qle_bool value 100000000); [ | by eauto].
    destruct (_ && _); by eauto.
Qed.

(** The Clayton record of the tests with both ranged fields at their
    upper bounds, 100,000,000 and 2100, and with the year at its lower
    bound: [validate] returns [True]. *)
Lemma numeric_rules_bounds_witness :
  let at_max :=
    <["market_value" := Py.PyFloat (Py.FFin 100000000)]>
      (<["tax_year" := Py.PyInt 2100]> Fixtures.clayton_valid_data) in
  let at_min := <["tax_year" := Py.PyInt 1900]> Fixtures.clayton_valid_data in
  Validation.validate_required_fields at_max Clayton.REQUIRED_FIELDS = true /\
  at_max !! "parcel_id" = Some (Py.PyStr "12-345-678") /\
  Regex.re_match Clayton.parcel_id_pattern "12-345-678" = true /\
  at_max !! "market_value" = Some (Py.PyFloat (Py.FFin 100000000)) /\
  at_max !! "tax_year" = Some (Py.PyInt 2100) /\
  Clayton.validate Fixtures.runtime at_max = Py.Ret true /\
  Clayton.validate Fixtures.runtime at_min = Py.Ret true.
Proof.
  intros at_max at_min.
  assert (Validation.validate_required_fields at_max Clayton.REQUIRED_FIELDS
          = true) as Hreq by reflexivity.
  assert (at_max !! "parcel_id" = Some (Py.PyStr "12-345-678")) as Hp
    by reflexivity.
  assert (Regex.re_match Clayton.parcel_id_pattern "12-345-678" = true)
    as Hmatch by reflexivity.
  assert (at_max !! "market_value" = Some (Py.PyFloat (Py.FFin 100000000)))
    as Hmv by reflexivity.
  assert (at_max !! "tax_year" = Some (Py.PyInt 2100)) as Hty by reflexivity.
  split; [exact Hreq | ]. split; [exact Hp | ]. split; [exact Hmatch | ].
  split; [exact Hmv | ]. split; [exact Hty | ].
  split.
  - apply (proj1 (proj2 (proj2 (proj2 (proj2
             (numeric_rules_bounds Fixtures.runtime at_max))))
             "12-345-678" _ 100000000%Q _ 2100 Hreq Hp Hmatch Hmv eq_refl
             Hty eq_refl)).
    split; [split; discriminate | lia].
  - apply (proj1 (proj2 (proj2 (proj2 (proj2
             (numeric_rules_bounds Fixtures.runtime at_min))))
             "12-345-678" _ 250000%Q _ 1900 eq_refl eq_refl eq_refl eq_refl
             eq_refl eq_refl eq_refl)).
    split; [split; discriminate | lia].
Defined.

(** C3 as stated fails in three ways.  The tax-amount rule refuses its
    own maximum: a [total_due] of 10,000,000 in a record that is otherwise
    in order makes [DeKalbCivicsourceParser.validate] raise, as does 0.
    A value outside its range can pass: [int()] cuts a [tax_year] of
    2100.5 down to 2100 before the range is tested, and
    [ClaytonBaseParser.validate] returns [True].  And the lower bound 0
    of [market_value], which the range rule itself admits, does not pass
    [validate]: the required-fields rule takes a 0.0 for a missing
    field. *)
Lemma bounds_refused_and_outside_value_accepted :
  Validation.validate_tax_amount
    (Py.PyFloat (Py.FFin Validation.MAX_TAX_AMOUNT)) = false /\
  Validation.validate_tax_amount (Py.PyFloat (Py.FFin 0)) = false /\
  DeKalb.validate Fixtures.runtime
    (Fixtures.dekalb_record (Py.PyFloat (Py.FFin 10000000))) =
  Py.raise Py.ValidationError "Invalid total due amount" /\
  DeKalb.validate Fixtures.runtime
    (Fixtures.dekalb_record (Py.PyFloat (Py.FFin 9999999))) = Py.Ret true /\
  ~ (1900 <= 2100.5 /\ 2100.5 <= 2100)%Q /\
  Clayton.validate Fixtures.runtime
    (<["tax_year" := Py.PyFloat (Py.FFin 2100.5)]> Fixtures.clayton_valid_data)
  = Py.Ret true /\
  Validation.validate_numeric_range (Py.PyFloat (Py.FFin 0)) 0 100000000
  = Py.Ret true /\
  Clayton.validate Fixtures.runtime
    (<["market_value" := Py.PyFloat (Py.FFin 0)]> Fixtures.clayton_valid_data)
  = Py.raise Py.ValidationError "Missing required fields".
Proof.
  split; [reflexivity | ]. split; [reflexivity | ].
  split; [vm_compute; reflexivity | ]. split; [vm_compute; reflexivity | ].
  split; [intros [_ H]; by apply H | ].
  repeat split; vm_compute; reflexivity.
Qed.

(** ** Integer amounts *)

(** C10. [validate_tax_amount] is false for every [int], whatever its
    size, because the type test admits [float] and [Decimal] only; so
    [DeKalbCivicsourceParser.validate] raises a [ValidationError] for
    every record whose [total_due] is an [int]. *)
Theorem int_total_due_is_rejected
    (rt : Py.Runtime) (data : Py.dict) (z : Z) :
  data !! "total_due" = Some (Py.PyInt z) ->
  Validation.validate_tax_amount (Py.PyInt z) = false /\
  Validation.validate_type (Py.PyInt z) [Validation.TFloat; Validation.TDecimal]
  = false /\
  exists msg, DeKalb.validate rt data = Py.raise Py.ValidationError msg.
Proof.
  intros Hdue. split; [reflexivity | split; [reflexivity | ]].
  apply reraise_as_fails; [apply DeKalb_validate_body_only_Exception | ].
  unfold DeKalb.validate_body.
  do 14 (apply never_returns_bind; intros ? _).
  apply never_returns_bind. intros due Hget.
  unfold Py.getitem in Hget. rewrite Hdue in Hget.
  injection Hget as <-. by intros b.
Qed.

(** A record that is in order but for an integer [total_due] of 3500. *)
Lemma int_total_due_is_rejected_witness :
  Fixtures.dekalb_record (Py.PyInt 3500) !! "total_due" = Some (Py.PyInt 3500) /\
  Validation.validate_tax_amount (Py.PyInt 3500) = false /\
  exists msg,
    DeKalb.validate Fixtures.runtime (Fixtures.dekalb_record (Py.PyInt 3500)) =
    Py.raise Py.ValidationError msg.
Proof.
  assert (Fixtures.dekalb_record (Py.PyInt 3500) !! "total_due"
          = Some (Py.PyInt 3500)) as H by reflexivity.
  split; [exact H | ].
  destruct (int_total_due_is_rejected Fixtures.runtime _ 3500 H)
    as (Hrule & _ & Hvalidate).
  split; [exact Hrule | exact Hvalidate].
Defined.

(** The amount 3500 is accepted as a float and refused as an int, at the
    total-due rule. *)
Lemma total_due_float_and_int :
  DeKalb.validate Fixtures.runtime
    (Fixtures.dekalb_record (Py.PyFloat (Py.FFin 3500))) = Py.Ret true /\
  DeKalb.validate Fixtures.runtime (Fixtures.dekalb_record (Py.PyInt 3500)) =
  Py.raise Py.ValidationError "Invalid total due amount".
Proof. split; vm_compute; reflexivity. Qed.

(** ** The regex-format rule *)

(** C4, as the code has it.  [validate_string_format] is true exactly
    when the pattern matches at the start of the value, that is when it
    matches some prefix [value[0:j]]: a value that matches as a whole is
    accepted, and so is a value of which only a proper prefix matches.
    Only a pattern that itself ends in [$] ties the match to the end of the
    value, or to the newline that ends it. *)
Theorem validate_string_format_matches_a_prefix
    (value : string) (pattern : Regex.regex) :
  let s := list_ascii_of_string value in
  (Validation.validate_string_format (Py.PyStr value) pattern = Py.Ret true <->
   exists j, Regex.Matches s pattern 0 j) /\
  (Regex.Matches s pattern 0 (List.length s) ->
   Validation.validate_string_format (Py.PyStr value) pattern = Py.Ret true) /\
  (forall r, pattern = Regex.Cat r Regex.Eol ->
   Validation.validate_string_format (Py.PyStr value) pattern = Py.Ret true ->
   exists j, Regex.Matches s r 0 j /\ Regex.at_end s j = true).
Proof.
  intros s. unfold Validation.validate_string_format.
  assert (Py.Ret (Regex.re_match pattern value) = Py.Ret true <->
          exists j, Regex.Matches s pattern 0 j) as Hiff.
  { subst s. rewrite <- re_match_spec.
    split; [by intros [= ->] | by intros ->]. }
  split; [exact Hiff | split].
  - intros Hfull. apply Hiff. by eexists.
  - intros r -> Hok. apply Hiff in Hok as (j & Hj).
    inversion Hj as [ | | | | r1 r2 i k j' H1 H2 | | | | | | ]; subst.
    inversion H2; subst. by exists j.
Qed.

(** A value that matches as a whole: the property id of the tests. *)
Lemma validate_string_format_matches_a_prefix_witness :
  let s := list_ascii_of_string "ABC-12345" in
  Regex.Matches s Civicsource.property_id_pattern 0 (List.length s) /\
  Validation.validate_string_format (Py.PyStr "ABC-12345")
    Civicsource.property_id_pattern = Py.Ret true.
Proof.
  intros s.
  assert (Regex.Matches s Civicsource.property_id_pattern 0 (List.length s))
    as H by (apply ends_sound; vm_compute; auto).
  split; [exact H | ].
  exact (proj1 (proj2 (validate_string_format_matches_a_prefix
                         "ABC-12345" Civicsource.property_id_pattern)) H).
Defined.

(** C4 as stated fails.  For the pattern [[A-Z]{3}-\d{5}] the rule accepts
    "ABC-12345-extra", of which only the proper prefix "ABC-12345" matches;
    and [validate_dekalb_id], whose pattern is anchored at both ends,
    accepts an id followed by a newline, which does not match as a whole. *)
Lemma proper_prefix_match_is_accepted :
  let p := Regex.Cat (Regex.Rep 3 Regex.Upper)
             (Regex.Cat (Regex.Chr "-") (Regex.Rep 5 Regex.Digit)) in
  let v := "ABC-12345-extra"%string in
  let w := String.append "123456-78" (String Regex.newline EmptyString) in
  (Validation.validate_string_format (Py.PyStr v) p = Py.Ret true /\
   Regex.Matches (list_ascii_of_string v) p 0 9 /\
   ~ Regex.Matches (list_ascii_of_string v) p 0
       (List.length (list_ascii_of_string v))) /\
  (Validation.validate_dekalb_id (Py.PyStr w) = Py.Ret true /\
   ~ Regex.Matches (list_ascii_of_string w) Validation.dekalb_id_pattern 0
       (List.length (list_ascii_of_string w))).
Proof.
  intros p v w. repeat split.
  - apply ends_sound. vm_compute. auto.
  - intros H. apply (proj2 (re_fullmatch_spec p v)) in H.
    vm_compute in H. discriminate.
  - intros H.
    apply (proj2 (re_fullmatch_spec Validation.dekalb_id_pattern w)) in H.
    vm_compute in H. discriminate.
Qed.

(** ** Transactions *)

Section ScopeFacts.
Import Py Db.

(** Inside an open scope nothing reaches the connection: a block run
    with a counter of at least one leaves counter and call log as they
    were, whether it returns or raises an [Exception]. *)
Lemma run_inside_open_scope (b : block) : forall (c : Z) (log : list call),
  1 <= c ->
  match raised b with
  | None => run b (mkState (Some c) log) = (Ret tt, mkState (Some c) log)
  | Some e =>
      is_Exception e = true ->
      run b (mkState (Some c) log) = (Raise e, mkState (Some c) log)
  end.
Proof.
  induction b as [ | e | b1 IH1 b2 IH2 | body IH]; intros c log Hc; simpl.
  - done.
  - done.
  - specialize (IH1 c log Hc). specialize (IH2 c log Hc).
    destruct (raised b1) as [e1 | ].
    + intros He. by rewrite (IH1 He).
    + rewrite IH1. exact IH2.
  - specialize (IH (c + 1) log ltac:(lia)).
    unfold scope_enter. simpl.
    assert ((c + 1 - 1 =? 0) = false) as Hnz by lia.
    assert (c + 1 - 1 = c) as Hc' by lia.
    destruct (raised body) as [e | ].
    + intros He. rewrite (IH He). simpl.
      by rewrite He, Hnz, Hc', app_nil_r.
    + rewrite IH. simpl. by rewrite Hnz, Hc', app_nil_r.
Qed.

Lemma scope_enter_outermost st :
  outermost st -> scope_enter st = mkState (Some 1) (calls st).
Proof. unfold scope_enter. by intros [-> | ->]. Qed.



(** An exception that does not derive from [Exception] passes the
    [except Exception] clause: the outermost scope neither rolls back nor
    resets the counter. *)
Lemma scope_passes_BaseException e st :
  is_Exception e = false ->
  run (WithScope (RaiseStmt e)) st = (Raise e, scope_enter st).
Proof. intros He. simpl. by rewrite He. Qed.

End ScopeFacts.

Section FailingScopeFacts.
Import Py Db.

(** The same on a connection whose calls can fail: inside an open scope
    the connection is not called, so what its calls would do does not
    matter. *)
Lemma run_failing_in_open_scope conn (b : block) :
  forall (c : Z) (log : list call),
    1 <= c ->
    match raised b with
    | None =>
        FailingConnection.run conn b (mkState (Some c) log) =
        (Ret tt, mkState (Some c) log)
    | Some e =>
        is_Exception e = true ->
        FailingConnection.run conn b (mkState (Some c) log) =
        (Raise e, mkState (Some c) log)
    end.
Proof.
  induction b as [ | e | b1 IH1 b2 IH2 | body IH]; intros c log Hc; simpl.
  - done.
  - done.
  - specialize (IH1 c log Hc). specialize (IH2 c log Hc).
    destruct (raised b1) as [e1 | ].
    + intros He. by rewrite (IH1 He).
    + rewrite IH1. exact IH2.
  - specialize (IH (c + 1) log ltac:(lia)).
    unfold scope_enter. simpl.
    assert ((c + 1 - 1 =? 0) = false) as Hnz by lia.
    assert (c + 1 - 1 = c) as Hc' by lia.
    destruct (raised body) as [e | ].
    + intros He. rewrite (IH He).
      unfold FailingConnection.scope_exit, FailingConnection.scope_handler.
      simpl. by rewrite He, Hnz, Hc'.
    + rewrite IH. unfold FailingConnection.scope_exit. simpl.
      by rewrite Hnz, Hc'.
Qed.

End FailingScopeFacts.




Section TransactionFacts.
Import Py Base.

Lemma run_body_spec (body : list stmt) : forall (c : connection),
  run_body body c =
  (match failure body with Some e => Raise e | None => Ret tt end,
   mkConn (pending c ++ inserted body) (committed c) (calls c)).
Proof.
  induction body as [ | [row | e] rest IH]; intros [p k l]; simpl.
  - by rewrite app_nil_r.
  - rewrite IH. simpl. by rewrite <- app_assoc.
  - by rewrite app_nil_r.
Qed.

End TransactionFacts.

(** C2, as the code has it.  For a parser that has a connection, the
    transaction context commits when the body returns and
    [connection.commit()] returns: the rows the body wrote, with what was
    pending, become durable.  When the body raises an instance of
    [Exception], the class the handler names, and [connection.rollback()]
    returns, [rollback] is called once, [commit] is not called, the
    durable rows are what they were, nothing stays pending, and the
    failure is raised again as a [DatabaseError] whose text carries that
    of the exception. *)
Theorem transaction_commits_or_rolls_back
    (conn : FailingConnection.behaviour) (c : Base.connection)
    (body : list Base.stmt) :
  (Base.failure body = None ->
   FailingConnection.commit_raises conn = None ->
   FailingConnection.transaction conn c body =
   (Py.Ret tt,
    Base.mkConn []
      (Base.committed c ++ Base.pending c ++ Base.inserted body)
      (Base.calls c ++ [Db.Commit]))) /\
  (forall e, Base.failure body = Some e -> Py.is_Exception e = true ->
   FailingConnection.rollback_raises conn = None ->
   FailingConnection.transaction conn c body =
   (Py.raise Py.DatabaseError ("Transaction failed: " +:+ Py.str_exn e),
    Base.mkConn [] (Base.committed c) (Base.calls c ++ [Db.Rollback]))).
Proof.
  unfold FailingConnection.transaction. rewrite run_body_spec. split.
  - intros -> Hcommit. by rewrite Hcommit.
  - intros e -> He Hrollback. by rewrite He, Hrollback.
Qed.

(** Two rows are written and the third statement fails, on a connection
    whose calls return. *)
Lemma transaction_commits_or_rolls_back_witness :
  let e := Py.mkExn Py.ValueError "Test error" in
  let c := Base.mkConn [] [Fixtures.civicsource_valid_data] [] in
  let body := [Base.Insert Fixtures.clayton_valid_data;
               Base.Insert Fixtures.clayton_padded_row; Base.Fail e] in
  Base.failure body = Some e /\
  Py.is_Exception e = true /\
  FailingConnection.rollback_raises FailingConnection.reliable = None /\
  FailingConnection.transaction FailingConnection.reliable c body =
  (Py.raise Py.DatabaseError "Transaction failed: Test error",
   Base.mkConn [] [Fixtures.civicsource_valid_data] [Db.Rollback]).
Proof.
  intros e c body.
  assert (Base.failure body = Some e) as Hf by reflexivity.
  assert (Py.is_Exception e = true) as He by reflexivity.
  assert (FailingConnection.rollback_raises FailingConnection.reliable = None)
    as Hrb by reflexivity.
  split; [exact Hf | split; [exact He | split; [exact Hrb | ]]].
  exact (proj2 (transaction_commits_or_rolls_back
                  FailingConnection.reliable c body) e Hf He Hrb).
Defined.

(** C2 as stated fails for an exception outside [Exception]: when the
    body writes a row and is then stopped by a [KeyboardInterrupt], the
    handler is passed by, [rollback] is not called, the exception leaves
    as it is and not as a [DatabaseError], and the row stays pending on
    the connection; the next transaction of the parser, with an empty
    body, makes it durable. *)
Lemma KeyboardInterrupt_leaves_rows_pending :
  let interrupt := Py.mkExn Py.KeyboardInterrupt "" in
  let row := Fixtures.clayton_valid_data in
  let conn := FailingConnection.reliable in
  FailingConnection.transaction conn (Base.mkConn [] [] [])
    [Base.Insert row; Base.Fail interrupt] =
  (Py.Raise interrupt, Base.mkConn [row] [] []) /\
  FailingConnection.transaction conn (Base.mkConn [row] [] []) [] =
  (Py.Ret tt, Base.mkConn [] [row] [Db.Commit]) /\
  Base.transaction (Some (Base.mkConn [] [] []))
    [Base.Insert row; Base.Fail interrupt] =
  (Py.Raise interrupt, Some (Base.mkConn [row] [] [])).
Proof. repeat split. Qed.

(** ** Row transformation *)

Section StripFacts.
Import Parser.

Lemma lstrip_id s : starts_with_space s = false -> lstrip s = s.
Proof. destruct s as [ | c s]; simpl; [done | by intros ->]. Qed.

Lemma rstrip_id s : ends_with_space s = false -> rstrip s = s.
Proof.
  induction s as [ | c s IH]; [done | ].
  destruct s as [ | d s]; simpl in *.
  - by intros ->.
  - intros H. rewrite (IH H). done.
Qed.

(** A value that neither starts nor ends with whitespace is its own
    [strip()]. *)
Lemma strip_id s :
  starts_with_space s = false -> ends_with_space s = false -> strip s = s.
Proof. intros H1 H2. unfold strip. by rewrite lstrip_id, rstrip_id. Qed.

End StripFacts.

(** C6, as the code has it.  [ClaytonExcelParser._transform_row] maps a
    row whose cells have the types [parse] asks the reader for to a record
    in which every text field is the cell's text with leading and trailing
    whitespace removed and every numeric field is the cell's value; a text
    that neither starts nor ends with whitespace appears unchanged.
    [CivicsourceParser._transform_tabular_data] maps the first row of a
    frame whose text cells are strings and whose numeric cells are floats
    to a record that holds those values unchanged, the two coordinates
    under [coordinates]. *)
Theorem transform_keeps_values_up_to_strip (rt : Py.Runtime) (row : Py.dict) :
  (forall parcel owner address value year,
     row !! "parcel_id" = Some (Py.PyStr parcel) ->
     row !! "owner_name" = Some (Py.PyStr owner) ->
     row !! "property_address" = Some (Py.PyStr address) ->
     row !! "market_value" = Some (Py.PyFloat value) ->
     row !! "tax_year" = Some (Py.PyInt year) ->
     Clayton._transform_row rt row =
     Py.Ret (list_to_map
               [("parcel_id", Py.PyStr (Parser.strip parcel));
                ("owner_name", Py.PyStr (Parser.strip owner));
                ("property_address", Py.PyStr (Parser.strip address));
                ("market_value", Py.PyFloat value);
                ("tax_year", Py.PyInt year)])) /\
  (forall text,
     Parser.starts_with_space text = false ->
     Parser.ends_with_space text = false -> Parser.strip text = text) /\
  (forall rest id address owner value status lat lon,
     row !! "property_id" = Some (Py.PyStr id) ->
     row !! "address" = Some (Py.PyStr address) ->
     row !! "owner_name" = Some (Py.PyStr owner) ->
     row !! "assessed_value" = Some (Py.PyFloat value) ->
     row !! "tax_status" = Some (Py.PyStr status) ->
     row !! "latitude" = Some (Py.PyFloat lat) ->
     row !! "longitude" = Some (Py.PyFloat lon) ->
     Civicsource._transform_tabular_data rt (row :: rest) =
     Py.Ret (list_to_map
               [("property_id", Py.PyStr id);
                ("address", Py.PyStr address);
                ("owner_name", Py.PyStr owner);
                ("assessed_value", Py.PyFloat value);
                ("tax_status", Py.PyStr status);
                ("coordinates",
                 Py.PyDict (list_to_map [("lat", Py.PyFloat lat);
                                         ("lon", Py.PyFloat lon)]))])).
Proof.
  split; [ | split].
  - intros parcel owner address value year H1 H2 H3 H4 H5.
    unfold Clayton._transform_row, Clayton.stripped, Py.getitem.
    by rewrite H1, H2, H3, H4, H5.
  - apply strip_id.
  - intros rest id address owner value status lat lon H1 H2 H3 H4 H5 H6 H7.
    unfold Civicsource._transform_tabular_data, Civicsource.standard_record,
      Py.get_or.
    by rewrite H1, H2, H3, H4, H5, H6, H7.
Qed.

(** The Clayton row of the tests comes out as it went in, and the
    Civicsource row comes out as the record of the tests. *)
Lemma transform_keeps_values_up_to_strip_witness :
  Clayton._transform_row Fixtures.runtime Fixtures.clayton_valid_data =
  Py.Ret Fixtures.clayton_valid_data /\
  Civicsource._transform_tabular_data Fixtures.runtime
    [Fixtures.civicsource_row] = Py.Ret Fixtures.civicsource_valid_data.
Proof.
  split.
  - exact (proj1 (transform_keeps_values_up_to_strip Fixtures.runtime
                    Fixtures.clayton_valid_data)
             "12-345-678" "Jane Smith" "456 Oak Avenue" (Py.FFin 250000) 2023
             eq_refl eq_refl eq_refl eq_refl eq_refl).
  - exact (proj2 (proj2 (transform_keeps_values_up_to_strip Fixtures.runtime
                           Fixtures.civicsource_row))
             [] "ABC-12345" "123 Main St" "John Doe" (Py.FFin 150000) "current"
             (Py.FFin (2864908607956399 # 70368744177664))
             (Py.FFin (-2603854640806101 # 35184372088832))
             eq_refl eq_refl eq_refl eq_refl eq_refl eq_refl eq_refl).
Defined.

(** C6 as stated fails.  The sheet holds a row that every rule of
    [validate] accepts as it stands and whose address ends in a blank;
    [parse] succeeds, [validate] accepts the record, and the record's
    address is not the one of the row. *)
Lemma parsed_address_differs_from_source :
  let row := Fixtures.clayton_padded_row in
  Parser.read_excel Fixtures.files "clayton.xlsx" = Py.Ret [row] /\
  Clayton.validate Fixtures.runtime row = Py.Ret true /\
  exists record,
    fst (Clayton.parse Fixtures.runtime Fixtures.files Clayton.init
           "clayton.xlsx") = Py.Ret record /\
    Clayton.validate Fixtures.runtime record = Py.Ret true /\
    row !! "property_address" = Some (Py.PyStr "456 Oak Avenue ") /\
    record !! "property_address" = Some (Py.PyStr "456 Oak Avenue") /\
    record !! "property_address" <> row !! "property_address".
Proof.
  intros row. split; [reflexivity | ]. split; [vm_compute; reflexivity | ].
  eexists. split; [vm_compute; reflexivity | ].
  split; [vm_compute; reflexivity | ].
  split; [reflexivity | ]. split; [reflexivity | ].
  vm_compute. discriminate.
Qed.

(** The CSV file that [test_parse_csv_data] writes has a [coordinates]
    column and no [latitude] or [longitude] column: the record then holds
    the defaults, latitude and longitude 0, and [validate] accepts it. *)
Lemma Civicsource_missing_coordinate_columns :
  let row : Py.dict :=
    <["coordinates" := Py.PyStr "{'lat': 40.7128, 'lon': -74.006}"]>
      (delete "latitude" (delete "longitude" Fixtures.civicsource_row)) in
  exists record,
    Civicsource._transform_tabular_data Fixtures.runtime [row] =
    Py.Ret record /\
    record !! "coordinates" =
    Some (Py.PyDict (list_to_map [("lat", Py.PyFloat (Py.FFin 0));
                                  ("lon", Py.PyFloat (Py.FFin 0))])) /\
    Civicsource.validate Fixtures.runtime record = Py.Ret true.
Proof.
  intros row. eexists. split; [vm_compute; reflexivity | ].
  split; vm_compute; reflexivity.
Qed.

(** ** Cleaning up *)

Section CleanFacts.
Import Py Parser.

(** On a parser that holds nothing, [clean] does nothing. *)
Lemma clean_fresh :
  Civicsource.clean Civicsource.init = (Ret tt, Civicsource.init) /\
  Clayton.clean Clayton.init = (Ret tt, Clayton.init) /\
  GovEase.clean GovEase.init = (Ret tt, GovEase.init) /\
  fst (DeKalb.clean DeKalb.init) = Ret tt.
Proof. repeat split. Qed.

(** [GovEaseParser.clean] binds the attribute to [None] again after the
    [del]: it succeeds and is idempotent whether or not a frame is
    held. *)
Lemma GovEase_clean_idempotent (frame : option table) :
  let p := GovEase.mkParser (Bound frame) in
  GovEase.clean p = (Ret tt, GovEase.init) /\
  GovEase.clean GovEase.init = (Ret tt, GovEase.init).
Proof. destruct frame; repeat split. Qed.

(** [CivicsourceParser.clean] leaves the attribute of a frame it held
    removed, and so does [ClaytonExcelParser.clean]: the first call
    succeeds, every further call raises [AttributeError]. *)
Lemma Civicsource_clean_after_frame (t : table) (g : option (list feature)) :
  exists p',
    Civicsource.clean (Civicsource.mkParser (Bound (Some t)) (Bound g)) =
    (Ret tt, p') /\
    Civicsource.data_frame p' = Deleted /\
    Civicsource.clean p' =
    (raise AttributeError
       "'CivicsourceParser' object has no attribute 'data_frame'", p').
Proof. destruct g; eexists; repeat split. Qed.

Lemma Clayton_clean_after_frame (t : table) :
  Clayton.clean (Clayton.mkParser (Bound (Some t))) =
  (Ret tt, Clayton.mkParser Deleted) /\
  Clayton.clean (Clayton.mkParser Deleted) =
  (raise AttributeError
     "'ClaytonExcelParser' object has no attribute 'data_frame'",
   Clayton.mkParser Deleted).
Proof. repeat split. Qed.

End CleanFacts.

(** C7 at the input where the code departs from it.  A fresh
    [CivicsourceParser] parses the CSV file of the tests; the first
    [clean] succeeds; the second raises [AttributeError], because the
    first removed [data_frame] with [del] and did not bind it again. *)
Theorem Civicsource_clean_twice_after_parse_raises :
  let data : Py.dict := list_to_map [("csv_path", Py.PyStr "properties.csv")] in
  exists p1 p2,
    Civicsource.parse Fixtures.runtime Fixtures.files Civicsource.init data =
    (Py.Ret Fixtures.civicsource_valid_data, p1) /\
    Civicsource.clean p1 = (Py.Ret tt, p2) /\
    Civicsource.clean p2 =
    (Py.raise Py.AttributeError
       "'CivicsourceParser' object has no attribute 'data_frame'", p2).
Proof.
  intros data. do 2 eexists.
  split; [vm_compute; reflexivity | ].
  split; reflexivity.
Qed.

(** ** Session refresh *)

Section SessionFacts.
Import Py DeKalb.
Variable net : network.
Variable now : Z.

Lemma posts_store_token body p :
  posts (snd (store_token now body p)) = posts p.
Proof. unfold store_token. by destruct (subscript body "token"). Qed.

Lemma posts_authenticate p :
  posts (snd (authenticate net now p)) = posts p ++ [Login].
Proof.
  unfold authenticate. destruct (net Login); [done | ].
  by rewrite posts_store_token.
Qed.

(** The inherited [parse] posts nothing. *)
Lemma posts_parse rt fs p data :
  posts (snd (parse net now rt fs p data)) =
  posts (snd (refresh_session net now p)).
Proof.
  unfold parse. destruct (refresh_session net now p) as [[[ | ] | e] p1];
    try done.
  by destruct (Civicsource.parse rt fs (base p1) data).
Qed.

End SessionFacts.

(** C8. Let the parser hold a token whose expiry has passed.
    [refresh_session] posts once to the refresh endpoint.  If that request
    succeeds, nothing else is posted; if it fails, [authenticate] is
    called, which posts once to the login endpoint, and the refresh is not
    tried again.  With a token that has not expired nothing is posted and
    the parser is unchanged.  [parse] posts what its [refresh_session]
    call posts. *)
Theorem refresh_session_posts
    (net : DeKalb.network) (now : Z) (p : DeKalb.parser) (expiry : Z) :
  Py.truthy (DeKalb.auth_token p) = true ->
  DeKalb.token_expiry p = Some expiry ->
  (expiry <= now ->
   match net DeKalb.Refresh with
   | DeKalb.Json body =>
       DeKalb.refresh_session net now p =
       DeKalb.store_token now body (DeKalb.sent DeKalb.Refresh p) /\
       DeKalb.posts (snd (DeKalb.refresh_session net now p)) =
       DeKalb.posts p ++ [DeKalb.Refresh]
   | DeKalb.RequestFailed _ =>
       DeKalb.refresh_session net now p =
       DeKalb.authenticate net now (DeKalb.sent DeKalb.Refresh p) /\
       DeKalb.posts (snd (DeKalb.refresh_session net now p)) =
       DeKalb.posts p ++ [DeKalb.Refresh; DeKalb.Login]
   end) /\
  (now < expiry -> DeKalb.refresh_session net now p = (Py.Ret true, p)) /\
  (forall rt fs data,
     DeKalb.posts (snd (DeKalb.parse net now rt fs p data)) =
     DeKalb.posts (snd (DeKalb.refresh_session net now p))).
Proof.
  intros Htok Hexp. split; [ | split].
  - intros Hle. unfold DeKalb.refresh_session. rewrite Htok, Hexp.
    assert ((now >=? expiry) = true) as -> by lia.
    destruct (net DeKalb.Refresh) as [msg | body] eqn:Hnet.
    + split; [done | ]. rewrite posts_authenticate. simpl.
      by rewrite <- app_assoc.
    + split; [done | ]. by rewrite posts_store_token.
  - intros Hlt. unfold DeKalb.refresh_session. rewrite Htok, Hexp.
    by assert ((now >=? expiry) = false) as -> by lia.
  - intros rt fs data. apply posts_parse.
Qed.

(** The parser of the tests with a token expired for an hour, on a
    network whose refresh endpoint is down: one refresh, then one login. *)
Lemma refresh_session_posts_witness :
  let p := Fixtures.expired_parser in
  let now := Fixtures.one_hour in
  Py.truthy (DeKalb.auth_token p) = true /\
  DeKalb.token_expiry p = Some 0 /\
  0 <= now /\
  DeKalb.refresh_session Fixtures.refresh_down now p =
  DeKalb.authenticate Fixtures.refresh_down now (DeKalb.sent DeKalb.Refresh p) /\
  DeKalb.posts (snd (DeKalb.refresh_session Fixtures.refresh_down now p)) =
  [DeKalb.Refresh; DeKalb.Login].
Proof.
  intros p now.
  assert (Py.truthy (DeKalb.auth_token p) = true) as Htok by reflexivity.
  assert (DeKalb.token_expiry p = Some 0) as Hexp by reflexivity.
  assert (0 <= now) as Hle by (vm_compute; discriminate).
  split; [exact Htok | split; [exact Hexp | split; [exact Hle | ]]].
  exact (proj1 (refresh_session_posts Fixtures.refresh_down now p 0 Htok Hexp)
           Hle).
Defined.

(* ===================================================================== *)
(** * Part III: further properties of the code                             *)
(* ===================================================================== *)

(** ** Identifier formats *)

Section ShapeFacts.
Import Regex Shape.
Local Open Scope nat_scope.

Lemma prefix_ok_app k1 k2 l :
  prefix_ok (k1 ++ k2) l =
  prefix_ok k1 l && prefix_ok k2 (drop (List.length k1) l).
Proof.
  revert l. induction k1 as [ | k k1 IH]; intros l; simpl.
  - by rewrite drop_0.
  - destruct l as [ | c l]; simpl; [done | ].
    rewrite IH. by rewrite andb_assoc.
Qed.

Lemma shape_list_app k1 k2 l :
  shape_list (k1 ++ k2) l =
  prefix_ok k1 l && shape_list k2 (drop (List.length k1) l).
Proof.
  revert l. induction k1 as [ | k k1 IH]; intros l; simpl.
  - by rewrite drop_0.
  - destruct l as [ | c l]; simpl; [done | ].
    rewrite IH. by rewrite andb_assoc.
Qed.

Lemma drop_lookup_cons (s : list ascii) i :
  drop i s = match s !! i with Some c => c :: drop (S i) s | None => [] end.
Proof.
  revert i. induction s as [ | c s IH]; intros [ | i]; simpl; done.
Qed.

Lemma ends_classes_of (s : list ascii) r : forall classes i,
  classes_of r = Some classes ->
  ends s r i =
  if prefix_ok classes (drop i s) then [i + List.length classes] else [].
Proof.
  induction r as [ | c | lo hi | | r1 IH1 r2 IH2 | | | | ];
    intros classes i Hc; simpl in Hc; try discriminate.
  - injection Hc as <-. simpl. by rewrite Nat.add_0_r.
  - injection Hc as <-. simpl. rewrite (drop_lookup_cons s i).
    destruct (s !! i) as [d | ]; simpl; [ | done].
    unfold is_char. rewrite andb_true_r, Nat.add_1_r. done.
  - injection Hc as <-. simpl. rewrite (drop_lookup_cons s i).
    destruct (s !! i) as [d | ]; simpl; [ | done].
    rewrite andb_true_r, Nat.add_1_r. done.
  - destruct (classes_of r1) as [k1 | ]; [ | done].
    destruct (classes_of r2) as [k2 | ]; [ | done].
    injection Hc as <-. simpl.
    rewrite (IH1 k1 i eq_refl), prefix_ok_app.
    destruct (prefix_ok k1 (drop i s)); simpl; [ | done].
    rewrite (IH2 k2 _ eq_refl), app_nil_r, drop_drop, length_app.
    by rewrite Nat.add_assoc.
Qed.

Lemma at_end_drop (s : list ascii) i :
  i <= List.length s -> at_end s i = shape_list [] (drop i s).
Proof.
  intros Hi. unfold at_end. rewrite (drop_lookup_cons s i).
  destruct (s !! i) as [c | ] eqn:Hc.
  - apply lookup_lt_Some in Hc as Hlt.
    destruct (Nat.eqb_spec i (List.length s)) as [ | _]; [lia | ].
    pose proof (length_drop s (S i)) as Hl.
    destruct (drop (S i) s) as [ | d l]; simpl in Hl;
      destruct (Nat.eqb_spec (S i) (List.length s)); try lia; done.
  - apply lookup_ge_None in Hc.
    destruct (Nat.eqb_spec i (List.length s)); [done | lia].
Qed.

Lemma prefix_ok_length classes l :
  prefix_ok classes l = true -> List.length classes <= List.length l.
Proof.
  revert l. induction classes as [ | k classes IH]; intros [ | c l]; simpl;
    try done; try lia.
  intros H. apply andb_true_iff in H as [_ H]. apply IH in H. lia.
Qed.

Lemma ends_classes_to_end (s : list ascii) r : forall classes i,
  i <= List.length s ->
  classes_to_end r = Some classes ->
  ends s r i =
  if shape_list classes (drop i s) then [i + List.length classes] else [].
Proof.
  induction r as [ | | | | r1 _ r2 IH2 | | | | ];
    intros classes i Hi Hc; simpl in Hc; try discriminate.
  - destruct (classes_of r1) as [k1 | ] eqn:H1; [ | done].
    destruct (classes_to_end r2) as [k2 | ]; [ | done].
    injection Hc as <-. simpl.
    rewrite (ends_classes_of s r1 k1 i H1), shape_list_app.
    destruct (prefix_ok k1 (drop i s)) eqn:Hp; simpl; [ | done].
    apply prefix_ok_length in Hp. rewrite length_drop in Hp.
    rewrite (IH2 k2 (i + List.length k1) ltac:(lia) eq_refl).
    rewrite app_nil_r, drop_drop, length_app.
    by rewrite Nat.add_assoc.
  - injection Hc as <-. simpl. rewrite (at_end_drop s i Hi).
    by rewrite Nat.add_0_r.
Qed.

(** A pattern [^...$] over single characters and ranges accepts exactly
    the values of its shape. *)
Lemma re_match_anchored r classes value :
  classes_to_end r = Some classes ->
  re_match (Cat Bol r) value = has_shape classes value.
Proof.
  intros Hc. unfold re_match, has_shape. simpl.
  rewrite (ends_classes_to_end _ r classes 0 ltac:(lia) Hc), drop_0.
  by destruct (shape_list classes _).
Qed.

End ShapeFacts.

Section ShapeOfPatterns.
Import Regex Shape Validation.

Lemma shape_list_length classes l :
  shape_list classes l = true ->
  List.length l = List.length classes \/
  List.length l = S (List.length classes).
Proof.
  revert l. induction classes as [ | k classes IH]; intros l; simpl.
  - destruct l as [ | c [ | d l]]; simpl; auto; done.
  - destruct l as [ | c l]; [done | ]. simpl.
    intros H. apply andb_true_iff in H as [_ H].
    destruct (IH l H); auto.
Qed.

Lemma length_list_ascii value :
  List.length (list_ascii_of_string value) = String.length value.
Proof. induction value as [ | c value IH]; simpl; [done | by rewrite IH]. Qed.

Lemma remove_dashes_filter value :
  list_ascii_of_string (remove_dashes value) =
  List.filter (fun c => negb (Ascii.eqb c "-")) (list_ascii_of_string value).
Proof.
  induction value as [ | c value IH]; simpl; [done | ].
  destruct (Ascii.eqb c "-"); simpl; [done | by rewrite IH].
Qed.

Lemma dekalb_id_pattern_shape value :
  re_match dekalb_id_pattern value = has_shape dekalb_id value.
Proof. by apply re_match_anchored. Qed.

End ShapeOfPatterns.

(** X1. On a string of code points below 256, which is what a [string]
    holds, [validate_dekalb_id] is true exactly when the string is six
    digits 0-9, a hyphen and two digits 0-9, with nothing after them but
    possibly one final newline; so an accepted id has 9 or 10 characters.
    Beyond code point 255 [\d] matches further decimal digits, and such
    strings are not covered. *)
Theorem validate_dekalb_id_shape (value : string) :
  Validation.validate_dekalb_id (Py.PyStr value) =
  Py.Ret (Shape.has_shape Shape.dekalb_id value) /\
  (Validation.validate_dekalb_id (Py.PyStr value) = Py.Ret true ->
   String.length value = 9%nat \/ String.length value = 10%nat).
Proof.
  assert (Validation.validate_dekalb_id (Py.PyStr value) =
          Py.Ret (Shape.has_shape Shape.dekalb_id value)) as Heq.
  { unfold Validation.validate_dekalb_id, Validation.validate_string_format.
    by rewrite dekalb_id_pattern_shape. }
  split; [exact Heq | ]. rewrite Heq. intros [= H].
  apply shape_list_length in H.
  by rewrite <- length_list_ascii.
Qed.

(** X2. On a string of code points below 256, which is what a [string]
    holds, [validate_clayton_parcel] is true exactly for three digits 0-9,
    a capital letter A-Z and eight digits 0-9, with nothing after them
    but possibly one final newline.  Beyond code point 255 [\d] matches
    further decimal digits, and such strings are not covered. *)
Theorem validate_clayton_parcel_shape (value : string) :
  Validation.validate_clayton_parcel value =
  Shape.has_shape Shape.clayton_parcel value /\
  (Validation.validate_clayton_parcel value = true ->
   String.length value = 12%nat \/ String.length value = 13%nat).
Proof.
  assert (Validation.validate_clayton_parcel value =
          Shape.has_shape Shape.clayton_parcel value) as Heq
    by by apply re_match_anchored.
  split; [exact Heq | ]. rewrite Heq. intros H.
  apply shape_list_length in H.
  by rewrite <- length_list_ascii.
Qed.

(** X3. On a string of code points below 256, which is what a [string]
    holds, [validate_cobb_id] drops every dash of the value, wherever it
    stands, and is true exactly when what is left is thirteen digits 0-9,
    with nothing after them but possibly one final newline.  Beyond code
    point 255 [\d] matches further decimal digits, and such strings are
    not covered. *)
Theorem validate_cobb_id_shape (value : string) :
  Validation.validate_cobb_id value =
  Shape.shape_list Shape.cobb_id
    (List.filter (fun c => negb (Ascii.eqb c "-"))
                 (list_ascii_of_string value)).
Proof.
  unfold Validation.validate_cobb_id.
  rewrite (re_match_anchored _ Shape.cobb_id) by done.
  unfold Shape.has_shape. by rewrite remove_dashes_filter.
Qed.

(** An id of nine characters. *)
Lemma validate_dekalb_id_shape_witness :
  Validation.validate_dekalb_id (Py.PyStr "123456-78") = Py.Ret true /\
  (String.length "123456-78" = 9%nat \/ String.length "123456-78" = 10%nat).
Proof.
  assert (Validation.validate_dekalb_id (Py.PyStr "123456-78") = Py.Ret true)
    as H by reflexivity.
  split; [exact H | ].
  exact (proj2 (validate_dekalb_id_shape "123456-78") H).
Defined.

(** The parcel of [test_validate_clayton_parcel]. *)
Lemma validate_clayton_parcel_shape_witness :
  Validation.validate_clayton_parcel "123A12345678" = true /\
  (String.length "123A12345678" = 12%nat \/
   String.length "123A12345678" = 13%nat).
Proof.
  assert (Validation.validate_clayton_parcel "123A12345678" = true)
    as H by reflexivity.
  split; [exact H | ].
  exact (proj2 (validate_clayton_parcel_shape "123A12345678") H).
Defined.

(** ** What [validate] accepts *)

Section Inversion.
Import Py Validation Parser.

Lemma bind_ret_inv {A B} (m : outcome A) (k : A -> outcome B) b :
  m ≫= k = Ret b -> exists a, m = Ret a /\ k a = Ret b.
Proof. destruct m as [a | e]; simpl; [by exists a | done]. Qed.

Lemma check_ret_inv ok msg u : check ok msg = Ret u -> ok = true.
Proof. by destruct ok. Qed.

Lemma reraise_as_ret_inv {A} cls prefix (m : outcome A) a :
  reraise_as cls prefix m = Ret a -> m = Ret a.
Proof.
  destruct m as [a' | e]; simpl; [done | ]. by destruct (is_Exception e).
Qed.

Lemma getitem_ret_inv (d : dict) k v : getitem d k = Ret v -> d !! k = Some v.
Proof. unfold getitem. destruct (d !! k); [by intros [= ->] | done]. Qed.

Lemma string_format_ret_inv v p b :
  validate_string_format v p = Ret b ->
  exists s, v = PyStr s /\ b = Regex.re_match p s.
Proof. destruct v; simpl; try done. intros [= <-]. by eexists. Qed.

Lemma date_format_ret_inv rt v f b :
  validate_date_format rt v f = Ret b ->
  exists s, v = PyStr s /\ b = strptime_ok rt s f.
Proof. destruct v; simpl; try done. intros [= <-]. by eexists. Qed.

(** A value passes a range test exactly when it is a finite number
    between the bounds. *)
Lemma within_bounds_finite lo hi x :
  bound_le lo x && le_bound x hi = true <->
  exists q, x = FFin q /\ (lo <= q /\ q <= hi)%Q.
Proof.
  split.
  - destruct x as [q | | [ | ]]; simpl; try done.
    intros H. apply andb_true_iff in H as [H1 H2].
    exists q. by rewrite <- !Qle_bool_iff.
  - intros (q & -> & H1 & H2). simpl.
    apply Qle_bool_iff in H1, H2. by rewrite H1, H2.
Qed.

Lemma numeric_range_ret_true v lo hi :
  validate_numeric_range v lo hi = Ret true <->
  exists q, num_value v = Some (FFin q) /\ (lo <= q /\ q <= hi)%Q.
Proof.
  unfold validate_numeric_range. split.
  - destruct (num_value v) as [x | ]; [ | done]. intros [= H].
    apply within_bounds_finite in H as (q & -> & H). by exists q.
  - intros (q & -> & H).
    by rewrite (proj2 (within_bounds_finite lo hi (FFin q))) by by exists q.
Qed.

Lemma coordinates_ok_ret_true coords a b c d :
  Civicsource.coordinates_ok coords a b c d = Ret true <->
  exists m lat lon,
    coords = PyDict m /\
    num_value (get_or m "lat" (PyInt 0)) = Some (FFin lat) /\
    num_value (get_or m "lon" (PyInt 0)) = Some (FFin lon) /\
    (a <= lat /\ lat <= b)%Q /\ (c <= lon /\ lon <= d)%Q.
Proof.
  split.
  - destruct coords as [ | | | | | | | m]; simpl; try done.
    intros H. apply bind_ret_inv in H as ([ | ] & Hlat & Hlon); [ | done].
    apply numeric_range_ret_true in Hlat as (lat & ? & ?).
    apply numeric_range_ret_true in Hlon as (lon & ? & ?).
    by exists m, lat, lon.
  - intros (m & lat & lon & -> & Hlat & Hlon & H1 & H2). simpl.
    rewrite (proj2 (numeric_range_ret_true _ a b)) by by exists lat.
    simpl. apply numeric_range_ret_true. by exists lon.
Qed.

End Inversion.

(** X4. [CivicsourceParser.validate] returns [True] exactly for the
    records in which every required field holds a value that tests true,
    [property_id] is a string at whose start [re.match] finds the pattern
    [^[A-Z]{3}-\d{5}$], [float(assessed_value)] is a finite
    number from 0 to 1,000,000,000, and [coordinates] is a dict whose
    [lat], or 0 if it has none, is a number from -90 to 90 and whose
    [lon], or 0 if it has none, is a number from -180 to 180. *)
Theorem Civicsource_validate_accepts (rt : Py.Runtime) (data : Py.dict) :
  Civicsource.validate rt data = Py.Ret true <->
  Validation.validate_required_fields data Civicsource.REQUIRED_FIELDS = true /\
  (exists id,
     data !! "property_id" = Some (Py.PyStr id) /\
     Regex.re_match Civicsource.property_id_pattern id = true) /\
  (exists value q,
     data !! "assessed_value" = Some value /\
     Py.py_float rt value = Py.Ret (Py.FFin q) /\
     (0 <= q /\ q <= 1000000000)%Q) /\
  (exists m lat lon,
     data !! "coordinates" = Some (Py.PyDict m) /\
     Py.num_value (Py.get_or m "lat" (Py.PyInt 0)) = Some (Py.FFin lat) /\
     Py.num_value (Py.get_or m "lon" (Py.PyInt 0)) = Some (Py.FFin lon) /\
     (-90 <= lat /\ lat <= 90)%Q /\ (-180 <= lon /\ lon <= 180)%Q).
Proof.
  split.
  - intros H. apply reraise_as_ret_inv in H.
    unfold Civicsource.validate_body in H.
    apply bind_ret_inv in H as (u1 & Hreq & H). apply check_ret_inv in Hreq.
    apply bind_ret_inv in H as (pid & Hpid & H).
    apply getitem_ret_inv in Hpid.
    apply bind_ret_inv in H as (ok & Hok & H).
    apply string_format_ret_inv in Hok as (id & -> & ->).
    apply bind_ret_inv in H as (u2 & Hid & H). apply check_ret_inv in Hid.
    apply bind_ret_inv in H as (av & Hav & H). apply getitem_ret_inv in Hav.
    apply bind_ret_inv in H as (x & Hx & H).
    apply bind_ret_inv in H as (ok & Hok & H).
    apply bind_ret_inv in H as (u3 & Hrange & H).
    apply check_ret_inv in Hrange as ->.
    apply numeric_range_ret_true in Hok as (q & [= ->] & Hq).
    apply bind_ret_inv in H as (coords & Hcoords & H).
    apply getitem_ret_inv in Hcoords.
    apply bind_ret_inv in H as (ok & Hok & H).
    apply bind_ret_inv in H as (u4 & Hc & _). apply check_ret_inv in Hc as ->.
    apply coordinates_ok_ret_true in Hok as (m & lat & lon & -> & Hok).
    split; [done | ]. split; [by exists id | ].
    split; [by exists av, q | by exists m, lat, lon].
  - intros (Hreq & (id & Hid & Hshape) & (av & q & Hav & Hq & Hrange)
            & (m & lat & lon & Hcoords & Hm)).
    unfold Civicsource.validate, Civicsource.validate_body, Py.getitem.
    rewrite Hreq, Hid, Hav, Hcoords.
    cbn -[Validation.validate_numeric_range Civicsource.coordinates_ok
          Regex.re_match Py.py_float].
    rewrite Hshape, Hq.
    cbn -[Validation.validate_numeric_range Civicsource.coordinates_ok].
    rewrite (proj2 (numeric_range_ret_true (Py.PyFloat (Py.FFin q)) 0 1000000000))
      by by exists q.
    cbn -[Validation.validate_numeric_range Civicsource.coordinates_ok].
    rewrite (proj2 (coordinates_ok_ret_true (Py.PyDict m) (-90) 90 (-180) 180))
      by by exists m, lat, lon.
    done.
Qed.

Section TaxAmountFacts.
Import Py Validation.

Lemma validate_tax_amount_true v :
  validate_tax_amount v = true <->
  exists q, (v = PyFloat (FFin q) \/ v = PyDecimal q) /\
            (0 < q /\ q < 10000000)%Q.
Proof.
  split.
  - destruct v as [ | | | [q | | [ | ]] | q | | | ]; try done.
    + intros H. apply validate_tax_amount_float in H. exists q. by auto.
    + intros H. apply (validate_tax_amount_float q) in H. exists q. by auto.
  - intros (q & [-> | ->] & H); by apply (validate_tax_amount_float q).
Qed.

End TaxAmountFacts.

(** X5. [DeKalbCivicsourceParser.validate] returns [True] exactly for the
    records in which every required field holds a value that tests true,
    [tax_id] is a string at whose start [re.match] finds the pattern
    [^\d{6}-\d{2}$], [float(assessed_value)] is a finite number from 0 to
    1,000,000,000, [coordinates] is a dict with a latitude from 33.5 to
    34.0 and a longitude from -84.4 to -83.8 (0 standing for a missing
    one, which is outside both), [property_class] is a string at whose
    start [re.match] finds [^[A-Z]\d{2}$], [total_due] is a float or a Decimal
    strictly between 0 and 10,000,000, and [sale_date] is a string that
    [strptime] reads as [%Y-%m-%d]. *)
Theorem DeKalb_validate_accepts (rt : Py.Runtime) (data : Py.dict) :
  DeKalb.validate rt data = Py.Ret true <->
  Validation.validate_required_fields data DeKalb.REQUIRED_FIELDS = true /\
  (exists id,
     data !! "tax_id" = Some (Py.PyStr id) /\
     Regex.re_match Validation.dekalb_id_pattern id = true) /\
  (exists value q,
     data !! "assessed_value" = Some value /\
     Py.py_float rt value = Py.Ret (Py.FFin q) /\
     (0 <= q /\ q <= 1000000000)%Q) /\
  (exists m lat lon,
     data !! "coordinates" = Some (Py.PyDict m) /\
     Py.num_value (Py.get_or m "lat" (Py.PyInt 0)) = Some (Py.FFin lat) /\
     Py.num_value (Py.get_or m "lon" (Py.PyInt 0)) = Some (Py.FFin lon) /\
     (DeKalb.lat_min <= lat /\ lat <= DeKalb.lat_max)%Q /\
     (DeKalb.lon_min <= lon /\ lon <= DeKalb.lon_max)%Q) /\
  (exists class,
     data !! "property_class" = Some (Py.PyStr class) /\
     Regex.re_match DeKalb.property_class_pattern class = true) /\
  (exists due q,
     data !! "total_due" = Some due /\
     (due = Py.PyFloat (Py.FFin q) \/ due = Py.PyDecimal q) /\
     (0 < q /\ q < 10000000)%Q) /\
  (exists date,
     data !! "sale_date" = Some (Py.PyStr date) /\
     Py.strptime_ok rt date "%Y-%m-%d" = true).
Proof.
  split.
  - intros H. apply reraise_as_ret_inv in H.
    unfold DeKalb.validate_body in H.
    apply bind_ret_inv in H as (u1 & Hreq & H). apply check_ret_inv in Hreq.
    apply bind_ret_inv in H as (tid & Htid & H).
    apply getitem_ret_inv in Htid.
    apply bind_ret_inv in H as (ok1 & Hok & H).
    apply string_format_ret_inv in Hok as (id & -> & ->).
    apply bind_ret_inv in H as (u2 & Hid & H). apply check_ret_inv in Hid.
    apply bind_ret_inv in H as (av & Hav & H). apply getitem_ret_inv in Hav.
    apply bind_ret_inv in H as (x & Hx & H).
    apply bind_ret_inv in H as (ok2 & Hok & H).
    apply bind_ret_inv in H as (u3 & Hrange & H).
    apply check_ret_inv in Hrange as ->.
    apply numeric_range_ret_true in Hok as (q & [= ->] & Hq).
    apply bind_ret_inv in H as (coords & Hcoords & H).
    apply getitem_ret_inv in Hcoords.
    apply bind_ret_inv in H as (ok3 & Hok & H).
    apply bind_ret_inv in H as (u4 & Hc & H). apply check_ret_inv in Hc as ->.
    apply coordinates_ok_ret_true in Hok as (m & lat & lon & -> & Hok).
    apply bind_ret_inv in H as (pc & Hpc & H). apply getitem_ret_inv in Hpc.
    apply bind_ret_inv in H as (ok4 & Hok4 & H).
    apply string_format_ret_inv in Hok4 as (class & -> & ->).
    apply bind_ret_inv in H as (u5 & Hclass & H).
    apply check_ret_inv in Hclass.
    apply bind_ret_inv in H as (due & Hdue & H). apply getitem_ret_inv in Hdue.
    apply bind_ret_inv in H as (u6 & Hamount & H).
    apply check_ret_inv in Hamount.
    apply validate_tax_amount_true in Hamount as (qd & Hdq & Hqd).
    apply bind_ret_inv in H as (sd & Hsd & H). apply getitem_ret_inv in Hsd.
    apply bind_ret_inv in H as (ok5 & Hok5 & H).
    apply date_format_ret_inv in Hok5 as (date & -> & ->).
    apply bind_ret_inv in H as (u7 & Hdate & _). apply check_ret_inv in Hdate.
    split; [done | ]. split; [by exists id | ].
    split; [by exists av, q | ]. split; [by exists m, lat, lon | ].
    split; [by exists class | ]. split; [by exists due, qd | by exists date].
  - intros (Hreq & (id & Hid & Hshape) & (av & q & Hav & Hq & Hrange)
            & (m & lat & lon & Hcoords & Hm) & (class & Hpc & Hclass)
            & (due & qd & Hdue & Hdq & Hqd) & (date & Hsd & Hdate)).
    unfold DeKalb.validate, DeKalb.validate_body, Py.getitem,
      Validation.validate_dekalb_id.
    rewrite Hreq, Hid, Hav, Hcoords, Hpc, Hdue, Hsd.
    cbn -[Validation.validate_numeric_range Civicsource.coordinates_ok
          Regex.re_match Py.py_float Validation.validate_tax_amount].
    rewrite Hshape, Hq.
    cbn -[Validation.validate_numeric_range Civicsource.coordinates_ok
          Regex.re_match Validation.validate_tax_amount].
    rewrite (proj2 (numeric_range_ret_true (Py.PyFloat (Py.FFin q)) 0 1000000000))
      by by exists q.
    cbn -[Validation.validate_numeric_range Civicsource.coordinates_ok
          Regex.re_match Validation.validate_tax_amount].
    rewrite (proj2 (coordinates_ok_ret_true (Py.PyDict m)
                      DeKalb.lat_min DeKalb.lat_max
                      DeKalb.lon_min DeKalb.lon_max))
      by by exists m, lat, lon.
    cbn -[Regex.re_match Validation.validate_tax_amount].
    rewrite Hclass.
    cbn -[Validation.validate_tax_amount].
    rewrite (proj2 (validate_tax_amount_true due)) by by exists qd.
    cbn. unfold Validation.default_date_format. by rewrite Hdate.
Qed.

Section ValidateReturns.
Import Py Validation Parser.
Variable rt : Runtime.

Ltac bind_inv H :=
  repeat (let a := fresh "a" in
          let Ha := fresh "Ha" in
          apply bind_ret_inv in H as (a & Ha & H)).

Lemma Civicsource_validate_body_true data b :
  Civicsource.validate_body rt data = Ret b -> b = true.
Proof. unfold Civicsource.validate_body. intros H. bind_inv H. by injection H. Qed.

Lemma DeKalb_validate_body_true data b :
  DeKalb.validate_body rt data = Ret b -> b = true.
Proof. unfold DeKalb.validate_body. intros H. bind_inv H. by injection H. Qed.

Lemma Clayton_validate_body_true data b :
  Clayton.validate_body rt data = Ret b -> b = true.
Proof. unfold Clayton.validate_body. intros H. bind_inv H. by injection H. Qed.

Lemma Cobb_validate_body_true data b :
  Cobb.validate_body rt data = Ret b -> b = true.
Proof. unfold Cobb.validate_body. intros H. bind_inv H. by injection H. Qed.

Lemma reraise_as_true_or_ValidationError (m : outcome bool) :
  only_Exception m -> (forall b, m = Ret b -> b = true) ->
  reraise_as ValidationError "" m = Ret true \/
  exists msg, reraise_as ValidationError "" m = raise ValidationError msg.
Proof.
  intros Hm Hb. destruct (reraise_as_outcome m Hm) as [[b H] | H]; [left | by right].
  rewrite H. apply reraise_as_ret_inv in H. by rewrite (Hb b H).
Qed.

End ValidateReturns.

(** X6. Each [validate] over a record dictionary either returns [True] or
    raises a [ValidationError]: it never returns [False], and whatever
    else its rules raise ([KeyError], [TypeError], [ValueError],
    [OverflowError]) leaves as a [ValidationError]. *)
Theorem validate_returns_True_or_raises_ValidationError
    (rt : Py.Runtime) (data : Py.dict) :
  (Civicsource.validate rt data = Py.Ret true \/
   exists msg, Civicsource.validate rt data = Py.raise Py.ValidationError msg) /\
  (DeKalb.validate rt data = Py.Ret true \/
   exists msg, DeKalb.validate rt data = Py.raise Py.ValidationError msg) /\
  (Clayton.validate rt data = Py.Ret true \/
   exists msg, Clayton.validate rt data = Py.raise Py.ValidationError msg) /\
  (Cobb.validate rt data = Py.Ret true \/
   exists msg, Cobb.validate rt data = Py.raise Py.ValidationError msg).
Proof.
  repeat split; apply reraise_as_true_or_ValidationError.
  - apply Civicsource_validate_body_only_Exception.
  - apply Civicsource_validate_body_true.
  - apply DeKalb_validate_body_only_Exception.
  - apply DeKalb_validate_body_true.
  - apply Clayton_validate_body_only_Exception.
  - apply Clayton_validate_body_true.
  - apply Cobb_validate_body_only_Exception.
  - apply Cobb_validate_body_true.
Qed.

Section MoreInversion.
Import Py Validation Parser.

Lemma numeric_range_int y lo hi :
  validate_numeric_range (PyInt y) (lo # 1) (hi # 1) = Ret true <->
  lo <= y <= hi.
Proof.
  change (lo # 1) with (inject_Z lo). change (hi # 1) with (inject_Z hi).
  rewrite numeric_range_ret_true. simpl. split.
  - intros (q & [= <-] & H1 & H2). by rewrite !Zle_Qle.
  - intros [H1 H2]. exists (inject_Z y). by rewrite <- !Zle_Qle.
Qed.

Lemma Cobb_require_all_ret (data : dict) fields u :
  Cobb.require_all data fields = Ret u <->
  validate_required_fields data fields = true.
Proof.
  destruct u. unfold validate_required_fields.
  induction fields as [ | f fields IH]; simpl; [done | ].
  destruct (truthy (get data f)); simpl; [exact IH | done].
Qed.

Lemma Cobb_bad_tax_amount_false v :
  Cobb.bad_tax_amount v = false <->
  (exists b, v = PyBool b) \/
  (exists z, v = PyInt z /\ 0 <= z) \/
  (exists q, v = PyFloat (FFin q) /\ (0 <= q)%Q) \/
  v = PyFloat FNan \/ v = PyFloat (FInf false).
Proof.
  unfold Cobb.bad_tax_amount. split.
  - destruct v as [ | b | z | [q | | [ | ]] | | | | ]; simpl; try done.
    + intros _. left. by exists b.
    + intros H. right. left. exists z. split; [done | ].
      apply negb_false_iff, Qle_bool_iff in H.
      change (inject_Z 0 <= inject_Z z)%Q in H. by rewrite Zle_Qle.
    + intros H. right. right. left. exists q. split; [done | ].
      by apply negb_false_iff, Qle_bool_iff in H.
    + by auto.
    + by auto 6.
  - intros [(b & ->) | [(z & -> & H) | [(q & -> & H) | [-> | ->]]]]; simpl;
      try done.
    + by destruct b.
    + apply negb_false_iff, Qle_bool_iff.
      change (inject_Z 0 <= inject_Z z)%Q. by rewrite <- Zle_Qle.
    + by apply negb_false_iff, Qle_bool_iff.
Qed.

End MoreInversion.

(** X7. [ClaytonBaseParser.validate] returns [True] exactly for the
    records in which every required field holds a value that tests true,
    [parcel_id] is a string at whose start [re.match] finds the pattern
    [^\d{2}-\d{3}-\d{3}$], [float(market_value)] is a finite number from
    0 to 100,000,000, and [int(tax_year)] lies from 1900 to 2100, both
    years included. *)
Theorem Clayton_validate_accepts (rt : Py.Runtime) (data : Py.dict) :
  Clayton.validate rt data = Py.Ret true <->
  Validation.validate_required_fields data Clayton.REQUIRED_FIELDS = true /\
  (exists id,
     data !! "parcel_id" = Some (Py.PyStr id) /\
     Regex.re_match Clayton.parcel_id_pattern id = true) /\
  (exists value q,
     data !! "market_value" = Some value /\
     Py.py_float rt value = Py.Ret (Py.FFin q) /\
     (0 <= q /\ q <= 100000000)%Q) /\
  (exists value year,
     data !! "tax_year" = Some value /\
     Py.py_int rt value = Py.Ret year /\ 1900 <= year <= 2100).
Proof.
  split.
  - intros H. apply reraise_as_ret_inv in H.
    unfold Clayton.validate_body in H.
    apply bind_ret_inv in H as (u1 & Hreq & H). apply check_ret_inv in Hreq.
    apply bind_ret_inv in H as (pid & Hpid & H).
    apply getitem_ret_inv in Hpid.
    apply bind_ret_inv in H as (ok1 & Hok & H).
    apply string_format_ret_inv in Hok as (id & -> & ->).
    apply bind_ret_inv in H as (u2 & Hid & H). apply check_ret_inv in Hid.
    apply bind_ret_inv in H as (mv & Hmv & H). apply getitem_ret_inv in Hmv.
    apply bind_ret_inv in H as (x & Hx & H).
    apply bind_ret_inv in H as (ok2 & Hok & H).
    apply bind_ret_inv in H as (u3 & Hrange & H).
    apply check_ret_inv in Hrange as ->.
    apply numeric_range_ret_true in Hok as (q & [= ->] & Hq).
    apply bind_ret_inv in H as (ty & Hty & H). apply getitem_ret_inv in Hty.
    apply bind_ret_inv in H as (y & Hy & H).
    apply bind_ret_inv in H as (ok3 & Hok & H).
    apply bind_ret_inv in H as (u4 & Hyear & _).
    apply check_ret_inv in Hyear as ->.
    apply (numeric_range_int y 1900 2100) in Hok.
    split; [done | ]. split; [by exists id | ].
    split; [by exists mv, q | by exists ty, y].
  - intros (Hreq & (id & Hid & Hshape) & (mv & q & Hmv & Hq & Hrange)
            & (ty & y & Hty & Hy & Hyear)).
    unfold Clayton.validate, Clayton.validate_body, Py.getitem.
    rewrite Hreq, Hid, Hmv, Hty.
    cbn -[Validation.validate_numeric_range Regex.re_match Py.py_float
          Py.py_int].
    rewrite Hshape, Hq.
    cbn -[Validation.validate_numeric_range Py.py_int].
    rewrite (proj2 (numeric_range_ret_true (Py.PyFloat (Py.FFin q)) 0 100000000))
      by by exists q.
    cbn -[Validation.validate_numeric_range Py.py_int]. rewrite Hy.
    cbn -[Validation.validate_numeric_range].
    by rewrite (proj2 (numeric_range_int y 1900 2100) Hyear).
Qed.

(** X8. [CobbPDFParser.validate] returns [True] exactly for the records
    in which every required field holds a value that tests true,
    [property_id] is a string at whose start [re.match] finds the pattern
    [^\d{2}-\d{4}-\d{2}-\d{3}$], [tax_amount] is an int or a float that
    is not below 0 (a bool, a NaN and the positive infinity pass), and
    [assessment_date] is a string that [strptime] reads as [%Y-%m-%d]. *)
Theorem Cobb_validate_accepts (rt : Py.Runtime) (data : Py.dict) :
  Cobb.validate rt data = Py.Ret true <->
  Validation.validate_required_fields data Cobb.REQUIRED_FIELDS = true /\
  (exists id,
     data !! "property_id" = Some (Py.PyStr id) /\
     Regex.re_match Cobb.property_id_pattern id = true) /\
  (exists amount,
     data !! "tax_amount" = Some amount /\
     ((exists b, amount = Py.PyBool b) \/
      (exists z, amount = Py.PyInt z /\ 0 <= z) \/
      (exists q, amount = Py.PyFloat (Py.FFin q) /\ (0 <= q)%Q) \/
      amount = Py.PyFloat Py.FNan \/ amount = Py.PyFloat (Py.FInf false))) /\
  (exists date,
     data !! "assessment_date" = Some (Py.PyStr date) /\
     Py.strptime_ok rt date "%Y-%m-%d" = true).
Proof.
  split.
  - intros H. apply reraise_as_ret_inv in H.
    unfold Cobb.validate_body in H.
    apply bind_ret_inv in H as (u1 & Hreq & H).
    apply Cobb_require_all_ret in Hreq.
    apply bind_ret_inv in H as (pid & Hpid & H).
    apply getitem_ret_inv in Hpid.
    apply bind_ret_inv in H as (ok1 & Hok & H).
    apply string_format_ret_inv in Hok as (id & -> & ->).
    apply bind_ret_inv in H as (u2 & Hid & H). apply check_ret_inv in Hid.
    apply bind_ret_inv in H as (amount & Ham & H).
    apply getitem_ret_inv in Ham.
    apply bind_ret_inv in H as (u3 & Hbad & H). apply check_ret_inv in Hbad.
    apply negb_true_iff, Cobb_bad_tax_amount_false in Hbad.
    apply bind_ret_inv in H as (d & Hd & H). apply getitem_ret_inv in Hd.
    apply bind_ret_inv in H as (ok2 & Hok2 & H).
    apply date_format_ret_inv in Hok2 as (date & -> & ->).
    apply bind_ret_inv in H as (u4 & Hdate & _). apply check_ret_inv in Hdate.
    split; [done | ]. split; [by exists id | ].
    split; [by exists amount | by exists date].
  - intros (Hreq & (id & Hid & Hshape) & (amount & Ham & Hok)
            & (date & Hd & Hdate)).
    unfold Cobb.validate, Cobb.validate_body, Py.getitem.
    rewrite (proj2 (Cobb_require_all_ret data _ tt) Hreq), Hid, Ham, Hd.
    cbn -[Regex.re_match Cobb.bad_tax_amount].
    rewrite Hshape.
    rewrite (proj2 (Cobb_bad_tax_amount_false amount) Hok).
    cbn. by rewrite Hdate.
Qed.

(** ** Parsing *)

Section ParseFacts.
Import Py Parser.
Variable rt : Runtime.

Lemma standard_record_keys get_cell lat lon record :
  Civicsource.standard_record rt get_cell lat lon = Ret record ->
  record !! "tax_id" = None /\ record !! "property_class" = None /\
  record !! "total_due" = None /\ record !! "sale_date" = None.
Proof.
  unfold Civicsource.standard_record. intros H.
  apply bind_ret_inv in H as (av & _ & H).
  apply bind_ret_inv in H as (la & _ & H).
  apply bind_ret_inv in H as (lo & _ & H).
  injection H as <-. repeat split.
Qed.

Lemma only_Exception_standard_record get_cell lat lon :
  only_Exception lat -> only_Exception lon ->
  only_Exception (Civicsource.standard_record rt get_cell lat lon).
Proof.
  intros Hlat Hlon. unfold Civicsource.standard_record.
  apply only_Exception_bind; [apply only_Exception_py_float | intros av].
  apply only_Exception_bind; [done | intros la].
  apply only_Exception_bind; [done | intros lo].
  apply only_Exception_ret.
Qed.

Lemma only_Exception_getattr {A} cls name (a : attr A) :
  only_Exception (getattr cls name a).
Proof.
  destruct a; simpl; [by apply only_Exception_raise | apply only_Exception_ret].
Qed.

Lemma only_Exception_transform_data p :
  only_Exception (Civicsource._transform_data rt p).
Proof.
  unfold Civicsource._transform_data.
  apply only_Exception_bind; [apply only_Exception_getattr | intros [t | ]].
  - destruct t as [ | row t]; simpl; [by apply only_Exception_raise | ].
    apply only_Exception_standard_record; apply only_Exception_py_float.
  - apply only_Exception_bind; [apply only_Exception_getattr | intros [g | ]].
    + destruct g as [ | f g]; simpl; [by apply only_Exception_raise | ].
      apply only_Exception_standard_record; apply only_Exception_ret.
    + by apply only_Exception_raise.
Qed.

Lemma transform_data_keys p record :
  Civicsource._transform_data rt p = Ret record -> record !! "tax_id" = None.
Proof.
  unfold Civicsource._transform_data. intros H.
  apply bind_ret_inv in H as ([t | ] & _ & H).
  - destruct t as [ | row t]; [done | ].
    by apply standard_record_keys in H as (? & _).
  - apply bind_ret_inv in H as ([g | ] & _ & H); [ | done].
    destruct g as [ | f g]; [done | ].
    by apply standard_record_keys in H as (? & _).
Qed.

Variable fs : Files.

Lemma Civicsource_parse_keys p data record :
  fst (Civicsource.parse rt fs p data) = Ret record ->
  record !! "tax_id" = None.
Proof.
  unfold Civicsource.parse.
  destruct (Civicsource.parse_body rt fs p data) as [r p'] eqn:Hbody.
  simpl. intros H. apply reraise_as_ret_inv in H. subst r.
  unfold Civicsource.parse_body in Hbody.
  destruct (match get data "excel_path" with PyStr _ => _ | _ => _ end)
    as [p1 | e]; [ | done].
  injection Hbody as Hr _. by apply transform_data_keys in Hr.
Qed.

End ParseFacts.

(** X9. Whatever [DeKalbCivicsourceParser.parse] returns is refused by
    the parser's own [validate]: the record comes from the inherited
    transformation, which has no [tax_id] (nor [property_class],
    [total_due], [sale_date]), so the required-fields check raises. *)
Theorem DeKalb_parse_output_never_validates
    (net : DeKalb.network) (now : Z) (rt : Py.Runtime) (fs : Parser.Files)
    (p : DeKalb.parser) (data record : Py.dict) :
  fst (DeKalb.parse net now rt fs p data) = Py.Ret record ->
  DeKalb.validate rt record =
  Py.raise Py.ValidationError "Missing required fields".
Proof.
  intros H. apply DeKalb_validate_falsy with "tax_id"; [simpl; auto | ].
  apply get_missing. unfold DeKalb.parse in H.
  destruct (DeKalb.refresh_session net now p) as [[[ | ] | e] p1]; try done.
  destruct (Civicsource.parse rt fs (DeKalb.base p1) data) as [r b] eqn:Hp.
  simpl in H. subst r.
  apply (Civicsource_parse_keys rt fs (DeKalb.base p1) data). by rewrite Hp.
Qed.

(** A fresh DeKalb parser logs in and parses the CSV file of the tests. *)
Lemma DeKalb_parse_output_never_validates_witness :
  exists record,
    fst (DeKalb.parse MoreFixtures.network_up 0 Fixtures.runtime
           Fixtures.files DeKalb.init MoreFixtures.csv_source) =
    Py.Ret record /\
    DeKalb.validate Fixtures.runtime record =
    Py.raise Py.ValidationError "Missing required fields".
Proof.
  exists Fixtures.civicsource_valid_data.
  assert (fst (DeKalb.parse MoreFixtures.network_up 0 Fixtures.runtime
                 Fixtures.files DeKalb.init MoreFixtures.csv_source) =
          Py.Ret Fixtures.civicsource_valid_data) as H
    by (vm_compute; reflexivity).
  split; [exact H | ].
  exact (DeKalb_parse_output_never_validates _ _ _ _ _ _ _ H).
Defined.

(** X10. If the readers raise instances of [Exception] only,
    [CivicsourceParser.parse] either returns a record or raises a
    [DataFormatError] whose text starts with "Failed to parse input
    data: "; no other exception leaves it. *)
Theorem Civicsource_parse_raises_DataFormatError_only
    (rt : Py.Runtime) (fs : Parser.Files) (p : Civicsource.parser)
    (data : Py.dict) :
  (forall path, Py.only_Exception (Parser.read_excel fs path)) ->
  (forall path, Py.only_Exception (Parser.read_csv fs path)) ->
  (forall path, Py.only_Exception (Parser.read_file fs path)) ->
  (exists record, fst (Civicsource.parse rt fs p data) = Py.Ret record) \/
  (exists msg,
     fst (Civicsource.parse rt fs p data) =
     Py.raise Py.DataFormatError ("Failed to parse input data: " +:+ msg)).
Proof.
  intros Hx Hc Hg. unfold Civicsource.parse.
  destruct (Civicsource.parse_body rt fs p data) as [r p'] eqn:Hbody. simpl.
  assert (Py.only_Exception r) as Hr.
  { unfold Civicsource.parse_body in Hbody.
    destruct (match Py.get data "excel_path" with Py.PyStr _ => _ | _ => _ end)
      as [p1 | e] eqn:Hload.
    - injection Hbody as <- _. apply only_Exception_transform_data.
    - injection Hbody as <- _. intros e' [= <-].
      destruct (Py.get data "excel_path"), (Py.get data "csv_path"),
        (Py.get data "gis_path");
        try (by injection Hload as <-);
        try (destruct (Parser.read_excel fs s) eqn:Hread; [done | ];
             injection Hload as <-; by apply (Hx s));
        try (destruct (Parser.read_csv fs s) eqn:Hread; [done | ];
             injection Hload as <-; by apply (Hc s));
        try (destruct (Parser.read_file fs s) eqn:Hread; [done | ];
             injection Hload as <-; by apply (Hg s)). }
  destruct r as [record | e]; simpl; [left; by exists record | right].
  rewrite (Hr e eq_refl). by eexists.
Qed.

Section FixtureFiles.
Import Py Parser.

Lemma Fixtures_files_only_Exception :
  (forall path, only_Exception (read_excel Fixtures.files path)) /\
  (forall path, only_Exception (read_csv Fixtures.files path)) /\
  (forall path, only_Exception (read_file Fixtures.files path)).
Proof.
  repeat split; intros path e; simpl;
    try destruct (String.eqb path _); try done; by intros [= <-].
Qed.

End FixtureFiles.

(** A call without any source, on the files of the examples. *)
Lemma Civicsource_parse_raises_DataFormatError_only_witness :
  (forall path, Py.only_Exception (Parser.read_excel Fixtures.files path)) /\
  (forall path, Py.only_Exception (Parser.read_csv Fixtures.files path)) /\
  (forall path, Py.only_Exception (Parser.read_file Fixtures.files path)) /\
  ((exists record,
      fst (Civicsource.parse Fixtures.runtime Fixtures.files Civicsource.init
             ∅) = Py.Ret record) \/
   (exists msg,
      fst (Civicsource.parse Fixtures.runtime Fixtures.files Civicsource.init
             ∅) =
      Py.raise Py.DataFormatError ("Failed to parse input data: " +:+ msg))).
Proof.
  destruct Fixtures_files_only_Exception as (Hx & Hc & Hg).
  split; [exact Hx | split; [exact Hc | split; [exact Hg | ]]].
  exact (Civicsource_parse_raises_DataFormatError_only Fixtures.runtime
           Fixtures.files Civicsource.init ∅ Hx Hc Hg).
Defined.

(** X11. [CivicsourceParser.parse] of a GIS source on a parser that still
    holds a table from an earlier call does not return the GIS feature: it
    stores the GIS data and then transforms the first row of the table it
    held. *)
Theorem Civicsource_gis_parse_returns_held_table
    (rt : Py.Runtime) (fs : Parser.Files) (p : Civicsource.parser)
    (data : Py.dict) (t : Parser.table) (path : string)
    (g : list Parser.feature) :
  Civicsource.data_frame p = Parser.Bound (Some t) ->
  data !! "excel_path" = None -> data !! "csv_path" = None ->
  data !! "gis_path" = Some (Py.PyStr path) ->
  Parser.read_file fs path = Py.Ret g ->
  Civicsource.parse rt fs p data =
  (Parser.reraise_as Py.DataFormatError "Failed to parse input data: "
     (Civicsource._transform_tabular_data rt t),
   Civicsource.mkParser (Parser.Bound (Some t)) (Parser.Bound (Some g))).
Proof.
  intros Hdf Hx Hc Hg Hread.
  unfold Civicsource.parse, Civicsource.parse_body, Py.get.
  rewrite Hx, Hc, Hg. simpl. rewrite Hread. simpl.
  unfold Civicsource._transform_data. simpl. by rewrite Hdf.
Qed.

(** The CSV file is parsed, then the GIS file: the second call returns
    the record of the CSV row once more. *)
Lemma Civicsource_gis_parse_returns_held_table_witness :
  exists p1 p2,
    Civicsource.parse Fixtures.runtime MoreFixtures.files Civicsource.init
      MoreFixtures.csv_source = (Py.Ret Fixtures.civicsource_valid_data, p1) /\
    Civicsource.data_frame p1 = Parser.Bound (Some [Fixtures.civicsource_row]) /\
    Civicsource.parse Fixtures.runtime MoreFixtures.files p1
      MoreFixtures.gis_source = (Py.Ret Fixtures.civicsource_valid_data, p2).
Proof.
  exists (Civicsource.mkParser (Parser.Bound (Some [Fixtures.civicsource_row]))
                               (Parser.Bound None)).
  eexists.
  split; [vm_compute; reflexivity | ]. split; [reflexivity | ].
  rewrite (Civicsource_gis_parse_returns_held_table Fixtures.runtime
             MoreFixtures.files
             (Civicsource.mkParser
                (Parser.Bound (Some [Fixtures.civicsource_row]))
                (Parser.Bound None))
             MoreFixtures.gis_source
             [Fixtures.civicsource_row] "parcels.geojson"
             [MoreFixtures.gis_feature]
             eq_refl eq_refl eq_refl eq_refl eq_refl).
  vm_compute. reflexivity.
Defined.

(** X12. After [clean] has removed [data_frame], a [parse] of a GIS
    source fails: the GIS data is read and stored, but the transformation
    looks at [data_frame] first, and the [AttributeError] leaves as a
    [DataFormatError]. *)
Theorem Civicsource_gis_parse_after_clean_fails
    (rt : Py.Runtime) (fs : Parser.Files) (p : Civicsource.parser)
    (data : Py.dict) (path : string) (g : list Parser.feature) :
  Civicsource.data_frame p = Parser.Deleted ->
  data !! "excel_path" = None -> data !! "csv_path" = None ->
  data !! "gis_path" = Some (Py.PyStr path) ->
  Parser.read_file fs path = Py.Ret g ->
  Civicsource.parse rt fs p data =
  (Py.raise Py.DataFormatError
     "Failed to parse input data: 'CivicsourceParser' object has no attribute 'data_frame'",
   Civicsource.mkParser Parser.Deleted (Parser.Bound (Some g))).
Proof.
  intros Hdf Hx Hc Hg Hread.
  unfold Civicsource.parse, Civicsource.parse_body, Py.get.
  rewrite Hx, Hc, Hg. simpl. rewrite Hread. simpl.
  unfold Civicsource._transform_data. simpl. by rewrite Hdf.
Qed.

(** The CSV file is parsed, the parser cleaned, and the GIS file parsed. *)
Lemma Civicsource_gis_parse_after_clean_fails_witness :
  exists p1 p2 p3,
    Civicsource.parse Fixtures.runtime MoreFixtures.files Civicsource.init
      MoreFixtures.csv_source = (Py.Ret Fixtures.civicsource_valid_data, p1) /\
    Civicsource.clean p1 = (Py.Ret tt, p2) /\
    Civicsource.data_frame p2 = Parser.Deleted /\
    Civicsource.parse Fixtures.runtime MoreFixtures.files p2
      MoreFixtures.gis_source =
    (Py.raise Py.DataFormatError
       "Failed to parse input data: 'CivicsourceParser' object has no attribute 'data_frame'",
     p3).
Proof.
  exists (Civicsource.mkParser (Parser.Bound (Some [Fixtures.civicsource_row]))
                               (Parser.Bound None)).
  exists (Civicsource.mkParser Parser.Deleted (Parser.Bound None)).
  eexists.
  split; [vm_compute; reflexivity | ]. split; [reflexivity | ].
  split; [reflexivity | ].
  exact (Civicsource_gis_parse_after_clean_fails Fixtures.runtime
           MoreFixtures.files
           (Civicsource.mkParser Parser.Deleted (Parser.Bound None))
           MoreFixtures.gis_source "parcels.geojson"
           [MoreFixtures.gis_feature]
           eq_refl eq_refl eq_refl eq_refl eq_refl).
Defined.

(** ** Transactions: the counter and failing calls *)

Section ScopeCounterFacts.
Import Py Db.

(** An exception outside [Exception] leaves every scope it crosses
    without a rollback and without the decrement. *)
Lemma run_BaseException (b : block) (e : exn) :
  is_Exception e = false ->
  forall (c : Z) (log : list call),
    1 <= c -> raised b = Some e ->
    exists c', c <= c' /\
      run b (mkState (Some c) log) = (Raise e, mkState (Some c') log).
Proof.
  intros He. induction b as [ | e0 | b1 IH1 b2 IH2 | body IH];
    intros c log Hc Hr; simpl in Hr.
  - done.
  - injection Hr as ->. exists c. split; [lia | done].
  - pose proof (run_inside_open_scope b1 c log Hc) as H1.
    destruct (raised b1) as [e1 | ].
    + injection Hr as ->. destruct (IH1 c log Hc eq_refl) as (c' & ? & Hrun).
      exists c'. split; [done | ]. simpl. by rewrite Hrun.
    + destruct (IH2 c log Hc Hr) as (c' & ? & Hrun).
      exists c'. split; [done | ]. simpl. by rewrite H1.
  - destruct (IH (c + 1) log ltac:(lia) Hr) as (c' & ? & Hrun).
    exists c'. split; [lia | ]. simpl. unfold scope_enter. simpl.
    rewrite Hrun. simpl. by rewrite He.
Qed.

End ScopeCounterFacts.

(** X13. When an exception that is not an instance of [Exception] (a
    [KeyboardInterrupt], a [SystemExit]) leaves an outermost
    [transaction_scope], the connection is not rolled back and the
    thread's counter stays above zero; from then on a scope whose body
    returns does not commit and leaves the counter where it is. *)
Theorem transaction_scope_after_BaseException
    (b0 b : Db.block) (st : Db.state) (e : Py.exn) :
  Db.outermost st ->
  Db.raised b0 = Some e -> Py.is_Exception e = false ->
  Db.raised b = None ->
  exists st1 c,
    Db.run (Db.WithScope b0) st = (Py.Raise e, st1) /\
    Db.calls st1 = Db.calls st /\
    Db.count st1 = Some c /\ 1 <= c /\
    Db.run (Db.WithScope b) st1 = (Py.Ret tt, st1).
Proof.
  intros Hout Hr He Hb. simpl.
  rewrite (scope_enter_outermost st Hout).
  destruct (run_BaseException b0 e He 1 (Db.calls st) ltac:(lia) Hr)
    as (c & Hc & Hrun).
  exists (Db.mkState (Some c) (Db.calls st)), c.
  rewrite Hrun. simpl. rewrite He.
  repeat split; [done | ].
  pose proof (run_inside_open_scope (Db.WithScope b) c (Db.calls st) Hc) as H.
  simpl in H. rewrite Hb in H. exact H.
Qed.

(** A [KeyboardInterrupt] in a nested scope, then an empty transaction. *)
Lemma transaction_scope_after_BaseException_witness :
  let e := Py.mkExn Py.KeyboardInterrupt "" in
  let fresh := Db.mkState None [] in
  exists st1,
    Db.run (Db.nest 2 (Db.RaiseStmt e)) fresh = (Py.Raise e, st1) /\
    Db.calls st1 = [] /\
    Db.run (Db.WithScope Db.Pass) st1 = (Py.Ret tt, st1).
Proof.
  intros e fresh.
  destruct (transaction_scope_after_BaseException
              (Db.nest 1 (Db.RaiseStmt e)) Db.Pass fresh e
              (or_introl eq_refl) eq_refl eq_refl eq_refl)
    as (st1 & c & H1 & H2 & _ & _ & H3).
  exists st1. split; [exact H1 | split; [exact H2 | exact H3]].
Defined.

Section FailingConnectionFacts.
Import Py Db.

(** With a connection whose calls return, the two models agree. *)
Lemma run_reliable (b : block) (st : state) :
  FailingConnection.run FailingConnection.reliable b st = run b st.
Proof.
  revert st. induction b as [ | e | b1 IH1 b2 IH2 | body IH]; intros st;
    simpl; try done.
  - rewrite IH1. destruct (run b1 st) as [[u | e] st1]; [apply IH2 | done].
  - rewrite IH. destruct (run body (scope_enter st)) as [[u | e] st1]; simpl.
    + unfold FailingConnection.scope_exit. simpl.
      destruct (default 0 (count st1) - 1 =? 0); [done | by rewrite app_nil_r].
    + unfold FailingConnection.scope_exit, FailingConnection.scope_handler.
      simpl. destruct (is_Exception e); [ | done].
      destruct (default 0 (count st1) - 1 =? 0); [done | by rewrite app_nil_r].
Qed.

(** Inside an open scope the connection is not called, whatever it would
    do. *)
Lemma run_failing_inside_open_scope conn (b : block) :
  forall (c : Z) (log : list call),
    1 <= c -> raised b = None ->
    FailingConnection.run conn b (mkState (Some c) log) =
    (Ret tt, mkState (Some c) log).
Proof.
  intros c log Hc Hr.
  pose proof (run_failing_in_open_scope conn b c log Hc) as H.
  by rewrite Hr in H.
Qed.

(** A block without scopes of its own changes nothing. *)
Lemma run_failing_scope_free conn (b : block) (st : state) :
  FailingConnection.scope_free b = true -> raised b = None ->
  FailingConnection.run conn b st = (Ret tt, st).
Proof.
  induction b as [ | e | b1 IH1 b2 IH2 | body IH]; simpl; try done.
  intros Hf Hr. apply andb_true_iff in Hf as [Hf1 Hf2].
  destruct (raised b1) as [e1 | ] eqn:H1; [done | ].
  rewrite (IH1 Hf1 eq_refl). by apply IH2.
Qed.

End FailingConnectionFacts.

(** X14. When [connection.commit()] raises an [Exception] at the exit of
    an outermost [transaction_scope] whose body returned, the scope raises
    that exception, [rollback] is not called, and the thread's counter is
    left at -1: the handler decrements it a second time. *)
Theorem transaction_scope_failed_commit
    (conn : FailingConnection.behaviour) (b : Db.block) (st : Db.state)
    (e : Py.exn) :
  Db.outermost st -> Db.raised b = None ->
  FailingConnection.commit_raises conn = Some e ->
  Py.is_Exception e = true ->
  FailingConnection.run conn (Db.WithScope b) st =
  (Py.Raise e, Db.mkState (Some (-1)) (Db.calls st ++ [Db.Commit])).
Proof.
  intros Hout Hr Hc He. simpl.
  rewrite (scope_enter_outermost st Hout).
  rewrite (run_failing_inside_open_scope conn b 1 (Db.calls st) ltac:(lia) Hr).
  unfold FailingConnection.scope_exit, FailingConnection.scope_handler. simpl.
  by rewrite Hc, He.
Qed.

(** Two nested scopes around an empty body, on a connection whose commit
    raises. *)
Lemma transaction_scope_failed_commit_witness :
  let e := Py.mkExn Py.DatabaseError "connection lost" in
  let conn := FailingConnection.mkBehaviour (Some e) None in
  FailingConnection.run conn (Db.nest 2 Db.Pass) (Db.mkState None []) =
  (Py.Raise e, Db.mkState (Some (-1)) [Db.Commit]).
Proof.
  intros e conn.
  exact (transaction_scope_failed_commit conn (Db.nest 1 Db.Pass)
           (Db.mkState None []) e (or_introl eq_refl) eq_refl eq_refl eq_refl).
Defined.

(** X15. Once the counter stands at -1, as a failed commit leaves it, an
    outermost [transaction_scope] around a body that returns and opens no
    scope of its own makes no call on the connection, however the
    connection now behaves, and leaves the counter at -1: no later
    transaction of the thread is committed by its own scope.  A scope
    nested directly inside it commits in its place. *)
Theorem transaction_scope_after_failed_commit
    (conn : FailingConnection.behaviour) (b : Db.block)
    (log : list Db.call) :
  FailingConnection.scope_free b = true -> Db.raised b = None ->
  let st := Db.mkState (Some (-1)) log in
  FailingConnection.run conn (Db.WithScope b) st = (Py.Ret tt, st) /\
  (FailingConnection.commit_raises conn = None ->
   FailingConnection.run conn (Db.WithScope (Db.WithScope b)) st =
   (Py.Ret tt, Db.mkState (Some (-1)) (log ++ [Db.Commit]))).
Proof.
  intros Hf Hr st. split.
  - simpl. rewrite (run_failing_scope_free conn b _ Hf Hr).
    unfold FailingConnection.scope_exit. simpl. done.
  - intros Hc. simpl. rewrite (run_failing_scope_free conn b _ Hf Hr).
    unfold FailingConnection.scope_exit. simpl. by rewrite Hc.
Qed.

(** The state a failed commit leaves, and a later empty transaction on a
    connection that works again. *)
Lemma transaction_scope_after_failed_commit_witness :
  let e := Py.mkExn Py.DatabaseError "connection lost" in
  let broken := FailingConnection.mkBehaviour (Some e) None in
  exists st1,
    FailingConnection.run broken (Db.WithScope Db.Pass) (Db.mkState None []) =
    (Py.Raise e, st1) /\
    FailingConnection.run FailingConnection.reliable (Db.WithScope Db.Pass) st1 =
    (Py.Ret tt, st1).
Proof.
  intros e broken. exists (Db.mkState (Some (-1)) [Db.Commit]).
  split; [reflexivity | ].
  exact (proj1 (transaction_scope_after_failed_commit
                  FailingConnection.reliable Db.Pass [Db.Commit]
                  eq_refl eq_refl)).
Defined.

(** X16. [BaseParser.transaction] handles a failing commit: when the body
    returns and [connection.commit()] raises an [Exception], [rollback] is
    called once after it, the durable rows are what they were, nothing
    stays pending, and a [DatabaseError] with the exception's text is
    raised. *)
Theorem transaction_failed_commit
    (conn : FailingConnection.behaviour) (c : Base.connection)
    (body : list Base.stmt) (e : Py.exn) :
  Base.failure body = None ->
  FailingConnection.commit_raises conn = Some e ->
  FailingConnection.rollback_raises conn = None ->
  Py.is_Exception e = true ->
  FailingConnection.transaction conn c body =
  (Py.raise Py.DatabaseError ("Transaction failed: " +:+ Py.str_exn e),
   Base.mkConn [] (Base.committed c)
     (Base.calls c ++ [Db.Commit; Db.Rollback])).
Proof.
  intros Hf Hc Hr He. unfold FailingConnection.transaction.
  rewrite run_body_spec, Hf, Hc, He, Hr. unfold Base.rollback. simpl.
  by rewrite <- app_assoc.
Qed.

(** One row is written and the commit fails. *)
Lemma transaction_failed_commit_witness :
  let e := Py.mkExn Py.ValueError "connection lost" in
  let conn := FailingConnection.mkBehaviour (Some e) None in
  FailingConnection.transaction conn (Base.mkConn [] [] [])
    [Base.Insert Fixtures.clayton_valid_data] =
  (Py.raise Py.DatabaseError "Transaction failed: connection lost",
   Base.mkConn [] [] [Db.Commit; Db.Rollback]).
Proof.
  intros e conn.
  exact (transaction_failed_commit conn (Base.mkConn [] [] [])
           [Base.Insert Fixtures.clayton_valid_data] e
           eq_refl eq_refl eq_refl eq_refl).
Defined.

Lemma transaction_reliable (c : Base.connection) (body : list Base.stmt) :
  Base.transaction (Some c) body =
  (fst (FailingConnection.transaction FailingConnection.reliable c body),
   Some (snd (FailingConnection.transaction FailingConnection.reliable c body))).
Proof.
  unfold Base.transaction, FailingConnection.transaction. simpl.
  destruct (Base.run_body body c) as [[u | e] c1]; simpl; [done | ].
  by destruct (Py.is_Exception e).
Qed.

(** ** Batch insert *)

Section BatchInsertFacts.
Import Py BatchInsert.

Lemma collect_ret {A B} (f : A -> outcome B) (g : A -> B) (l : list A) :
  Forall (fun a => f a = Ret (g a)) l -> collect f l = Ret (map g l).
Proof.
  induction 1 as [ | a l Ha _ IH]; simpl; [done | ]. by rewrite Ha, IH.
Qed.

Lemma collect_raise {A B} (f : A -> outcome B) (l : list A) :
  Exists (fun a => exists e, f a = Raise e) l ->
  exists a e, In a l /\ f a = Raise e /\ collect f l = Raise e.
Proof.
  induction l as [ | a l IH]; intros H; [by apply Exists_nil in H | ].
  simpl. destruct (f a) as [b | e] eqn:Ha.
  - apply Exists_cons in H as [(e & He) | H]; [congruence | ].
    destruct (IH H) as (a' & e & ? & ? & Hc).
    exists a', e. rewrite Hc. by auto.
  - exists a, e. by auto.
Qed.

Lemma item_present r k : lookup r k <> None -> item r k = Ret (value_at r k).
Proof. unfold item, value_at. by destruct (lookup r k). Qed.

Lemma item_missing r k :
  lookup r k = None -> item r k = raise KeyError ("'" +:+ k +:+ "'").
Proof. unfold item. by intros ->. Qed.

Lemma item_outcome r k :
  (exists v, item r k = Ret v) \/
  item r k = raise KeyError ("'" +:+ k +:+ "'").
Proof. unfold item. destruct (lookup r k); [left; by eexists | by right]. Qed.

End BatchInsertFacts.

Section BatchInsertMoreFacts.
Import Py BatchInsert.

Lemma lookup_keys r k : In k (keys r) -> lookup r k <> None.
Proof.
  induction r as [ | [k' v] r IH]; simpl; [done | ].
  intros [-> | Hin].
  - by rewrite String.eqb_refl.
  - destruct (String.eqb k k'); [done | by apply IH].
Qed.

Lemma collect_item_raise r columns e :
  collect (item r) columns = Raise e ->
  exists k, In k columns /\ lookup r k = None /\
            e = mkExn KeyError ("'" +:+ k +:+ "'").
Proof.
  induction columns as [ | k columns IH]; simpl; [done | ].
  destruct (lookup r k) as [v | ] eqn:Hk.
  - rewrite (item_present r k) by by rewrite Hk. simpl.
    destruct (collect (item r) columns) as [vs | e'] eqn:Hc; simpl; [done | ].
    intros [= <-]. destruct (IH eq_refl) as (k' & ? & ? & ?).
    exists k'. by auto.
  - rewrite (item_missing r k Hk). simpl.
    intros [= <-]. exists k. by auto.
Qed.

Lemma values_raise columns records e :
  values columns records = Raise e ->
  exists k, In k columns /\ e = mkExn KeyError ("'" +:+ k +:+ "'").
Proof.
  unfold values. induction records as [ | r records IH]; simpl; [done | ].
  destruct (collect (item r) columns) as [row | e'] eqn:Hr; simpl.
  - destruct (collect _ records) as [rows | e''] eqn:Hrs; simpl; [done | ].
    intros [= <-]. by apply IH.
  - intros [= <-]. apply collect_item_raise in Hr as (k & ? & _ & ?).
    by exists k.
Qed.

Lemma values_complete columns records :
  Forall (fun r => Forall (fun k => lookup r k <> None) columns) records ->
  values columns records =
  Ret (map (fun r => map (value_at r) columns) records).
Proof.
  intros H. unfold values. apply collect_ret.
  eapply Forall_impl; [exact H | ]. intros r Hr. simpl.
  apply collect_ret. eapply Forall_impl; [exact Hr | ].
  intros k Hk. by apply item_present.
Qed.

Lemma values_incomplete columns records :
  Exists (fun r => Exists (fun k => lookup r k = None) columns) records ->
  exists e, values columns records = Raise e.
Proof.
  intros H. unfold values.
  destruct (collect_raise (fun r => collect (item r) columns) records)
    as (r & e & _ & _ & Hc); [ | by exists e].
  eapply Exists_impl; [exact H | ]. intros r Hr. simpl.
  destruct (collect_raise (item r) columns) as (k & e & _ & _ & Hc);
    [ | by exists e].
  eapply Exists_impl; [exact Hr | ]. intros k Hk. simpl.
  rewrite (item_missing r k Hk). by eexists.
Qed.

End BatchInsertMoreFacts.

(** X17. When every record after the first has all the keys of the
    first, [batch_insert] hands [executemany] one statement: the query
    over the first record's keys in their order, and one row of values for
    each record, in order, each row holding that record's values at those
    keys (what else a later record holds is left out).  It returns if
    [executemany] does and raises what [executemany] raises. *)
Theorem batch_insert_complete_records
    (conn : BatchInsert.connection) (table : string)
    (first : BatchInsert.record) (rest : list BatchInsert.record)
    (executemany : string -> list (list Py.pyval) -> option Py.exn) :
  BatchInsert.cursor conn = Some executemany ->
  Forall (fun r => Forall (fun k => BatchInsert.lookup r k <> None)
                          (BatchInsert.keys first)) rest ->
  let columns := BatchInsert.keys first in
  let rows := map (fun r => map (BatchInsert.value_at r) columns)
                  (first :: rest) in
  BatchInsert.batch_insert conn table (first :: rest) =
  (match executemany (BatchInsert.query table columns) rows with
   | None => Py.Ret tt
   | Some e => Py.Raise e
   end,
   [(BatchInsert.query table columns, rows)]) /\
  List.length rows = S (List.length rest) /\
  Forall (fun row => List.length row = List.length columns) rows.
Proof.
  intros Hcur Hrest columns rows.
  assert (BatchInsert.values columns (first :: rest) = Py.Ret rows) as Hv.
  { apply values_complete. constructor; [ | exact Hrest].
    apply List.Forall_forall. intros k Hk. by apply lookup_keys. }
  split; [ | split].
  - unfold BatchInsert.batch_insert. fold columns. rewrite Hv, Hcur.
    by destruct (executemany _ rows).
  - subst rows. by rewrite length_map.
  - subst rows. apply List.Forall_forall. intros row Hrow.
    apply in_map_iff in Hrow as (r & <- & _). by rewrite length_map.
Qed.

(** Two records with the same two keys; the second has a third one. *)
Lemma batch_insert_complete_records_witness :
  let conn := BatchInsert.mkConnection (Some (fun _ _ => None)) in
  let first := [("parcel_id", Py.PyStr "12-345-678"); ("tax_year", Py.PyInt 2023)] in
  let second := [("tax_year", Py.PyInt 2024); ("owner", Py.PyStr "Jane Smith");
                 ("parcel_id", Py.PyStr "12-345-679")] in
  BatchInsert.batch_insert conn "clayton_properties" [first; second] =
  (Py.Ret tt,
   [("INSERT INTO clayton_properties (parcel_id,tax_year) VALUES (%s,%s)"%string,
     [[Py.PyStr "12-345-678"; Py.PyInt 2023];
      [Py.PyStr "12-345-679"; Py.PyInt 2024]])]).
Proof.
  intros conn first second.
  refine (proj1 (batch_insert_complete_records conn "clayton_properties"
                   first [second] (fun _ _ => None) eq_refl _)).
  repeat constructor; discriminate.
Defined.

(** X18. When a record lacks one of the first record's keys,
    [batch_insert] raises [KeyError] for such a key while it builds the
    values, before anything is handed to the connection: no statement is
    executed, whatever the connection is. *)
Theorem batch_insert_missing_key
    (conn : BatchInsert.connection) (table : string)
    (first : BatchInsert.record) (rest : list BatchInsert.record) :
  Exists (fun r => Exists (fun k => BatchInsert.lookup r k = None)
                          (BatchInsert.keys first)) rest ->
  exists k,
    In k (BatchInsert.keys first) /\
    BatchInsert.batch_insert conn table (first :: rest) =
    (Py.raise Py.KeyError ("'" +:+ k +:+ "'"), []).
Proof.
  intros H.
  destruct (values_incomplete (BatchInsert.keys first) (first :: rest))
    as (e & He); [by apply Exists_cons_tl | ].
  destruct (values_raise _ _ _ He) as (k & Hk & ->).
  exists k. split; [done | ].
  unfold BatchInsert.batch_insert. by rewrite He.
Qed.

(** The second record has no [tax_year]. *)
Lemma batch_insert_missing_key_witness :
  let conn := BatchInsert.mkConnection (Some (fun _ _ => None)) in
  let first := [("parcel_id", Py.PyStr "12-345-678"); ("tax_year", Py.PyInt 2023)] in
  let second := [("parcel_id", Py.PyStr "12-345-679")] in
  exists k,
    In k (BatchInsert.keys first) /\
    BatchInsert.batch_insert conn "clayton_properties" [first; second] =
    (Py.raise Py.KeyError ("'" +:+ k +:+ "'"), []).
Proof.
  intros conn first second.
  apply (batch_insert_missing_key conn "clayton_properties" first [second]).
  apply Exists_cons_hd. apply Exists_cons_tl. by apply Exists_cons_hd.
Defined.

(** X19. On a [DatabaseConnection] of this module, which has no [cursor]
    attribute, [batch_insert] never executes a statement: it returns for
    an empty list and raises for every other one, [KeyError] when a record
    lacks a key of the first and [AttributeError] otherwise. *)
Theorem batch_insert_on_DatabaseConnection
    (table : string) (records : list BatchInsert.record) :
  snd (BatchInsert.batch_insert BatchInsert.DatabaseConnection table records)
  = [] /\
  (records = [] ->
   fst (BatchInsert.batch_insert BatchInsert.DatabaseConnection table records)
   = Py.Ret tt) /\
  (records <> [] ->
   exists e,
     fst (BatchInsert.batch_insert BatchInsert.DatabaseConnection table records)
     = Py.Raise e /\
     (Py.exn_cls e = Py.KeyError \/ Py.exn_cls e = Py.AttributeError)).
Proof.
  destruct records as [ | first rest]; [by repeat split | ].
  unfold BatchInsert.batch_insert.
  destruct (BatchInsert.values _ _) as [vs | e] eqn:Hv; simpl.
  - repeat split; [done | ]. intros _. eexists. split; [done | by right].
  - repeat split; [done | ]. intros _. exists e. split; [done | left].
    by apply values_raise in Hv as (k & _ & ->).
Qed.

(** ** The DeKalb session *)

Section SessionInvariant.
Import Py DeKalb Session.

Lemma in_sync_sent ep p : in_sync p -> in_sync (sent ep p).
Proof. by intros H. Qed.

Lemma in_sync_store_token now body p :
  in_sync p -> in_sync (snd (store_token now body p)).
Proof.
  intros H. unfold store_token. destruct (subscript body "token"); [ | done].
  right. by split.
Qed.

Lemma in_sync_authenticate net now p :
  in_sync p -> in_sync (snd (authenticate net now p)).
Proof.
  intros H. unfold authenticate. destruct (net Login); [done | ].
  by apply in_sync_store_token.
Qed.

Lemma in_sync_refresh_session net now p :
  in_sync p -> in_sync (snd (refresh_session net now p)).
Proof.
  intros H. unfold refresh_session.
  destruct (truthy (auth_token p)); [ | by apply in_sync_authenticate].
  destruct (token_expiry p) as [expiry | ]; [ | by apply in_sync_authenticate].
  destruct (now >=? expiry); [ | done].
  destruct (net Refresh).
  - by apply in_sync_authenticate.
  - by apply in_sync_store_token.
Qed.

Lemma in_sync_perform c p : in_sync p -> in_sync (snd (perform c p)).
Proof.
  intros H. unfold perform. destruct (call_method c).
  - by apply in_sync_authenticate.
  - by apply in_sync_refresh_session.
  - unfold verify_email. by destruct (call_network c VerifyEmail).
Qed.

End SessionInvariant.

(** X20. After any sequence of [authenticate], [refresh_session] and
    [verify_email] calls on a new parser, at any times and whatever the
    network answers, the session's Authorization header carries the
    parser's current token and an expiry is set, or no token has been
    stored at all. *)
Theorem session_header_carries_current_token (calls : list Session.call) :
  Session.in_sync (Session.after calls DeKalb.init).
Proof.
  assert (Session.in_sync DeKalb.init) as Hinit by (left; done).
  revert Hinit. generalize DeKalb.init.
  induction calls as [ | c calls IH]; intros p Hp; simpl; [done | ].
  apply IH. by apply in_sync_perform.
Qed.

(** X21. A [refresh_session] call that posted something and returned
    leaves an expiry of 24 hours after the time of the call; if the stored
    token tests true, every later [refresh_session] before that expiry
    posts nothing and leaves the parser as it is. *)
Theorem refresh_session_is_quiet_for_24_hours
    (net : DeKalb.network) (now : Z) (p p1 : DeKalb.parser) :
  DeKalb.refresh_session net now p = (Py.Ret true, p1) ->
  DeKalb.posts p1 <> DeKalb.posts p ->
  DeKalb.token_expiry p1 = Some (now + DeKalb.hours_24) /\
  (Py.truthy (DeKalb.auth_token p1) = true ->
   forall net' now', now' < now + DeKalb.hours_24 ->
     DeKalb.refresh_session net' now' p1 = (Py.Ret true, p1)).
Proof.
  intros Hrun Hposts.
  assert (DeKalb.token_expiry p1 = Some (now + DeKalb.hours_24)) as Hexp.
  { assert (forall body q, DeKalb.store_token now body q = (Py.Ret true, p1) ->
                           DeKalb.token_expiry p1 = Some (now + DeKalb.hours_24))
      as Hstore.
    { intros body q. unfold DeKalb.store_token.
      destruct (Py.subscript body "token"); [ | done]. by intros [= <-]. }
    assert (forall q, DeKalb.authenticate net now q = (Py.Ret true, p1) ->
                      DeKalb.token_expiry p1 = Some (now + DeKalb.hours_24))
      as Hauth.
    { intros q. unfold DeKalb.authenticate.
      destruct (net DeKalb.Login); [done | apply Hstore]. }
    unfold DeKalb.refresh_session in Hrun.
    destruct (Py.truthy (DeKalb.auth_token p)); [ | by eapply Hauth].
    destruct (DeKalb.token_expiry p) as [expiry | ]; [ | by eapply Hauth].
    destruct (now >=? expiry).
    - destruct (net DeKalb.Refresh); [by eapply Hauth | by eapply Hstore].
    - injection Hrun as <-. done. }
  split; [exact Hexp | ].
  intros Htok net' now' Hlt. unfold DeKalb.refresh_session.
  rewrite Htok, Hexp.
  by assert ((now' >=? now + DeKalb.hours_24) = false) as -> by lia.
Qed.

(** A new parser logs in at time 0; an hour later nothing is posted. *)
Lemma refresh_session_is_quiet_for_24_hours_witness :
  exists p1,
    DeKalb.refresh_session MoreFixtures.network_up 0 DeKalb.init =
    (Py.Ret true, p1) /\
    DeKalb.posts p1 = [DeKalb.Login] /\
    DeKalb.refresh_session Fixtures.refresh_down Fixtures.one_hour p1 =
    (Py.Ret true, p1).
Proof.
  eexists. split; [reflexivity | ]. split; [reflexivity | ].
  refine (proj2 (refresh_session_is_quiet_for_24_hours
                   MoreFixtures.network_up 0 DeKalb.init _ eq_refl _)
            eq_refl Fixtures.refresh_down Fixtures.one_hour _).
  - discriminate.
  - reflexivity.
Defined.

(** X22. Whatever the parser holds and the network answers, be it a
    [RequestException] or any JSON value, [refresh_session] posts nothing,
    one login, one refresh, or one refresh followed by one login; and it
    returns [True] or raises [AuthenticationError] (a failed login),
    [KeyError] (a JSON object without a token) or [TypeError] (a JSON
    answer that is not an object).  It never returns [False]. *)
Theorem refresh_session_posts_and_outcomes
    (net : DeKalb.network) (now : Z) (p : DeKalb.parser) :
  (exists sent,
     DeKalb.posts (snd (DeKalb.refresh_session net now p)) =
     DeKalb.posts p ++ sent /\
     In sent [[]; [DeKalb.Login]; [DeKalb.Refresh];
              [DeKalb.Refresh; DeKalb.Login]]) /\
  (fst (DeKalb.refresh_session net now p) = Py.Ret true \/
   exists e,
     fst (DeKalb.refresh_session net now p) = Py.Raise e /\
     (Py.exn_cls e = Py.AuthenticationError \/ Py.exn_cls e = Py.KeyError \/
      Py.exn_cls e = Py.TypeError)).
Proof.
  assert (forall body q,
            fst (DeKalb.store_token now body q) = Py.Ret true \/
            exists e, fst (DeKalb.store_token now body q) = Py.Raise e /\
              (Py.exn_cls e = Py.AuthenticationError \/
               Py.exn_cls e = Py.KeyError \/
               Py.exn_cls e = Py.TypeError)) as Hstore.
  { intros body q. unfold DeKalb.store_token, Py.subscript, Py.getitem.
    destruct body as [ | b | z | f | d | s | l | m]; simpl;
      try (right; eexists; split; [done | by auto]).
    destruct (m !! "token"); simpl; [by left | right].
    eexists. split; [done | by auto]. }
  assert (forall q,
            fst (DeKalb.authenticate net now q) = Py.Ret true \/
            exists e, fst (DeKalb.authenticate net now q) = Py.Raise e /\
              (Py.exn_cls e = Py.AuthenticationError \/
               Py.exn_cls e = Py.KeyError \/
               Py.exn_cls e = Py.TypeError)) as Hauth.
  { intros q. unfold DeKalb.authenticate.
    destruct (net DeKalb.Login); [ | apply Hstore].
    right. eexists. split; [done | by left]. }
  unfold DeKalb.refresh_session.
  destruct (Py.truthy (DeKalb.auth_token p)).
  2: { split; [ | apply Hauth]. exists [DeKalb.Login].
       rewrite posts_authenticate. simpl. by auto. }
  destruct (DeKalb.token_expiry p) as [expiry | ].
  2: { split; [ | apply Hauth]. exists [DeKalb.Login].
       rewrite posts_authenticate. simpl. by auto. }
  destruct (now >=? expiry).
  2: { split; [ | by left]. exists []. rewrite app_nil_r. simpl. by auto. }
  destruct (net DeKalb.Refresh) as [msg | body].
  - split; [ | apply Hauth]. exists [DeKalb.Refresh; DeKalb.Login].
    rewrite posts_authenticate. simpl. rewrite <- app_assoc. simpl. by auto 6.
  - split; [ | apply Hstore]. exists [DeKalb.Refresh].
    rewrite posts_store_token. simpl. by auto.
Qed.

(** ** Image URLs *)

Section UrlFacts.
Import Py Parser GovEaseUrls.

Lemma split_on_not_nil sep s : split_on sep s <> [].
Proof.
  destruct s as [ | c s]; simpl; [done | ].
  destruct (Ascii.eqb c sep); [done | ]. by destruct (split_on sep s).
Qed.

Lemma split_on_pieces sep s :
  Forall (fun piece => has_char sep piece = false) (split_on sep s).
Proof.
  induction s as [ | c s IH]; simpl; [by repeat constructor | ].
  destruct (Ascii.eqb c sep) eqn:Hc; [by constructor | ].
  destruct (split_on sep s) as [ | piece pieces].
  - constructor; [ | constructor]. simpl. by rewrite Hc.
  - apply Forall_cons in IH as [H1 H2]. constructor; [ | done].
    simpl. by rewrite Hc.
Qed.

Lemma split_on_piece sep piece :
  has_char sep piece = false -> split_on sep piece = [piece].
Proof.
  induction piece as [ | c piece IH]; simpl; [done | ].
  intros H. apply orb_false_iff in H as [-> H]. by rewrite (IH H).
Qed.

Lemma split_on_app sep piece rest :
  has_char sep piece = false ->
  split_on sep (piece +:+ String sep rest) = piece :: split_on sep rest.
Proof.
  induction piece as [ | c piece IH]; simpl.
  - intros _. by rewrite Ascii.eqb_refl.
  - intros H. apply orb_false_iff in H as [-> H]. by rewrite (IH H).
Qed.

Lemma split_on_join pieces :
  pieces <> [] ->
  Forall (fun piece => has_char "," piece = false) pieces ->
  split_on "," (BatchInsert.join "," pieces) = pieces.
Proof.
  induction pieces as [ | piece pieces IH]; [done | ]. intros _ H.
  apply Forall_cons in H as [Hp Hrest].
  destruct pieces as [ | piece' pieces].
  - simpl. by apply split_on_piece.
  - change (BatchInsert.join "," (piece :: piece' :: pieces))
      with (piece +:+ String "," (BatchInsert.join "," (piece' :: pieces))).
    rewrite (split_on_app _ _ _ Hp). by rewrite IH.
Qed.

Lemma has_char_lstrip c s : has_char c s = false -> has_char c (lstrip s) = false.
Proof.
  induction s as [ | d s IH]; simpl; [done | ].
  intros H. apply orb_false_iff in H as [Hd H].
  destruct (is_space d); [by apply IH | ]. simpl. by rewrite Hd, H.
Qed.

Lemma has_char_rstrip c s : has_char c s = false -> has_char c (rstrip s) = false.
Proof.
  induction s as [ | d s IH]; simpl; [done | ].
  intros H. apply orb_false_iff in H as [Hd H]. specialize (IH H).
  destruct (rstrip s) as [ | e t].
  - destruct (is_space d); simpl; [done | by rewrite Hd].
  - simpl in *. by rewrite Hd, IH.
Qed.

Lemma lstrip_start s : starts_with_space (lstrip s) = false.
Proof.
  induction s as [ | c s IH]; simpl; [done | ].
  destruct (is_space c) eqn:Hc; [done | ]. simpl. by rewrite Hc.
Qed.

Lemma rstrip_start s :
  starts_with_space s = false -> starts_with_space (rstrip s) = false.
Proof.
  destruct s as [ | c s]; simpl; [done | ]. intros Hc.
  destruct (rstrip s); simpl; by rewrite Hc.
Qed.

Lemma rstrip_end s : ends_with_space (rstrip s) = false.
Proof.
  induction s as [ | c s IH]; simpl; [done | ].
  destruct (rstrip s) as [ | d t] eqn:Ht.
  - by destruct (is_space c) eqn:Hc; simpl; [ | rewrite Hc].
  - exact IH.
Qed.

Lemma strip_clean piece :
  has_char "," piece = false -> nonempty (strip piece) = true ->
  clean_url (strip piece) = true.
Proof.
  intros Hc Hn. unfold clean_url, strip in *.
  rewrite Hn, (has_char_rstrip _ _ (has_char_lstrip _ _ Hc)).
  by rewrite (rstrip_start _ (lstrip_start piece)), rstrip_end.
Qed.

Lemma clean_url_strip u : clean_url u = true -> strip u = u.
Proof.
  unfold clean_url. intros H.
  apply andb_true_iff in H as [H He]. apply andb_true_iff in H as [H Hs].
  apply negb_true_iff in He, Hs. by apply strip_id.
Qed.

End UrlFacts.

(** X23. Every URL that [_parse_image_urls] takes from a string is not
    empty, holds no comma, and neither starts nor ends with whitespace. *)
Theorem parse_image_urls_gives_clean_urls (rt : Py.Runtime) (urls : string) :
  Forall (fun u => GovEaseUrls.clean_url u = true)
         (GovEaseUrls._parse_image_urls rt (Py.PyStr urls)).
Proof.
  simpl. apply List.Forall_forall. intros u Hu.
  apply filter_In in Hu as [Hu Hn].
  apply in_map_iff in Hu as (piece & <- & Hpiece).
  apply strip_clean; [ | done].
  pose proof (split_on_pieces "," urls) as H.
  rewrite List.Forall_forall in H. by apply H.
Qed.

(** X24. Joining clean URLs with commas and parsing the result gives the
    URLs back, in order; the empty list comes back from the empty string. *)
Theorem parse_image_urls_of_join (rt : Py.Runtime) (urls : list string) :
  Forall (fun u => GovEaseUrls.clean_url u = true) urls ->
  GovEaseUrls._parse_image_urls rt (Py.PyStr (BatchInsert.join "," urls)) = urls.
Proof.
  intros H. destruct urls as [ | u urls]; [done | ].
  unfold GovEaseUrls._parse_image_urls.
  rewrite split_on_join; [ | done | ].
  - induction H as [ | v l Hv _ IH]; [done | ]. simpl.
    rewrite (clean_url_strip v Hv). rewrite IH.
    unfold GovEaseUrls.clean_url in Hv.
    apply andb_true_iff in Hv as [Hv _]. apply andb_true_iff in Hv as [Hv _].
    apply andb_true_iff in Hv as [-> _]. done.
  - eapply Forall_impl; [exact H | ]. intros v Hv. simpl in Hv.
    unfold GovEaseUrls.clean_url in Hv.
    apply andb_true_iff in Hv as [Hv _]. apply andb_true_iff in Hv as [Hv _].
    apply andb_true_iff in Hv as [_ Hv]. by apply negb_true_iff in Hv.
Qed.

(** The two URLs of the tests. *)
Lemma parse_image_urls_of_join_witness :
  let urls := ["http://example.com/img1.jpg"; "http://example.com/img2.jpg"]%string in
  Forall (fun u => GovEaseUrls.clean_url u = true) urls /\
  GovEaseUrls._parse_image_urls Fixtures.runtime
    (Py.PyStr "http://example.com/img1.jpg,http://example.com/img2.jpg") = urls.
Proof.
  intros urls.
  assert (Forall (fun u => GovEaseUrls.clean_url u = true) urls) as H
    by (repeat constructor).
  split; [exact H | ].
  exact (parse_image_urls_of_join Fixtures.runtime urls H).
Defined.

(** ** Cleaning up, once more *)

(** X25. After a [ClaytonExcelParser.parse] whose sheet could be read,
    the first [clean] succeeds and removes [data_frame]; a [clean] on the
    parser in that state raises [AttributeError]; a [parse] in that state
    binds the attribute again, so that [clean] works once more. *)
Theorem Clayton_clean_after_parse
    (rt : Py.Runtime) (fs : Parser.Files) (p : Clayton.parser)
    (excel_path : string) (t : Parser.table) :
  Parser.read_excel fs excel_path = Py.Ret t ->
  let p1 := snd (Clayton.parse rt fs p excel_path) in
  let removed := Clayton.mkParser Parser.Deleted in
  Clayton.clean p1 = (Py.Ret tt, removed) /\
  Clayton.clean removed =
  (Py.raise Py.AttributeError
     "'ClaytonExcelParser' object has no attribute 'data_frame'", removed) /\
  snd (Clayton.parse rt fs removed excel_path) = p1.
Proof.
  intros Hread p1 removed. subst p1. unfold Clayton.parse. rewrite Hread.
  by repeat split.
Qed.

(** The sheet of the examples. *)
Lemma Clayton_clean_after_parse_witness :
  let p1 := snd (Clayton.parse Fixtures.runtime Fixtures.files Clayton.init
                   "clayton.xlsx") in
  Clayton.clean p1 = (Py.Ret tt, Clayton.mkParser Parser.Deleted) /\
  fst (Clayton.clean (Clayton.mkParser Parser.Deleted)) =
  Py.raise Py.AttributeError
    "'ClaytonExcelParser' object has no attribute 'data_frame'".
Proof.
  intros p1.
  destruct (Clayton_clean_after_parse Fixtures.runtime Fixtures.files
              Clayton.init "clayton.xlsx" [Fixtures.clayton_padded_row]
              eq_refl) as (H1 & H2 & _).
  split; [exact H1 | ]. by rewrite H2.
Defined.
